(** * GRC agent core: control lookup, heuristic rules and DOCX table scan

    A shallow embedding of the Python sources
    [python/grc_agent/mcp/grc_tools.py], [python/grc_agent/data/*.py],
    [python/grc_agent/mappings/framework_mapper.py] and the table scan of
    [python/grc_agent/oscal_convert.py], followed by the properties the
    specification states about them.

    Conventions of the embedding.
    - A Python [str] is a [string]; its characters are the code points
      0..255.  [str.lower], [str.strip], [str.isspace] and the regular
      expression classes are given on that range as CPython defines them.
    - Parsed JSON is the inductive type [json]; a JSON object is an
      association list in insertion order.
    - A Python exception is a [Raise] result; code that reads the file
      system, the clock or the random generator runs in the monad [M] over
      an explicit [World].
    - The [async] functions are run one at a time, each to its end.
    - String constants of the source are carried as they are; the dash of
      the point-of-contact text, outside the range above, stands as its
      UTF-8 bytes and is never inspected. *)

From Stdlib Require Import ZArith String Ascii List Lia Bool DecimalString.
From stdpp Require Import base strings list gmap.

Open Scope string_scope.
Open Scope list_scope.
Open Scope Z_scope.

#[local] Arguments String.append !s1 s2 : simpl nomatch.

(** ** Python strings *)

Module Py.

(** [str.isspace] on one character: U+0009..U+000D, U+001C..U+0020, U+0085
    and U+00A0.  The class [\s] of [re] on [str] patterns is the same. *)
Definition isspace (c : ascii) : bool :=
  let n := N_of_ascii c in
  (((9 <=? n) && (n <=? 13)) || ((28 <=? n) && (n <=? 32))
   || (n =? 133) || (n =? 160))%N.

(** [str.lower] on one character: A..Z and the Latin-1 capitals U+00C0..U+00DE
    (without the multiplication sign U+00D7) move up by 32. *)
Definition lower_char (c : ascii) : ascii :=
  let n := N_of_ascii c in
  if (((65 <=? n) && (n <=? 90))
      || ((192 <=? n) && (n <=? 222) && negb (n =? 215)))%N
  then ascii_of_N (n + 32) else c.

Fixpoint lower (s : string) : string :=
  match s with
  | EmptyString => EmptyString
  | String c s' => String (lower_char c) (lower s')
  end.

Fixpoint lstrip (s : string) : string :=
  match s with
  | EmptyString => EmptyString
  | String c s' => if isspace c then lstrip s' else s
  end.

Fixpoint rstrip (s : string) : string :=
  match s with
  | EmptyString => EmptyString
  | String c s' =>
      match rstrip s' with
      | EmptyString => if isspace c then EmptyString else String c EmptyString
      | r => String c r
      end
  end.

(** [s.strip()] *)
Definition strip (s : string) : string := rstrip (lstrip s).

(** [s.startswith(p)] *)
Fixpoint startswith (p s : string) : bool :=
  match p, s with
  | EmptyString, _ => true
  | String a p', String b s' => if Ascii.eqb a b then startswith p' s' else false
  | String _ _, EmptyString => false
  end.

(** [needle in hay] on strings *)
Fixpoint contains (needle hay : string) : bool :=
  startswith needle hay ||
  match hay with
  | EmptyString => false
  | String _ hay' => contains needle hay'
  end.

(** [s[n:]] for [n >= 0] *)
Fixpoint drop (n : nat) (s : string) : string :=
  match n, s with
  | O, _ => s
  | S n', String _ s' => drop n' s'
  | S _, EmptyString => EmptyString
  end.

(** [s[:n]] for [n >= 0] *)
Fixpoint take (n : nat) (s : string) : string :=
  match n, s with
  | S n', String c s' => String c (take n' s')
  | _, _ => EmptyString
  end.

(** [s.replace(old, new)] for a non-empty [old]: occurrences are found left
    to right and do not overlap.  [skip] counts the characters of a matched
    occurrence that are still to be passed over. *)
Fixpoint replace_from (old new : string) (skip : nat) (s : string) : string :=
  match s with
  | EmptyString => EmptyString
  | String c s' =>
      match skip with
      | S k => replace_from old new k s'
      | O =>
          if startswith old s
          then new +:+ replace_from old new (String.length old - 1) s'
          else String c (replace_from old new O s')
      end
  end.

Definition replace (old new s : string) : string := replace_from old new O s.

(** [sep.join(parts)] *)
Fixpoint join (sep : string) (parts : list string) : string :=
  match parts with
  | [] => ""
  | [p] => p
  | p :: rest => p +:+ sep +:+ join sep rest
  end.

(** [str(n)] for an integer *)
Definition str_of_Z (n : Z) : string := NilZero.string_of_int (Z.to_int n).

End Py.

(** ** Results and exceptions *)

Inductive exn : Type :=
| AttributeError
| TypeError
| KeyError
| OSError
| UnicodeDecodeError
| JSONDecodeError
| OverflowError.

Inductive result (A : Type) : Type :=
| Ok (a : A)
| Raise (e : exn).
Arguments Ok {A} a.
Arguments Raise {A} e.

#[export] Instance result_ret : MRet result := fun _ a => Ok a.
#[export] Instance result_bind : MBind result := fun _ _ f r =>
  match r with
  | Ok a => f a
  | Raise e => Raise e
  end.

(** ** Parsed JSON values *)

#[warnings="-register-all"]
Inductive json : Type :=
| JNull
| JBool (b : bool)
| JNum (n : Z)
| JStr (s : string)
| JList (l : list json)
| JObj (kvs : list (string * json)).

Module Json.

Fixpoint assoc {V : Type} (k : string) (kvs : list (string * V)) : option V :=
  match kvs with
  | [] => None
  | (k', v) :: rest => if String.eqb k k' then Some v else assoc k rest
  end.

(** [d.get(k, default)]; an [AttributeError] when [d] is not a dict. *)
Definition get (d : json) (k : string) (default : json) : result json :=
  match d with
  | JObj kvs => Ok (match assoc k kvs with Some v => v | None => default end)
  | _ => Raise AttributeError
  end.

(** [d[k]] on a dict: a [KeyError] when the key is missing. *)
Definition item (d : json) (k : string) : result json :=
  match d with
  | JObj kvs => match assoc k kvs with Some v => Ok v | None => Raise KeyError end
  | _ => Raise TypeError
  end.

(** [{**d, k: v}] on the entries of a dict: an existing key keeps its place
    and takes the new value, a new key goes last. *)
Fixpoint set (k : string) (v : json) (kvs : list (string * json))
  : list (string * json) :=
  match kvs with
  | [] => [(k, v)]
  | (k', v') :: rest =>
      if String.eqb k k' then (k', v) :: rest else (k', v') :: set k v rest
  end.

(** The items a [for] loop sees: the elements of a list, the keys of a dict,
    the characters of a string; anything else is not iterable. *)
Definition iter (j : json) : result (list json) :=
  match j with
  | JList l => Ok l
  | JObj kvs => Ok (map (fun kv => JStr (fst kv)) kvs)
  | JStr s => Ok (map (fun c => JStr (String c EmptyString)) (list_ascii_of_string s))
  | _ => Raise TypeError
  end.

(** Truth value of a JSON value, as [if not x] takes it. *)
Definition truthy (j : json) : bool :=
  match j with
  | JNull => false
  | JBool b => b
  | JNum n => negb (n =? 0)
  | JStr s => negb (String.eqb s "")
  | JList l => match l with [] => false | _ => true end
  | JObj kvs => match kvs with [] => false | _ => true end
  end.

End Json.

(** ** The world: files, clock and random generator *)

(** A [datetime] in UTC: the proleptic Gregorian ordinal of its date
    ([date.toordinal()], 1 for 0001-01-01) and the second within the day. *)
Record datetime : Type := mk_datetime {
  ordinal : Z;
  second_of_day : Z;
}.

(** What the code reads from outside.  [files p] is what reading the file
    at [p] as UTF-8 text and handing the text to [json.loads] gives: the
    parsed value, or the exception raised on the way, [OSError] when the
    file cannot be opened or read, [UnicodeDecodeError] when its bytes are
    not UTF-8, [JSONDecodeError] when its text is not JSON.  [texts p] is
    what reading the file at [p] as UTF-8 text gives: the text, or the
    [OSError] or [UnicodeDecodeError] of the read.  [clock] is what
    [datetime.now(timezone.utc)] returns; [rng n] is the [n]-th raw draw of
    the process-wide random generator and [rng_pos] the number of draws
    made so far; [reads] lists the paths handed to the underlying file read,
    oldest first. *)
Record World : Type := mk_World {
  data_dir : string;
  files : string -> result json;
  texts : string -> result string;
  clock : datetime;
  rng : nat -> Z;
  rng_pos : nat;
  reads : list string;
}.

Definition M (A : Type) : Type := World -> result A * World.

#[export] Instance M_ret : MRet M := fun _ a w => (Ok a, w).
#[export] Instance M_bind : MBind M := fun _ _ f c w =>
  match c w with
  | (Ok a, w') => f a w'
  | (Raise e, w') => (Raise e, w')
  end.

(** A computation that only can raise, run inside [M]. *)
Definition lift {A : Type} (r : result A) : M A := fun w => (r, w).

Definition log_read (path : string) (w : World) : World :=
  mk_World (data_dir w) (files w) (texts w) (clock w) (rng w) (rng_pos w)
           (reads w ++ [path]).

(** [os.path.join(a, b)] for a relative [b]. *)
Definition path_join (a b : string) : string :=
  if String.eqb a "" then b
  else if String.eqb (Py.drop (String.length a - 1) a) "/" then a +:+ b
  else a +:+ "/" +:+ b.

(** [data_loader.load_json]: read the file, parse it; an exception of
    either step goes to the caller.  Nothing is kept between calls. *)
Definition load_json (path : string) : M json := fun w =>
  (files w path, log_read path w).

(** [framework_data.load_framework_data] *)
Definition load_framework_data (file_name : string) : M json := fun w =>
  load_json (path_join (data_dir w) file_name) w.

(** [framework_mapper.load_framework_mappings] *)
Definition load_framework_mappings : M json := fun w =>
  load_json (path_join (data_dir w) "framework-mappings.json") w.

(** [anyio.Path(path).read_text(encoding="utf-8")] *)
Definition read_text (path : string) : M string := fun w =>
  (texts w path, log_read path w).

(** [try: body  except Exception: handler] *)
Definition try_except {A : Type} (body : M A) (handler : M A) : M A := fun w =>
  match body w with
  | (Ok a, w') => (Ok a, w')
  | (Raise _, w') => handler w'
  end.

(** ** [grc_tools.py]: control lookup *)

Definition FRAMEWORK_FILES : list (string * string) :=
  [ ("NIST 800-53", "nist-800-53-r5.json");
    ("NIST 800-171", "nist-800-171-r2.json");
    ("CMMC", "cmmc-2.0-practices.json");
    ("NIST AI RMF", "nist-ai-rmf.json");
    ("ISO 42001", "iso-42001.json");
    ("EU AI Act", "eu-ai-act.json");
    ("ISO 27001", "iso-27001.json");
    ("SOC 2", "soc2.json");
    ("CSA CCM", "csa-ccm.json");
    ("NIST Privacy Framework", "nist-privacy-framework.json");
    ("GDPR", "gdpr.json");
    ("CCPA", "ccpa.json");
    ("OECD AI Principles", "oecd-ai-principles.json");
    ("White House EO 14110", "white-house-eo-14110.json");
    ("DFARS 252.204-7012", "dfars-252.204-7012.json");
    ("FISMA", "fisma.json");
    ("FedRAMP", "fedramp-baselines.json") ].

Definition _normalize (text : string) : string := Py.lower (Py.strip text).

(** [_normalize] applied to a value taken from framework data: anything but
    a [str] has no [strip]. *)
Definition normalize_value (v : json) : result string :=
  match v with
  | JStr s => Ok (_normalize s)
  | _ => Raise AttributeError
  end.

(** A search that returns at its first match: [next] is what the code goes
    on with when [r] found nothing. *)
Definition or_else (r next : result (option json)) : result (option json) :=
  found ← r;
  match found with
  | Some c => Ok (Some c)
  | None => next
  end.

(** The loop over the flat [controls] array. *)
Fixpoint scan_controls (target : string) (controls : list json)
  : result (option json) :=
  match controls with
  | [] => Ok None
  | ctrl :: rest =>
      id ← Json.get ctrl "id" (JStr "");
      n ← normalize_value id;
      if String.eqb n target then Ok (Some ctrl)
      else scan_controls target rest
  end.

(** The inner loop of the two nested shapes: the members ([practices] of a
    CMMC level, [categories] of an AI RMF function) of one [group]; a match
    is returned with key [tag] set to the group's value under [tag_from]. *)
Fixpoint scan_members (target : string) (group : json) (tag tag_from : string)
    (members : list json) : result (option json) :=
  match members with
  | [] => Ok None
  | member :: rest =>
      id ← Json.get member "id" (JStr "");
      n ← normalize_value id;
      if String.eqb n target then
        match member with
        | JObj kvs =>
            t ← Json.get group tag_from JNull;
            Ok (Some (JObj (Json.set tag t kvs)))
        | _ => Raise TypeError
        end
      else scan_members target group tag tag_from rest
  end.

(** The outer loop of the two nested shapes. *)
Fixpoint scan_groups (target : string) (members_key tag tag_from : string)
    (groups : list json) : result (option json) :=
  match groups with
  | [] => Ok None
  | group :: rest =>
      ms ← Json.get group members_key (JList []);
      members ← Json.iter ms;
      or_else (scan_members target group tag tag_from members)
              (scan_groups target members_key tag tag_from rest)
  end.

(** The loop over the FedRAMP [baselines] array.  The f-string is only
    reached with a [str] under ["baseline"]: a missing key raises at
    [baseline["baseline"]], and any other value has already raised in
    [_normalize]. *)
Fixpoint scan_baselines (target : string) (baselines : list json)
  : result (option json) :=
  match baselines with
  | [] => Ok None
  | baseline :: rest =>
      b ← Json.get baseline "baseline" (JStr "");
      n ← normalize_value b;
      if String.eqb n target then
        name ← Json.item baseline "baseline";
        match name with
        | JStr s =>
            desc ← Json.get baseline "description" (JStr "");
            Ok (Some (JObj [ ("id", name);
                             ("name", JStr ("FedRAMP " +:+ s +:+ " baseline"));
                             ("requirements", JList [desc]) ]))
        | _ => Raise TypeError
        end
      else scan_baselines target rest
  end.

(** The body of [_find_control] once the document is loaded: each branch
    returns at its first match, the next one runs when it found none. *)
Definition find_in_data (framework : string) (data : json) (target : string)
  : result (option json) :=
  controls ← Json.get data "controls" JNull;
  or_else (match controls with
           | JList l => scan_controls target l
           | _ => Ok None
           end)
  (or_else (if String.eqb framework "CMMC" then
              levels ← Json.get data "levels" (JList []);
              l ← Json.iter levels;
              scan_groups target "practices" "level" "level" l
            else Ok None)
  (or_else (if String.eqb framework "NIST AI RMF" then
              funcs ← Json.get data "functions" (JList []);
              l ← Json.iter funcs;
              scan_groups target "categories" "function" "id" l
            else Ok None)
  (or_else (if String.eqb framework "FedRAMP" then
              bs ← Json.get data "baselines" (JList []);
              l ← Json.iter bs;
              scan_baselines target l
            else Ok None)
  (Ok None)))).

Definition _find_control (framework control_id : string) : M (option json) :=
  match Json.assoc framework FRAMEWORK_FILES with
  | None => mret None
  | Some file_name =>
      if String.eqb file_name "" then mret None
      else
        data ← load_framework_data file_name;
        lift (find_in_data framework data (_normalize control_id))
  end.

(** [not control] for what [_find_control] returns. *)
Definition not_found (control : option json) : bool :=
  match control with
  | None => true
  | Some c => negb (Json.truthy c)
  end.

Record LookupArgs : Type := mk_LookupArgs {
  la_framework : string;
  la_control_id : string;
}.

Record LookupResult : Type := mk_LookupResult {
  lr_framework : string;
  lr_control_id : json;
  lr_control_name : json;
  lr_requirements : json;
  lr_assessment_objectives : json;
}.

Definition control_lookup (args : LookupArgs) : M LookupResult :=
  control ← _find_control (la_framework args) (la_control_id args);
  match control with
  | Some c =>
      if negb (Json.truthy c) then
        mret (mk_LookupResult (la_framework args) (JStr (la_control_id args))
                              JNull (JList []) (JList []))
      else
        lift (id ← Json.get c "id" (JStr (la_control_id args));
              name ← Json.get c "name" JNull;
              reqs ← Json.get c "requirements" (JList []);
              objs ← Json.get c "assessment_objectives" (JList []);
              Ok (mk_LookupResult (la_framework args) id name reqs objs))
  | None =>
      mret (mk_LookupResult (la_framework args) (JStr (la_control_id args))
                            JNull (JList []) (JList []))
  end.

(** ** [grc_tools.py]: framework mapping *)

Record MapperArgs : Type := mk_MapperArgs {
  ma_source_framework : string;
  ma_control_ids : list string;
}.

(** One [{"framework": ..., "control_id": ...}] entry of a result group. *)
Record Related : Type := mk_Related {
  rel_framework : json;
  rel_control_id : json;
}.

Record MappingGroup : Type := mk_MappingGroup {
  mg_source_control_id : string;
  mg_related : list Related;
}.

Record MapperResult : Type := mk_MapperResult {
  mr_source_framework : string;
  mr_mappings : list MappingGroup;
}.

(** [entry.get("source") == source_framework] *)
Definition is_str (v : json) (s : string) : bool :=
  match v with
  | JStr s' => String.eqb s' s
  | _ => false
  end.

Fixpoint related_entries (source : string) (entries : list json)
  : result (list json) :=
  match entries with
  | [] => Ok []
  | entry :: rest =>
      src ← Json.get entry "source" JNull;
      tl ← related_entries source rest;
      Ok (if is_str src source then entry :: tl else tl)
  end.

(** The loop over the pairs of one mapping entry. *)
Fixpoint pairs_of_entry (normalized : string) (entry : json) (ms : list json)
  : result (list Related) :=
  match ms with
  | [] => Ok []
  | m :: rest =>
      sid ← Json.get m "source_control_id" (JStr "");
      n ← normalize_value sid;
      hd ← (if String.eqb n normalized then
              fw ← Json.item entry "target";
              tid ← Json.item m "target_control_id";
              Ok [mk_Related fw tid]
            else Ok []);
      tl ← pairs_of_entry normalized entry rest;
      Ok (hd ++ tl)
  end.

Fixpoint pairs_of_entries (normalized : string) (related : list json)
  : result (list Related) :=
  match related with
  | [] => Ok []
  | entry :: rest =>
      ms ← Json.get entry "mappings" (JList []);
      l ← Json.iter ms;
      hd ← pairs_of_entry normalized entry l;
      tl ← pairs_of_entries normalized rest;
      Ok (hd ++ tl)
  end.

Fixpoint map_control_ids (related : list json) (cids : list string)
  : result (list MappingGroup) :=
  match cids with
  | [] => Ok []
  | cid :: rest =>
      mapped ← pairs_of_entries (_normalize cid) related;
      tl ← map_control_ids related rest;
      Ok (mk_MappingGroup cid mapped :: tl)
  end.

Definition framework_mapper (args : MapperArgs) : M MapperResult :=
  mappings_file ← load_framework_mappings;
  lift (entries ← Json.get mappings_file "mappings" (JList []);
        l ← Json.iter entries;
        related ← related_entries (ma_source_framework args) l;
        groups ← map_control_ids related (ma_control_ids args);
        Ok (mk_MapperResult (ma_source_framework args) groups)).

(** ** [grc_tools.py]: gap analysis *)

Record GapArgs : Type := mk_GapArgs {
  ga_framework : string;
  ga_control_id : string;
  ga_implementation_description : string;
}.

Record GapResult : Type := mk_GapResult {
  gr_control_id : string;
  gr_requirements : json;
  gr_implementation_description : string;
  gr_heuristic_gaps : list string;
}.

(** [[req for req in requirements if _normalize(req) not in description]];
    a [req] that is kept is a [str], [_normalize] raises on anything else. *)
Fixpoint gaps_in (description : string) (requirements : list json)
  : result (list string) :=
  match requirements with
  | [] => Ok []
  | req :: rest =>
      match req with
      | JStr s =>
          tl ← gaps_in description rest;
          Ok (if Py.contains (_normalize s) description then tl else s :: tl)
      | _ => Raise AttributeError
      end
  end.

Definition gap_analyzer (args : GapArgs) : M GapResult :=
  control ← _find_control (ga_framework args) (ga_control_id args);
  match control with
  | Some c =>
      if negb (Json.truthy c) then
        mret (mk_GapResult (ga_control_id args) (JList [])
                (ga_implementation_description args)
                ["Control not found in data set."])
      else
        lift (let description := _normalize (ga_implementation_description args) in
              requirements ← Json.get c "requirements" (JList []);
              reqs ← Json.iter requirements;
              heuristic_gaps ← gaps_in description reqs;
              Ok (mk_GapResult (ga_control_id args) requirements
                    (ga_implementation_description args) heuristic_gaps))
  | None =>
      mret (mk_GapResult (ga_control_id args) (JList [])
              (ga_implementation_description args)
              ["Control not found in data set."])
  end.

(** ** [grc_tools.py]: evidence validation *)

Record EvidenceArgs : Type := mk_EvidenceArgs {
  ea_control_id : string;
  ea_evidence_paths : list string;
}.

Record FileResult : Type := mk_FileResult {
  fr_path : string;
  fr_readable : bool;
  fr_excerpt : string;
  fr_heuristic_match : bool;
}.

Record EvidenceResult : Type := mk_EvidenceResult {
  er_control_id : string;
  er_file_results : list FileResult;
}.

Fixpoint validate_paths (control_token : string) (paths : list string)
  : M (list FileResult) :=
  match paths with
  | [] => mret []
  | path :: rest =>
      r ← try_except
            (content ← read_text path;
             mret (mk_FileResult path true (Py.take 2000 content)
                     (Py.contains control_token (_normalize content))))
            (mret (mk_FileResult path false "" false));
      tl ← validate_paths control_token rest;
      mret (r :: tl)
  end.

Definition evidence_validator (args : EvidenceArgs) : M EvidenceResult :=
  file_results ← validate_paths (_normalize (ea_control_id args))
                                (ea_evidence_paths args);
  mret (mk_EvidenceResult (ea_control_id args) file_results).

(** ** [grc_tools.py]: CMMC level gating *)

(** One item of [args["implementations"]]; the tool's input schema gives
    both fields the type string. *)
Record Implementation : Type := mk_Implementation {
  im_control_id : string;
  im_status : string;
}.

Record CmmcResult : Type := mk_CmmcResult {
  cr_level : json;
  cr_gaps_to_next_level : nat;
}.

(** [_normalize(item["status"]) in ("implemented", "satisfied")] *)
Definition counts_as_implemented (item : Implementation) : bool :=
  let s := _normalize (im_status item) in
  String.eqb s "implemented" || String.eqb s "satisfied".

(** The set comprehension that builds [implemented]. *)
Fixpoint implemented_set (items : list Implementation) : gset string :=
  match items with
  | [] => ∅
  | item :: rest =>
      if counts_as_implemented item
      then {[ _normalize (im_control_id item) ]} ∪ implemented_set rest
      else implemented_set rest
  end.

(** [[p for p in practices if _normalize(p.get("id", "")) not in implemented]] *)
Fixpoint missing_practices (implemented : gset string) (practices : list json)
  : result (list json) :=
  match practices with
  | [] => Ok []
  | p :: rest =>
      id ← Json.get p "id" (JStr "");
      n ← normalize_value id;
      tl ← missing_practices implemented rest;
      Ok (if bool_decide (n ∈ implemented) then tl else p :: tl)
  end.

(** The loop over the declared levels; [achieved] is the loop's variable,
    [gaps_to_next] stays 0 unless the loop breaks. *)
Fixpoint walk_levels (implemented : gset string) (achieved : json)
    (levels : list json) : result CmmcResult :=
  match levels with
  | [] => Ok (mk_CmmcResult achieved 0)
  | level :: rest =>
      ps ← Json.get level "practices" (JList []);
      practices ← Json.iter ps;
      missing ← missing_practices implemented practices;
      match missing with
      | [] =>
          a ← Json.get level "level" (JStr "None");
          walk_levels implemented a rest
      | _ :: _ => Ok (mk_CmmcResult achieved (length missing))
      end
  end.

Definition cmmc_level_checker (implementations : list Implementation)
  : M CmmcResult :=
  match Json.assoc "CMMC" FRAMEWORK_FILES with
  | None => lift (Raise KeyError)
  | Some file_name =>
      data ← load_framework_data file_name;
      lift (let implemented := implemented_set implementations in
            levels ← Json.get data "levels" (JList []);
            l ← Json.iter levels;
            walk_levels implemented (JStr "None") l)
  end.

(** ** [grc_tools.py]: AI risk classification *)

Record RiskClass : Type := mk_RiskClass {
  eu_ai_act_risk_tier : string;
  nist_ai_rmf_function : string;
}.

Definition ai_risk_classifier (system_description : string) : RiskClass :=
  let text := _normalize system_description in
  if Py.contains "social scoring" text || Py.contains "subliminal" text then
    mk_RiskClass "unacceptable" "govern"
  else if existsb (fun kw => Py.contains kw text)
            ["biometric"; "critical infrastructure"; "employment"; "law enforcement"] then
    mk_RiskClass "high" "map"
  else if Py.contains "chatbot" text || Py.contains "recommendation" text then
    mk_RiskClass "limited" "measure"
  else mk_RiskClass "minimal" "manage".

(** ** [grc_tools.py]: baseline selection *)

(** The three impacts are required keys; the other three are read with
    [args.get] and may be absent. *)
Record BaselineArgs : Type := mk_BaselineArgs {
  confidentiality_impact : string;
  integrity_impact : string;
  availability_impact : string;
  data_types : option (list string);
  mission : option string;
  regulatory_requirements : option (list string);
}.

Record Fips199 : Type := mk_Fips199 {
  confidentiality : string;
  integrity : string;
  availability : string;
  overall : string;
}.

Record BaselineResult : Type := mk_BaselineResult {
  fedramp_baseline : string;
  dod_impact_level : option string;
  fips_199_categorization : Fips199;
  rationale : list string;
}.

Definition impact_rank : list (string * Z) :=
  [("low", 1); ("moderate", 2); ("high", 3)].

(** [rank_to_level.get(rank, "low")] *)
Definition rank_to_level (rank : Z) : string :=
  if rank =? 1 then "low" else if rank =? 2 then "moderate"
  else if rank =? 3 then "high" else "low".

Definition baseline_map : list (string * string) :=
  [("low", "FedRAMP Low"); ("moderate", "FedRAMP Moderate"); ("high", "FedRAMP High")].

Definition get_or {V : Type} (d : list (string * V)) (k : string) (default : V) : V :=
  match Json.assoc k d with
  | Some v => v
  | None => default
  end.

Definition baseline_selector (args : BaselineArgs) : BaselineResult :=
  let c_rank := get_or impact_rank (confidentiality_impact args) 1 in
  let i_rank := get_or impact_rank (integrity_impact args) 1 in
  let a_rank := get_or impact_rank (availability_impact args) 1 in
  let overall_rank := Z.max (Z.max c_rank i_rank) a_rank in
  let overall := rank_to_level overall_rank in
  let fedramp_baseline := get_or baseline_map overall "FedRAMP Low" in
  let data_types_arg := default [] (data_types args) in
  let mission_arg := default "" (mission args) in
  let dts := map _normalize data_types_arg in
  let mission_text := _normalize mission_arg in
  let dod_il :=
    if existsb (fun t => Py.contains "classified" t || Py.contains "secret" t) dts
    then Some "IL6"
    else if existsb (Py.contains "cui") dts
            && (Py.contains "mission critical" mission_text
                || Py.contains "national security" mission_text)
    then Some "IL5"
    else if existsb (Py.contains "cui") dts then Some "IL4"
    else if existsb (Py.contains "public") dts || String.eqb overall "low"
    then Some "IL2"
    else None in
  let rationale :=
    [ "FIPS 199 categorization: C=" +:+ confidentiality_impact args
        +:+ ", I=" +:+ integrity_impact args
        +:+ ", A=" +:+ availability_impact args;
      "High-water mark: " +:+ overall
        +:+ " (highest of C/I/A determines overall impact)";
      "FedRAMP baseline: " +:+ fedramp_baseline ]
    ++ match dod_il with
       | Some il =>
           ("DoD Impact Level: " +:+ il)
           :: (if String.eqb il "IL5" || String.eqb il "IL6"
               then ["Note: IL5/IL6 require DISA Cloud Computing SRG overlays beyond FedRAMP controls"]
               else [])
       | None => []
       end
    ++ [ "Data types: " +:+ Py.join ", " data_types_arg;
         "Mission: " +:+ mission_arg ]
    ++ match default [] (regulatory_requirements args) with
       | [] => []
       | regs => ["Regulatory requirements: " +:+ Py.join ", " regs]
       end in
  mk_BaselineResult fedramp_baseline dod_il
    (mk_Fips199 (confidentiality_impact args) (integrity_impact args)
                (availability_impact args) overall)
    rationale.

(** ** Dates: the proleptic Gregorian calendar of [datetime] *)

Module Date.

Definition MAXORDINAL : Z := 3652059.

Definition is_leap (year : Z) : bool :=
  (year mod 4 =? 0) && (negb (year mod 100 =? 0) || (year mod 400 =? 0)).

(** Days before January 1st of [year]. *)
Definition days_before_year (year : Z) : Z :=
  let y := year - 1 in
  y * 365 + y / 4 - y / 100 + y / 400.

Definition DAYS_IN_MONTH : list Z :=
  [-1; 31; 28; 31; 30; 31; 30; 31; 31; 30; 31; 30; 31].

Definition DAYS_BEFORE_MONTH : list Z :=
  [-1; 0; 31; 59; 90; 120; 151; 181; 212; 243; 273; 304; 334].

Definition b2z (b : bool) : Z := if b then 1 else 0.

(** Days in [year] before the first day of [month]. *)
Definition days_before_month (year month : Z) : Z :=
  nth (Z.to_nat month) DAYS_BEFORE_MONTH 0
  + b2z ((2 <? month) && is_leap year).

(** [(year, month, day)] to ordinal, 0001-01-01 being day 1. *)
Definition ymd2ord (year month day : Z) : Z :=
  days_before_year year + days_before_month year month + day.

Definition DI400Y : Z := 146097.
Definition DI100Y : Z := 36524.
Definition DI4Y : Z := 1461.

(** Month and day of day number [n] (0 for January 1st) of a year: the
    month is estimated from [n] and taken back by one where the estimate is
    too large. *)
Definition month_day (leapyear : bool) (n : Z) : Z * Z :=
  let month := Z.shiftr (n + 50) 5 in
  let preceding :=
    nth (Z.to_nat month) DAYS_BEFORE_MONTH 0 + b2z ((2 <? month) && leapyear) in
  if n <? preceding then
    let month := month - 1 in
    let preceding :=
      preceding
      - (nth (Z.to_nat month) DAYS_IN_MONTH 0 + b2z ((month =? 2) && leapyear)) in
    (month, n - preceding + 1)
  else (month, n - preceding + 1).

(** Ordinal to [(year, month, day)]. *)
Definition ord2ymd (ord : Z) : Z * Z * Z :=
  let n := ord - 1 in
  let n400 := n / DI400Y in
  let n := n mod DI400Y in
  let year := n400 * 400 + 1 in
  let n100 := n / DI100Y in
  let n := n mod DI100Y in
  let n4 := n / DI4Y in
  let n := n mod DI4Y in
  let n1 := n / 365 in
  let n := n mod 365 in
  let year := year + n100 * 100 + n4 * 4 + n1 in
  if (n1 =? 4) || (n100 =? 4) then (year - 1, 12, 31)
  else
    let leapyear := (n1 =? 3) && (negb (n4 =? 24) || (n100 =? 3)) in
    let '(month, day) := month_day leapyear n in
    (year, month, day).

(** [month_day] lands in a month and on a day of it, for every day number
    but the last of a leap year. *)
Definition month_day_ok (leapyear : bool) (k : nat) : bool :=
  let n := Z.of_nat k in
  let '(m, d) := month_day leapyear n in
  (1 <=? m) && (m <=? 12) && (1 <=? d) && (d <=? 31)
  && (nth (Z.to_nat m) DAYS_BEFORE_MONTH 0 + b2z ((2 <? m) && leapyear) + d
      =? n + 1).

(** One decimal digit. *)
Definition digit (n : Z) : ascii := ascii_of_N (Z.to_N (48 + n mod 10)).

(** [%m] and [%d]: two digits. *)
Definition pad2 (n : Z) : string :=
  String (digit (n / 10)) (String (digit n) "").

(** [%Y]: four digits. *)
Definition pad4 (n : Z) : string :=
  String (digit (n / 1000)) (String (digit (n / 100)) (pad2 n)).

(** [d.strftime("%Y%m%d")] *)
Definition strftime_compact (d : datetime) : string :=
  let '(y, m, dd) := ord2ymd (ordinal d) in
  pad4 y +:+ pad2 m +:+ pad2 dd.

(** [d.strftime("%Y-%m-%d")] *)
Definition strftime_iso (d : datetime) : string :=
  let '(y, m, dd) := ord2ymd (ordinal d) in
  pad4 y +:+ "-" +:+ pad2 m +:+ "-" +:+ pad2 dd.

(** [d + timedelta(days=n)]: the time of day is kept; a date outside
    0001-01-01..9999-12-31 is an [OverflowError]. *)
Definition add_days (d : datetime) (n : Z) : result datetime :=
  let o := ordinal d + n in
  if (1 <=? o) && (o <=? MAXORDINAL)
  then Ok (mk_datetime o (second_of_day d))
  else Raise OverflowError.

(** The value of a decimal digit character. *)
Definition digit_value (c : ascii) : option Z :=
  let n := Z.of_N (N_of_ascii c) in
  if (48 <=? n) && (n <=? 57) then Some (n - 48) else None.

(** The ordinal of the day an ISO date [YYYY-MM-DD] names
    ([date.fromisoformat(s).toordinal()]). *)
Definition ordinal_of_iso (s : string) : option Z :=
  match list_ascii_of_string s with
  | [y1; y2; y3; y4; dash1; m1; m2; dash2; d1; d2] =>
      if Ascii.eqb dash1 "-" && Ascii.eqb dash2 "-" then
        a ← digit_value y1; b ← digit_value y2; c ← digit_value y3;
        d ← digit_value y4; e ← digit_value m1; f ← digit_value m2;
        g ← digit_value d1; h ← digit_value d2;
        Some (ymd2ord (1000 * a + 100 * b + 10 * c + d) (10 * e + f) (10 * g + h))
      else None
  | _ => None
  end.

End Date.

(** [datetime.now(timezone.utc)] *)
Definition now : M datetime := fun w => (Ok (clock w), w).

(** [random.randint(a, b)]: the next raw draw, brought into [a..b]. *)
Definition randint (a b : Z) : M Z := fun w =>
  (Ok (a + rng w (rng_pos w) mod (b - a + 1)),
   mk_World (data_dir w) (files w) (texts w) (clock w) (rng w)
            (S (rng_pos w)) (reads w)).

(** ** [grc_tools.py]: finding generation *)

(** [gap_summary] is a required key, [risk_level] is read with [args.get]. *)
Record FindingArgs : Type := mk_FindingArgs {
  gap_summary : string;
  risk_level : option string;
}.

Record Milestone : Type := mk_Milestone {
  description : string;
  due_date : string;
}.

Record PoamEntry : Type := mk_PoamEntry {
  weakness_description : string;
  point_of_contact : string;
  resources_required : string;
  scheduled_completion_date : string;
  milestones : list Milestone;
  source : string;
  status : string;
  deviation_request : bool;
  original_detection_date : string;
  vendor_dependency : bool;
  false_positive : bool;
}.

Record Finding : Type := mk_Finding {
  finding_id : string;
  poam_required : bool;
  poam_entry : PoamEntry;
  remediation_steps : list string;
}.

Definition remediation_table : list (string * Z) :=
  [("critical", 30); ("high", 90); ("moderate", 180); ("low", 365)].

Definition finding_generator (args : FindingArgs) : M Finding :=
  now_ ← now;
  let timestamp := Date.strftime_compact now_ in
  let date_str := Date.strftime_iso now_ in
  let risk := default "moderate" (risk_level args) in
  let remediation_days := get_or remediation_table risk 180 in
  completion ← lift (Date.add_days now_ remediation_days);
  let completion_date := Date.strftime_iso completion in
  midpoint ← lift (Date.add_days now_ (remediation_days / 2));
  let midpoint_date := Date.strftime_iso midpoint in
  suffix ← randint 100 999;
  mret (mk_Finding
          ("F-" +:+ timestamp +:+ "-" +:+ Py.str_of_Z suffix)
          true
          (mk_PoamEntry
             (gap_summary args)
             "ISSO — to be assigned"
             "Engineering and security team remediation effort"
             completion_date
             [ mk_Milestone "Develop remediation plan and assign resources" midpoint_date;
               mk_Milestone "Implement remediation and validate effectiveness" completion_date ]
             "assessment"
             "open"
             false
             date_str
             false
             false)
          [ gap_summary args;
            "Remediation target: " +:+ completion_date +:+ " ("
              +:+ Py.str_of_Z remediation_days +:+ " days based on " +:+ risk
              +:+ " risk level)." ]).

(** ** [oscal_convert.py]: the table scan of the DOCX extractor *)

Module Re.

Definition is_upper (c : ascii) : bool :=
  let n := N_of_ascii c in ((65 <=? n) && (n <=? 90))%N.

Definition is_digit (c : ascii) : bool :=
  let n := N_of_ascii c in ((48 <=? n) && (n <=? 57))%N.

(** [[a-z]] under [re.IGNORECASE] *)
Definition is_letter (c : ascii) : bool :=
  let n := N_of_ascii c in
  (((65 <=? n) && (n <=? 90)) || ((97 <=? n) && (n <=? 122)))%N.

(** The longest prefix whose characters satisfy [p], and what follows it:
    a greedy [p*]. *)
Fixpoint span (p : ascii -> bool) (s : string) : string * string :=
  match s with
  | EmptyString => (EmptyString, EmptyString)
  | String c s' =>
      if p c then let '(a, b) := span p s' in (String c a, b)
      else (EmptyString, s)
  end.

(** [\d+]: at least one digit, as many as there are. *)
Definition digits1 (s : string) : option (string * string) :=
  match span is_digit s with
  | (EmptyString, _) => None
  | (ds, rest) => Some (ds, rest)
  end.

(** [\s+]: at least one blank, as many as there are; what follows. *)
Definition spaces1 (s : string) : option string :=
  match span Py.isspace s with
  | (EmptyString, _) => None
  | (_, rest) => Some rest
  end.

(** [([A-Z]{2}-\d+(?:\(\d+\))?)] at the start of [s]: the group and what
    follows it.  The classes that meet in the pattern are disjoint, so the
    greedy choices are the only ones a backtracking matcher can succeed
    with. *)
Definition control_id_prefix (s : string) : option (string * string) :=
  match s with
  | String a (String b (String dash s1)) =>
      if is_upper a && is_upper b && Ascii.eqb dash "-" then
        match digits1 s1 with
        | None => None
        | Some (ds, s2) =>
            let base := String a (String b (String dash ds)) in
            match s2 with
            | String open s3 =>
                if Ascii.eqb open "(" then
                  match digits1 s3 with
                  | Some (es, String close s4) =>
                      if Ascii.eqb close ")"
                      then Some (base +:+ "(" +:+ es +:+ ")", s4)
                      else Some (base, s2)
                  | _ => Some (base, s2)
                  end
                else Some (base, s2)
            | EmptyString => Some (base, s2)
            end
        end
      else None
  | _ => None
  end.

(** [re.match] of [^(<control id>)\s+<literal>]: group 1 on a match. *)
Definition match_header (literal : string) (s : string) : option string :=
  match control_id_prefix s with
  | None => None
  | Some (cid, rest) =>
      match spaces1 rest with
      | None => None
      | Some rest' => if Py.startswith literal rest' then Some cid else None
      end
  end.

(** [_CIS_HEADER_RE.match] *)
Definition CIS_HEADER (s : string) : option string :=
  match_header "Control Summary Information" s.

(** [_STATEMENT_HEADER_RE.match] *)
Definition STATEMENT_HEADER (s : string) : option string :=
  match_header "What is the solution" s.

(** [_PART_LABEL_RE.match], [^Part\s+\(?([a-z])\)?:] ignoring case: group 1
    and the text after the match.  The pattern is anchored, so
    [_PART_LABEL_RE.sub("", text)] is that text. *)
Definition PART_LABEL (s : string) : option (ascii * string) :=
  if String.eqb (Py.lower (Py.take 4 s)) "part" then
    match spaces1 (Py.drop 4 s) with
    | None => None
    | Some s1 =>
        let s2 := match s1 with
                  | String c r => if Ascii.eqb c "(" then r else s1
                  | EmptyString => s1
                  end in
        match s2 with
        | String letter s3 =>
            if is_letter letter then
              let s4 := match s3 with
                        | String c r => if Ascii.eqb c ")" then r else s3
                        | EmptyString => s3
                        end in
              match s4 with
              | String colon s5 =>
                  if Ascii.eqb colon ":" then Some (letter, s5) else None
              | EmptyString => None
              end
            else None
        | EmptyString => None
        end
    end
  else None.

(** The lazy [(\S+?):] : the shortest non-empty run of non-blank characters
    that a colon follows; the run, and the text after the colon. *)
Fixpoint lazy_until_colon (s : string) : option (string * string) :=
  match s with
  | String c s' =>
      if Py.isspace c then None
      else
        match s' with
        | String c' s'' =>
            if Ascii.eqb c' ":" then Some (String c EmptyString, s'')
            else match lazy_until_colon s' with
                 | Some (run, rest) => Some (String c run, rest)
                 | None => None
                 end
        | EmptyString => None
        end
  | EmptyString => None
  end.

(** The final group, any characters but a line feed: up to the first line
    feed. *)
Fixpoint line (s : string) : string :=
  match s with
  | EmptyString => EmptyString
  | String c s' => if Ascii.eqb c "010" then EmptyString else String c (line s')
  end.

(** [re.match] of the parameter pattern, [Parameter], blanks, a lazy name,
    a colon, blanks, the rest of the line: groups 1 and 2. *)
Definition PARAMETER (s : string) : option (string * string) :=
  if Py.startswith "Parameter" s then
    match spaces1 (Py.drop 9 s) with
    | None => None
    | Some s1 =>
        match lazy_until_colon s1 with
        | None => None
        | Some (name, s2) => Some (name, line (snd (span Py.isspace s2)))
        end
    end
  else None.

End Re.

Record Cis : Type := mk_Cis {
  cis_control_id : string;
  cis_status : string;
  cis_origination : string;
  cis_roles : string;
  cis_params : gmap string string;
}.

Record ExtractedControl : Type := mk_ExtractedControl {
  control_id : string;
  ec_status : string;
  origination : string;
  roles : string;
  params : gmap string string;
  parts : gmap string string;
  raw_narrative : string;
}.

(** The loop over the cells of a summary table; [acc] holds [status],
    [origination], [roles] and [params] so far. *)
Fixpoint cis_cells (acc : Cis) (cell_texts : list string) : Cis :=
  match cell_texts with
  | [] => acc
  | text :: rest =>
      let trimmed := Py.strip text in
      let acc' :=
        if Py.startswith "Responsible Role:" trimmed then
          mk_Cis (cis_control_id acc) (cis_status acc) (cis_origination acc)
                 (Py.strip (Py.replace "Responsible Role:" "" trimmed))
                 (cis_params acc)
        else if Py.startswith "Implementation Status" trimmed then
          mk_Cis (cis_control_id acc) trimmed (cis_origination acc)
                 (cis_roles acc) (cis_params acc)
        else if Py.startswith "Control Origination" trimmed then
          mk_Cis (cis_control_id acc) (cis_status acc) trimmed
                 (cis_roles acc) (cis_params acc)
        else if Py.startswith "Parameter " trimmed then
          match Re.PARAMETER trimmed with
          | Some (name, value) =>
              mk_Cis (cis_control_id acc) (cis_status acc) (cis_origination acc)
                     (cis_roles acc) (<[name := value]> (cis_params acc))
          | None => acc
          end
        else acc in
      cis_cells acc' rest
  end.

Definition _parse_cis_table (cell_texts : list string) : option Cis :=
  match cell_texts with
  | [] => None
  | header :: _ =>
      match Re.CIS_HEADER header with
      | None => None
      | Some cid => Some (cis_cells (mk_Cis (Py.lower cid) "" "" "" ∅) cell_texts)
      end
  end.

(** The loop over the cells of a statement table after its header. *)
Fixpoint statement_cells (parts : gmap string string) (lines : list string)
    (cell_texts : list string) : gmap string string * list string :=
  match cell_texts with
  | [] => (parts, lines)
  | text :: rest =>
      let text := Py.strip text in
      if String.eqb text "" then statement_cells parts lines rest
      else
        let parts' :=
          match Re.PART_LABEL text with
          | Some (letter, after) =>
              <[String (Py.lower_char letter) EmptyString := Py.strip after]> parts
          | None => parts
          end in
        statement_cells parts' (lines ++ [text]) rest
  end.

Definition _parse_statement_table (cell_texts : list string)
  : gmap string string * string :=
  let '(parts, lines) := statement_cells ∅ [] (tl cell_texts) in
  (parts, Py.join (String "010" EmptyString) lines).

(** [next_texts and _STATEMENT_HEADER_RE.match(next_texts[0])] *)
Definition is_statement_table (next_texts : list string) : bool :=
  match next_texts with
  | [] => false
  | header :: _ => match Re.STATEMENT_HEADER header with Some _ => true | None => false end
  end.

Definition make_control (cis : Cis) (parts : gmap string string)
    (raw_narrative : string) : ExtractedControl :=
  mk_ExtractedControl (cis_control_id cis) (cis_status cis) (cis_origination cis)
    (cis_roles cis) (cis_params cis) parts raw_narrative.

(** The [while i < len(tables)] loop of [_extract_docx_controls]; the
    argument is [tables[i:]], each table given by its cell texts, and the
    result is what the loop appends to [controls] from there on. *)
Fixpoint extract_controls (tables : list (list string)) : list ExtractedControl :=
  match tables with
  | [] => []
  | cell_texts :: rest =>
      match _parse_cis_table cell_texts with
      | None => extract_controls rest
      | Some cis =>
          match rest with
          | next_texts :: rest' =>
              if is_statement_table next_texts then
                let '(parts, raw_narrative) := _parse_statement_table next_texts in
                make_control cis parts raw_narrative :: extract_controls rest'
              else make_control cis ∅ "" :: extract_controls rest
          | [] => [make_control cis ∅ ""]
          end
      end
  end.

(** ** Notions the properties are stated with *)

(** The other case of a letter: A..Z and a..z swap, and so do the Latin-1
    letters U+00C0..U+00DE and U+00E0..U+00FE (U+00D7 and U+00F7 are signs);
    any other character is left as it is. *)
Definition toggle_case (c : ascii) : ascii :=
  let n := N_of_ascii c in
  if (((65 <=? n) && (n <=? 90))
      || ((192 <=? n) && (n <=? 222) && negb (n =? 215)))%N
  then ascii_of_N (n + 32)
  else if (((97 <=? n) && (n <=? 122))
           || ((224 <=? n) && (n <=? 254) && negb (n =? 247)))%N
  then ascii_of_N (n - 32)
  else c.

(** [t] is [s] with the case of some letters changed. *)
Inductive case_variant : string -> string -> Prop :=
| cv_nil : case_variant "" ""
| cv_same c s t : case_variant s t -> case_variant (String c s) (String c t)
| cv_toggle c s t :
    case_variant s t -> case_variant (String c s) (String (toggle_case c) t).

Fixpoint all_space (s : string) : bool :=
  match s with
  | EmptyString => true
  | String c s' => Py.isspace c && all_space s'
  end.

(** [v] is a case and whitespace variant of [id]: [id] with the case of
    some letters changed, between two runs of blanks. *)
Definition id_variant (id v : string) : Prop :=
  exists pre core post,
    v = pre +:+ core +:+ post
    /\ all_space pre = true /\ all_space post = true
    /\ case_variant id core.

(** [s] occurs in [t]. *)
Definition occurs_in (s t : string) : Prop :=
  exists pre post, t = pre +:+ s +:+ post.

(** *** Well-formed framework documents and their control ids *)

(** The [str] under [key] of a JSON object. *)
Definition str_field (key : string) (j : json) : option string :=
  match j with
  | JObj kvs => match Json.assoc key kvs with Some (JStr s) => Some s | _ => None end
  | _ => None
  end.

Definition has_str (key : string) (j : json) : bool :=
  match str_field key j with Some _ => true | None => false end.

(** An absent array, or an array of objects that carry a [str] under [key]. *)
Definition wf_members (key : string) (members : option json) : bool :=
  match members with
  | None => true
  | Some (JList l) => forallb (has_str key) l
  | Some _ => false
  end.

(** An absent array, or an array of objects whose [members_key] is a
    well-formed array of members. *)
Definition wf_groups (members_key : string) (groups : option json) : bool :=
  match groups with
  | None => true
  | Some (JList gs) =>
      forallb (fun g => match g with
                        | JObj kvs => wf_members "id" (Json.assoc members_key kvs)
                        | _ => false
                        end) gs
  | Some _ => false
  end.

(** A framework document is an object; a [controls] array holds objects
    with a [str] id (any other value under [controls] is passed over by the
    code), and [levels], [functions] and [baselines], where present, have
    the nested shapes of section 4.1 of the specification. *)
Definition wf_document (data : json) : bool :=
  match data with
  | JObj kvs =>
      match Json.assoc "controls" kvs with
      | Some (JList l) => forallb (has_str "id") l
      | _ => true
      end
      && wf_groups "practices" (Json.assoc "levels" kvs)
      && wf_groups "categories" (Json.assoc "functions" kvs)
      && wf_members "baseline" (Json.assoc "baselines" kvs)
  | _ => false
  end.

(** The elements of the array under [key] of a JSON object. *)
Definition array_field (key : string) (j : json) : list json :=
  match j with
  | JObj kvs => match Json.assoc key kvs with Some (JList l) => l | _ => [] end
  | _ => []
  end.

Definition member_ids (key : string) (members : list json) : list string :=
  omap (str_field key) members.

Definition group_ids (groups_key members_key : string) (data : json) : list string :=
  concat (map (fun g => member_ids "id" (array_field members_key g))
              (array_field groups_key data)).

(** The control ids a framework offers: those of its flat [controls] array
    and, for the three frameworks with a shape of their own, the practice
    ids, the category ids or the baseline names. *)
Definition control_ids (framework : string) (data : json) : list string :=
  member_ids "id" (array_field "controls" data)
  ++ (if String.eqb framework "CMMC" then group_ids "levels" "practices" data else [])
  ++ (if String.eqb framework "NIST AI RMF" then group_ids "functions" "categories" data else [])
  ++ (if String.eqb framework "FedRAMP" then member_ids "baseline" (array_field "baselines" data) else []).

(** The value every lookup of an unresolved control returns. *)
Definition NotFound (args : LookupArgs) : LookupResult :=
  mk_LookupResult (la_framework args) (JStr (la_control_id args))
                  JNull (JList []) (JList []).

(** *** Impact levels *)

Inductive Impact : Type := Low | Moderate | High.

Definition impact_name (i : Impact) : string :=
  match i with
  | Low => "low"
  | Moderate => "moderate"
  | High => "high"
  end.

(** The ordering low < moderate < high. *)
Definition impact_le (a b : Impact) : bool :=
  match a, b with
  | Low, _ => true
  | Moderate, Low => false
  | Moderate, _ => true
  | High, High => true
  | High, _ => false
  end.

(** *** The level walk of section 4.2 *)

(** The practices of [level] whose normalized id is not in [implemented]. *)
Definition missing_count (implemented : gset string) (level : json) : nat :=
  length (filter (fun id => _normalize id ∉ implemented)
                 (member_ids "id" (array_field "practices" level))).

(** The number of leading levels with no missing practice. *)
Fixpoint levels_achieved (implemented : gset string) (levels : list json) : nat :=
  match levels with
  | [] => O
  | level :: rest =>
      match missing_count implemented level with
      | O => S (levels_achieved implemented rest)
      | S _ => O
      end
  end.

(** The label reported after [k] levels are achieved. *)
Definition level_label (levels : list json) (k : nat) : json :=
  match k with
  | O => JStr "None"
  | S k' =>
      match nth_error levels k' with
      | Some (JObj kvs) => default (JStr "None") (Json.assoc "level" kvs)
      | _ => JStr "None"
      end
  end.

(** The missing practices of the level after the [k] achieved ones, 0 when
    there is none. *)
Definition gaps_after (implemented : gset string) (levels : list json) (k : nat) : nat :=
  match nth_error levels k with
  | Some level => missing_count implemented level
  | None => O
  end.

(** *** Observations on worlds *)

(** Two worlds hold the same files. *)
Definition same_inputs (w1 w2 : World) : Prop :=
  data_dir w1 = data_dir w2
  /\ (forall p, files w1 p = files w2 p)
  /\ (forall p, texts w1 p = texts w2 p).

(** The number of underlying reads of [path] so far. *)
Definition loads_of (path : string) (w : World) : nat :=
  length (filter (fun p => p = path) (reads w)).

(** A computation whose result is a function of the files alone. *)
Definition deterministic {A : Type} (c : M A) : Prop :=
  forall w1 w2, same_inputs w1 w2 ->
    fst (c w1) = fst (c w2) /\ same_inputs (snd (c w1)) (snd (c w2)).

(** What a search for [target] among controls with the ids [ids] must
    return: nothing when no id normalizes to [target], and otherwise a
    control that carries such an id. *)
Definition resolved (ids : list string) (target : string)
    (r : result (option json)) : Prop :=
  (r = Ok None /\ forall cid, cid ∈ ids -> _normalize cid <> target)
  \/ (exists c cid, r = Ok (Some c) /\ str_field "id" c = Some cid
        /\ _normalize cid = target /\ cid ∈ ids).

(** The two ways a lookup finds no control: the framework is not one of
    [FRAMEWORK_FILES], or its document, loaded and well-formed, offers no
    control id that normalizes like the one asked for. *)
Inductive unresolved (w : World) (framework control_id : string) : Prop :=
| unknown_framework :
    Json.assoc framework FRAMEWORK_FILES = None ->
    unresolved w framework control_id
| unmatched_id (file_name : string) (data : json) :
    Json.assoc framework FRAMEWORK_FILES = Some file_name ->
    files w (path_join (data_dir w) file_name) = Ok data ->
    wf_document data = true ->
    (forall cid, cid ∈ control_ids framework data ->
                 _normalize cid <> _normalize control_id) ->
    unresolved w framework control_id.

(** *** Fixtures *)

Definition sample_nist : json :=
  JObj [ ("framework", JStr "NIST 800-53");
         ("controls", JList [
            JObj [ ("id", JStr "AC-2"); ("name", JStr "Account Management");
                   ("requirements", JList [JStr "account review"]) ];
            JObj [ ("id", JStr "AC-6"); ("name", JStr "Least Privilege");
                   ("requirements",
                    JList [JStr "least privilege"; JStr "audit logging"]) ] ]) ].

Definition sample_cmmc : json :=
  JObj [ ("levels", JList [
            JObj [ ("level", JStr "Level 1");
                   ("practices", JList [
                      JObj [("id", JStr "AC.L1-3.1.1")];
                      JObj [("id", JStr "AC.L1-3.1.2")] ]) ];
            JObj [ ("level", JStr "Level 2");
                   ("practices", JList [
                      JObj [("id", JStr "AC.L2-3.1.3")];
                      JObj [("id", JStr "AC.L2-3.1.4")];
                      JObj [("id", JStr "AC.L2-3.1.5")] ]) ] ]) ].

Definition sample_files (path : string) : result json :=
  if String.eqb path "/repo/data/nist-800-53-r5.json" then Ok sample_nist
  else if String.eqb path "/repo/data/cmmc-2.0-practices.json" then Ok sample_cmmc
  else Raise OSError.

Definition sample_world : World :=
  mk_World "/repo/data" sample_files (fun _ => Raise OSError)
           (mk_datetime 739000 0) (fun n => Z.of_nat n) 0 [].

(** The same files as [sample_world], read later, after other reads and
    draws. *)
Definition sample_world_later : World :=
  mk_World "/repo/data" sample_files (fun _ => Raise OSError)
           (mk_datetime 739031 3600) (fun n => Z.of_nat n + 5) 3
           ["/repo/data/framework-mappings.json"].

(** [sample_world] with another sequence of random draws. *)
Definition sample_world_redrawn : World :=
  mk_World "/repo/data" sample_files (fun _ => Raise OSError)
           (mk_datetime 739000 0) (fun n => Z.of_nat n + 5) 0 [].

(** A data directory in disrepair: the SOC 2 file is there but is not
    JSON, the ISO 27001 file lists its controls as bare ids where objects
    are expected, and the files of the other frameworks are as in
    [sample_world] (that of the EU AI Act, among others, is missing). *)
Definition bare_ids : json :=
  JObj [ ("framework", JStr "ISO 27001");
         ("controls", JList [JStr "A.5.1"; JStr "A.5.2"]) ].

Definition sample_files_damaged (path : string) : result json :=
  if String.eqb path "/repo/data/soc2.json" then Raise JSONDecodeError
  else if String.eqb path "/repo/data/iso-27001.json" then Ok bare_ids
  else sample_files path.

Definition sample_world_damaged : World :=
  mk_World "/repo/data" sample_files_damaged (fun _ => Raise OSError)
           (mk_datetime 739000 0) (fun n => Z.of_nat n) 0 [].

(** A summary table for AC-2 followed by a statement table for AC-3. *)
Definition mismatched_tables : list (list string) :=
  [ [ "AC-2 Control Summary Information";
      "Responsible Role: ISSO";
      "Implementation Status (check all that apply): Implemented" ];
    [ "AC-3 What is the solution and how is it implemented?";
      "Part a: Access enforcement is handled by the gateway." ] ].

(** *** Further fixtures *)

Definition sample_fedramp : json :=
  JObj [ ("baselines", JList [
            JObj [ ("baseline", JStr "Low");
                   ("description", JStr "Low impact SaaS baseline") ];
            JObj [ ("baseline", JStr "Moderate");
                   ("description", JStr "Moderate impact baseline") ] ]) ].

Definition sample_mappings : json :=
  JObj [ ("mappings", JList [
            JObj [ ("source", JStr "NIST 800-53"); ("target", JStr "ISO 27001");
                   ("mappings", JList [
                      JObj [ ("source_control_id", JStr "AC-2");
                             ("target_control_id", JStr "A.9.2.1") ];
                      JObj [ ("source_control_id", JStr "AC-6");
                             ("target_control_id", JStr "A.9.2.3") ] ]) ];
            JObj [ ("source", JStr "NIST 800-53"); ("target", JStr "SOC 2");
                   ("mappings", JList [
                      JObj [ ("source_control_id", JStr "ac-2");
                             ("target_control_id", JStr "CC6.1") ] ]) ];
            JObj [ ("source", JStr "CMMC"); ("target", JStr "NIST 800-171");
                   ("mappings", JList [
                      JObj [ ("source_control_id", JStr "AC.L1-3.1.1");
                             ("target_control_id", JStr "3.1.1") ] ]) ] ]) ].

Definition sample_files_full (path : string) : result json :=
  if String.eqb path "/repo/data/fedramp-baselines.json" then Ok sample_fedramp
  else if String.eqb path "/repo/data/framework-mappings.json" then Ok sample_mappings
  else sample_files path.

Definition sample_texts (path : string) : result string :=
  if String.eqb path "evidence/access-policy.md"
  then Ok "Accounts are reviewed under ac-2 every quarter."
  else if String.eqb path "evidence/network.md"
  then Ok "Firewall rules are reviewed monthly."
  else Raise OSError.

Definition sample_world_full : World :=
  mk_World "/repo/data" sample_files_full sample_texts
           (mk_datetime 739000 0) (fun n => Z.of_nat n) 0 [].

(** *** Well-formed mapping documents *)

Definition has_key (key : string) (j : json) : bool :=
  match j with
  | JObj kvs => match Json.assoc key kvs with Some _ => true | None => false end
  | _ => false
  end.

(** An entry of the mappings document: an object with a target and, where
    it has pairs, an array of objects with a [str] source id and a target
    id. *)
Definition wf_entry (entry : json) : bool :=
  has_key "target" entry
  && match entry with
     | JObj kvs =>
         match Json.assoc "mappings" kvs with
         | None => true
         | Some (JList ms) =>
             forallb (fun m => has_str "source_control_id" m
                               && has_key "target_control_id" m) ms
         | Some _ => false
         end
     | _ => false
     end.

Definition wf_mappings (doc : json) : bool :=
  match doc with
  | JObj kvs =>
      match Json.assoc "mappings" kvs with
      | None => true
      | Some (JList entries) => forallb wf_entry entries
      | Some _ => false
      end
  | _ => false
  end.

(** The mappings document relates control [cid] of [source_framework] to
    [r]: an entry for that source framework holds a pair whose source id
    normalizes like [cid], and [r] is the entry's target framework with the
    pair's target id. *)
Definition mapped (doc : json) (source_framework cid : string) (r : Related) : Prop :=
  exists entry m sid,
    In entry (array_field "mappings" doc)
    /\ str_field "source" entry = Some source_framework
    /\ In m (array_field "mappings" entry)
    /\ str_field "source_control_id" m = Some sid
    /\ _normalize sid = _normalize cid
    /\ Json.item entry "target" = Ok (rel_framework r)
    /\ Json.item m "target_control_id" = Ok (rel_control_id r).

(** What the validator reports for one path, given the texts of the files. *)
Definition reported (texts : string -> result string) (token : string)
    (r : FileResult) : Prop :=
  match texts (fr_path r) with
  | Ok content =>
      fr_readable r = true
      /\ fr_excerpt r = Py.take 2000 content
      /\ fr_heuristic_match r = Py.contains token (_normalize content)
  | Raise _ =>
      fr_readable r = false /\ fr_excerpt r = "" /\ fr_heuristic_match r = false
  end.

(** *** Tables *)

(** The control id a table announces when it is a summary table: the id of
    its header, in lower case. *)
Definition summary_id (cell_texts : list string) : option string :=
  match cell_texts with
  | [] => None
  | header :: _ => option_map Py.lower (Re.CIS_HEADER header)
  end.

Fixpoint no_blank (s : string) : bool :=
  match s with
  | EmptyString => true
  | String c s' => negb (Py.isspace c) && no_blank s'
  end.

(** A key of the parts: one letter, in lower case; its text has no blanks
    around it. *)
Definition part_entry (k v : string) : Prop :=
  (exists c, k = String c EmptyString /\ Re.is_letter c = true
             /\ Py.lower_char c = c)
  /\ Py.strip v = v.

(** * Properties *)

(** ** Strings *)

Section StringFacts.

Lemma lower_char_toggle (c : ascii) :
  Py.lower_char (toggle_case c) = Py.lower_char c.
Proof. destruct c as [[] [] [] [] [] [] [] []]; reflexivity. Qed.

Lemma isspace_toggle (c : ascii) :
  Py.isspace (toggle_case c) = Py.isspace c.
Proof. destruct c as [[] [] [] [] [] [] [] []]; reflexivity. Qed.

Lemma case_variant_lower (s t : string) :
  case_variant s t -> Py.lower s = Py.lower t.
Proof.
  induction 1; simpl; [reflexivity | congruence |].
  rewrite lower_char_toggle. congruence.
Qed.

Lemma case_variant_lstrip (s t : string) :
  case_variant s t -> case_variant (Py.lstrip s) (Py.lstrip t).
Proof.
  induction 1; simpl.
  - constructor.
  - destruct (Py.isspace c); [assumption | now constructor].
  - rewrite isspace_toggle.
    destruct (Py.isspace c); [assumption | now constructor].
Qed.

Lemma case_variant_empty_l (t : string) : case_variant "" t -> t = "".
Proof. inversion 1; reflexivity. Qed.

Lemma case_variant_empty_r (s : string) : case_variant s "" -> s = "".
Proof. inversion 1; reflexivity. Qed.

Lemma case_variant_rstrip (s t : string) :
  case_variant s t -> case_variant (Py.rstrip s) (Py.rstrip t).
Proof.
  induction 1; simpl.
  - constructor.
  - destruct (Py.rstrip s) eqn:Es, (Py.rstrip t) eqn:Et.
    + destruct (Py.isspace c); repeat constructor.
    + apply case_variant_empty_l in IHcase_variant. discriminate.
    + apply case_variant_empty_r in IHcase_variant. discriminate.
    + now constructor.
  - destruct (Py.rstrip s) eqn:Es, (Py.rstrip t) eqn:Et.
    + rewrite isspace_toggle. destruct (Py.isspace c); repeat constructor.
    + apply case_variant_empty_l in IHcase_variant. discriminate.
    + apply case_variant_empty_r in IHcase_variant. discriminate.
    + now constructor.
Qed.

Lemma lstrip_all_space (s : string) : all_space s = true -> Py.lstrip s = "".
Proof.
  induction s as [|c s IH]; simpl; [reflexivity |].
  intros [Hc Hs]%andb_prop. rewrite Hc. auto.
Qed.

Lemma rstrip_all_space (s : string) : all_space s = true -> Py.rstrip s = "".
Proof.
  induction s as [|c s IH]; simpl; [reflexivity |].
  intros [Hc Hs]%andb_prop. rewrite (IH Hs), Hc. reflexivity.
Qed.

Lemma lstrip_app_space (pre s : string) :
  all_space pre = true -> Py.lstrip (pre +:+ s) = Py.lstrip s.
Proof.
  induction pre as [|c pre IH]; simpl; [reflexivity |].
  intros [Hc Hs]%andb_prop. rewrite Hc. auto.
Qed.

Lemma rstrip_app_space (s post : string) :
  all_space post = true -> Py.rstrip (s +:+ post) = Py.rstrip s.
Proof.
  intros Hp. induction s as [|c s IH]; simpl.
  - now apply rstrip_all_space.
  - now rewrite IH.
Qed.

Lemma strip_app_space_r (s post : string) :
  all_space post = true -> Py.strip (s +:+ post) = Py.strip s.
Proof.
  intros Hp. unfold Py.strip. induction s as [|c s IH]; simpl.
  - now rewrite (lstrip_all_space _ Hp).
  - destruct (Py.isspace c); [exact IH |].
    change (String c (s +:+ post)) with (String c s +:+ post).
    now apply rstrip_app_space.
Qed.

Lemma strip_blank_margins (pre core post : string) :
  all_space pre = true -> all_space post = true ->
  Py.strip (pre +:+ core +:+ post) = Py.strip core.
Proof.
  intros Hpre Hpost. unfold Py.strip at 1.
  rewrite lstrip_app_space by assumption.
  now apply strip_app_space_r.
Qed.

(** Case and whitespace variants normalize alike. *)
Lemma normalize_variant (id v : string) :
  id_variant id v -> _normalize v = _normalize id.
Proof.
  intros (pre & core & post & -> & Hpre & Hpost & Hcv).
  unfold _normalize. rewrite strip_blank_margins by assumption.
  symmetry. apply case_variant_lower. unfold Py.strip.
  now apply case_variant_rstrip, case_variant_lstrip.
Qed.

Lemma startswith_spec (p s : string) :
  Py.startswith p s = true <-> exists post, s = p +:+ post.
Proof.
  revert s. induction p as [|a p IH]; intros s; simpl.
  - split; [eauto | reflexivity].
  - destruct s as [|b s].
    + split; [discriminate | intros [post H]; discriminate].
    + destruct (Ascii.eqb_spec a b) as [->|Hne].
      * rewrite IH. split; intros [post H]; exists post; congruence.
      * split; [discriminate | intros [post H]; congruence].
Qed.

(** [needle in hay] holds exactly when [needle] occurs in [hay]. *)
Lemma contains_spec (needle hay : string) :
  Py.contains needle hay = true <-> occurs_in needle hay.
Proof.
  induction hay as [|c hay IH]; simpl.
  - rewrite orb_false_r, startswith_spec. split.
    + intros [post H]. exists "", post. exact H.
    + intros ([|? ?] & post & H); [eauto | discriminate].
  - rewrite orb_true_iff, startswith_spec, IH. split.
    + intros [[post H] | (pre & post & H)].
      * exists "", post. exact H.
      * exists (String c pre), post. simpl. congruence.
    + intros ([|a pre] & post & H).
      * left. exists post. exact H.
      * right. exists pre, post. simpl in H. congruence.
Qed.

End StringFacts.

#[export] Instance occurs_in_dec (s t : string) : Decision (occurs_in s t).
Proof.
  destruct (Py.contains s t) eqn:E.
  - left. now apply contains_spec.
  - right. intros H%contains_spec. congruence.
Defined.

(** ** The search for a control *)

Section ControlFacts.

Variable target : string.

Lemma str_field_get (key : string) (j : json) (s : string) (dflt : json) :
  str_field key j = Some s -> Json.get j key dflt = Ok (JStr s).
Proof.
  destruct j as [| | | |l|kvs]; simpl; try discriminate.
  destruct (Json.assoc key kvs) as [[]|]; simpl; congruence.
Qed.

Lemma has_str_field (key : string) (j : json) :
  has_str key j = true -> exists s, str_field key j = Some s.
Proof. unfold has_str. destruct (str_field key j); [eauto | discriminate]. Qed.

Lemma assoc_set_other (k tag : string) (v : json) (kvs : list (string * json)) :
  k <> tag -> Json.assoc k (Json.set tag v kvs) = Json.assoc k kvs.
Proof.
  intros Hne. induction kvs as [|[k' v'] kvs IH]; simpl.
  - destruct (String.eqb_spec k tag); [contradiction | reflexivity].
  - destruct (String.eqb_spec tag k') as [->|Hk]; simpl.
    + destruct (String.eqb_spec k k'); [contradiction | reflexivity].
    + now rewrite IH.
Qed.

Lemma resolved_nil : resolved [] target (Ok None).
Proof. left. split; [reflexivity |]. intros cid H. inversion H. Qed.

Lemma resolved_or_else (ids1 ids2 : list string) (r next : result (option json)) :
  resolved ids1 target r -> resolved ids2 target next ->
  resolved (ids1 ++ ids2) target (or_else r next).
Proof.
  intros [[-> H1] | (c & cid & -> & Hid & Hn & Hin)] H2; simpl.
  - destruct H2 as [[-> H2] | (c & cid & -> & Hid & Hn & Hin)].
    + left. split; [reflexivity |].
      intros cid [?|?]%elem_of_app; auto.
    + right. exists c, cid. rewrite elem_of_app. auto.
  - right. exists c, cid. rewrite elem_of_app. auto.
Qed.

Lemma resolved_weaken (ids ids' : list string) (r : result (option json)) :
  ids = ids' -> resolved ids target r -> resolved ids' target r.
Proof. now intros ->. Qed.

Lemma scan_controls_resolved (l : list json) :
  forallb (has_str "id") l = true ->
  resolved (member_ids "id" l) target (scan_controls target l).
Proof.
  induction l as [|ctrl l IH]; simpl; [intros _; apply resolved_nil |].
  intros [Hc Hl]%andb_prop. destruct (has_str_field _ _ Hc) as [s Hs].
  unfold member_ids in *. simpl. rewrite Hs. simpl.
  rewrite (str_field_get _ _ _ _ Hs). simpl.
  destruct (String.eqb_spec (_normalize s) target) as [Heq|Hne].
  - right. exists ctrl, s. rewrite elem_of_cons. auto.
  - destruct (IH Hl) as [[-> H] | (c & cid & -> & ? & ? & ?)].
    + left. split; [reflexivity |].
      intros cid [->|?]%elem_of_cons; auto.
    + right. exists c, cid. rewrite elem_of_cons. auto.
Qed.

Lemma scan_members_resolved (kvs : list (string * json)) (tag tag_from : string)
    (l : list json) :
  tag <> "id" ->
  forallb (has_str "id") l = true ->
  resolved (member_ids "id" l) target
           (scan_members target (JObj kvs) tag tag_from l).
Proof.
  intros Htag. induction l as [|m l IH]; simpl; [intros _; apply resolved_nil |].
  intros [Hc Hl]%andb_prop. destruct (has_str_field _ _ Hc) as [s Hs].
  unfold member_ids in *. simpl. rewrite Hs. simpl.
  rewrite (str_field_get _ _ _ _ Hs). simpl.
  destruct (String.eqb_spec (_normalize s) target) as [Heq|Hne].
  - right. destruct m as [| | | |?|mk]; try discriminate.
    eexists _, s. split; [reflexivity |]. rewrite elem_of_cons.
    split; [|auto]. simpl in *.
    rewrite assoc_set_other by congruence. exact Hs.
  - destruct (IH Hl) as [[-> H] | (c & cid & -> & ? & ? & ?)].
    + left. split; [reflexivity |].
      intros cid [->|?]%elem_of_cons; auto.
    + right. exists c, cid. rewrite elem_of_cons. auto.
Qed.

Lemma wf_members_array (key members_key : string) (kvs : list (string * json)) :
  wf_members key (Json.assoc members_key kvs) = true ->
  exists l, Json.get (JObj kvs) members_key (JList []) = Ok (JList l)
            /\ array_field members_key (JObj kvs) = l
            /\ forallb (has_str key) l = true.
Proof.
  simpl. destruct (Json.assoc members_key kvs) as [[| | | |l|]|]; simpl;
    try discriminate; eauto.
Qed.

Lemma scan_groups_resolved (members_key tag tag_from : string) (gs : list json) :
  tag <> "id" ->
  wf_groups members_key (Some (JList gs)) = true ->
  resolved (concat (map (fun g => member_ids "id" (array_field members_key g)) gs))
           target (scan_groups target members_key tag tag_from gs).
Proof.
  intros Htag. simpl.
  induction gs as [|g gs IH]; simpl; [intros _; apply resolved_nil |].
  intros [Hg Hgs]%andb_prop. destruct g as [| | | |?|kvs]; try discriminate.
  destruct (wf_members_array _ _ _ Hg) as (l & Hget & Harr & Hl).
  rewrite Hget, Harr. simpl.
  apply resolved_or_else; [now apply scan_members_resolved | now apply IH].
Qed.

Lemma scan_baselines_resolved (l : list json) :
  forallb (has_str "baseline") l = true ->
  resolved (member_ids "baseline" l) target (scan_baselines target l).
Proof.
  induction l as [|b l IH]; simpl; [intros _; apply resolved_nil |].
  intros [Hc Hl]%andb_prop. destruct (has_str_field _ _ Hc) as [s Hs].
  unfold member_ids in *. simpl. rewrite Hs. simpl.
  rewrite (str_field_get _ _ _ _ Hs). simpl.
  destruct (String.eqb_spec (_normalize s) target) as [Heq|Hne].
  - right. destruct b as [| | | |?|kvs]; try discriminate. simpl in *.
    destruct (Json.assoc "baseline" kvs) as [[]|]; try discriminate.
    injection Hs as ->. simpl.
    eexists _, s. split; [reflexivity |]. rewrite elem_of_cons. auto.
  - destruct (IH Hl) as [[-> H] | (c & cid & -> & ? & ? & ?)].
    + left. split; [reflexivity |].
      intros cid [->|?]%elem_of_cons; auto.
    + right. exists c, cid. rewrite elem_of_cons. auto.
Qed.

Lemma groups_branch_resolved (groups_key members_key tag tag_from : string)
    (kvs : list (string * json)) :
  tag <> "id" ->
  wf_groups members_key (Json.assoc groups_key kvs) = true ->
  resolved (group_ids groups_key members_key (JObj kvs)) target
    (levels ← Json.get (JObj kvs) groups_key (JList []);
     l ← Json.iter levels;
     scan_groups target members_key tag tag_from l).
Proof.
  intros Htag Hwf. unfold group_ids. simpl.
  destruct (Json.assoc groups_key kvs) as [[| | | |gs|]|]; simpl in *;
    try discriminate.
  - now apply scan_groups_resolved.
  - apply resolved_nil.
Qed.

Lemma baselines_branch_resolved (kvs : list (string * json)) :
  wf_members "baseline" (Json.assoc "baselines" kvs) = true ->
  resolved (member_ids "baseline" (array_field "baselines" (JObj kvs))) target
    (bs ← Json.get (JObj kvs) "baselines" (JList []);
     l ← Json.iter bs;
     scan_baselines target l).
Proof.
  intros Hwf. simpl.
  destruct (Json.assoc "baselines" kvs) as [[| | | |gs|]|]; simpl in *;
    try discriminate.
  - now apply scan_baselines_resolved.
  - apply resolved_nil.
Qed.

(** On a well-formed document the search returns nothing exactly when no
    control id of the framework normalizes to the target, and otherwise a
    control with such an id. *)
Lemma find_in_data_resolved (framework : string) (data : json) :
  wf_document data = true ->
  resolved (control_ids framework data) target
           (find_in_data framework data target).
Proof.
  destruct data as [| | | |?|kvs]; try discriminate. intros Hwf.
  apply andb_prop in Hwf as [Hwf Hb]. apply andb_prop in Hwf as [Hwf Hf].
  apply andb_prop in Hwf as [Hc Hl].
  unfold find_in_data, control_ids.
  change (Json.get (JObj kvs) "controls" JNull)
    with (Ok (match Json.assoc "controls" kvs with Some v => v | None => JNull end)
          : result json).
  cbn [mbind result_bind].
  apply resolved_or_else.
  { cbn [array_field].
    destruct (Json.assoc "controls" kvs) as [[| | | |l|]|];
      try apply resolved_nil.
    now apply scan_controls_resolved. }
  apply resolved_or_else.
  { destruct (String.eqb framework "CMMC"); [|apply resolved_nil].
    now apply groups_branch_resolved. }
  apply resolved_or_else.
  { destruct (String.eqb framework "NIST AI RMF"); [|apply resolved_nil].
    now apply groups_branch_resolved. }
  eapply resolved_weaken; [apply app_nil_r |].
  apply resolved_or_else; [|apply resolved_nil].
  destruct (String.eqb framework "FedRAMP"); [|apply resolved_nil].
  now apply baselines_branch_resolved.
Qed.

End ControlFacts.

(** ** Control lookup *)

Section LookupFacts.

Lemma framework_file_nonempty (framework file_name : string) :
  Json.assoc framework FRAMEWORK_FILES = Some file_name ->
  String.eqb file_name "" = false.
Proof.
  unfold FRAMEWORK_FILES. simpl.
  repeat (destruct (String.eqb framework _);
          [intros [= <-]; reflexivity |]).
  discriminate.
Qed.

Lemma find_control_unknown (framework control_id : string) (w : World) :
  Json.assoc framework FRAMEWORK_FILES = None ->
  _find_control framework control_id w = (Ok None, w).
Proof. unfold _find_control. now intros ->. Qed.

Lemma find_control_loaded (framework control_id file_name : string)
    (data : json) (w : World) :
  Json.assoc framework FRAMEWORK_FILES = Some file_name ->
  files w (path_join (data_dir w) file_name) = Ok data ->
  _find_control framework control_id w
  = (find_in_data framework data (_normalize control_id),
     log_read (path_join (data_dir w) file_name) w).
Proof.
  intros Hf Hd. unfold _find_control. rewrite Hf.
  rewrite (framework_file_nonempty _ _ Hf).
  unfold mbind, M_bind, load_framework_data, load_json, lift.
  rewrite Hd. now destruct (find_in_data _ _ _).
Qed.

(** The search only sees the normalized id. *)
Lemma find_control_normalized (framework id1 id2 : string) (w : World) :
  _normalize id1 = _normalize id2 ->
  _find_control framework id1 w = _find_control framework id2 w.
Proof. intros H. unfold _find_control. now rewrite H. Qed.

Lemma str_field_truthy (key : string) (c : json) (s : string) :
  str_field key c = Some s -> Json.truthy c = true.
Proof.
  destruct c as [| | | |?|[|kv kvs]]; simpl; try discriminate. reflexivity.
Qed.

Lemma control_lookup_not_found (args : LookupArgs) (w w' : World)
    (control : option json) :
  _find_control (la_framework args) (la_control_id args) w = (Ok control, w') ->
  not_found control = true ->
  control_lookup args w = (Ok (NotFound args), w').
Proof.
  intros Hf Hn. unfold control_lookup, mbind, M_bind. rewrite Hf.
  destruct control as [c|]; [|reflexivity].
  simpl in Hn. now rewrite Hn.
Qed.

Lemma unresolved_find_control (w : World) (framework control_id : string) :
  unresolved w framework control_id ->
  exists w', _find_control framework control_id w = (Ok None, w').
Proof.
  intros [Hu | file_name data Hf Hd Hwf Hids].
  - exists w. now apply find_control_unknown.
  - eexists. rewrite (find_control_loaded _ _ _ _ _ Hf Hd).
    destruct (find_in_data_resolved (_normalize control_id) framework data Hwf)
      as [[-> _] | (c & cid & _ & _ & Hn & Hin)]; [reflexivity |].
    now destruct (Hids cid Hin).
Qed.

End LookupFacts.

(** C1. Control lookup does not depend on the case of the letters of a
    control id or on blanks around it: for a supported framework whose
    document is loaded and well-formed, and an id [id] of one of its
    controls, the lookup of any case and whitespace variant [v] of [id]
    returns what the lookup of [id] returns, and that is a record of a
    control whose id normalizes like [id]. *)
Theorem lookup_variant_same_record
    (w : World) (framework file_name id v : string) (data : json) :
  Json.assoc framework FRAMEWORK_FILES = Some file_name ->
  files w (path_join (data_dir w) file_name) = Ok data ->
  wf_document data = true ->
  id ∈ control_ids framework data ->
  id_variant id v ->
  control_lookup (mk_LookupArgs framework v) w
  = control_lookup (mk_LookupArgs framework id) w
  /\ exists cid name reqs objs,
       fst (control_lookup (mk_LookupArgs framework id) w)
       = Ok (mk_LookupResult framework (JStr cid) name reqs objs)
       /\ _normalize cid = _normalize id.
Proof.
  intros Hf Hd Hwf Hin Hv.
  pose proof (normalize_variant _ _ Hv) as Hn.
  destruct (find_in_data_resolved (_normalize id) framework data Hwf)
    as [[_ Hnone] | (c & cid & Hfind & Hid & Hcid & _)];
    [now destruct (Hnone id Hin) |].
  assert (Hlook : forall x, _normalize x = _normalize id ->
            control_lookup (mk_LookupArgs framework x) w
            = (c' ← Json.get c "name" JNull;
               reqs ← Json.get c "requirements" (JList []);
               objs ← Json.get c "assessment_objectives" (JList []);
               Ok (mk_LookupResult framework (JStr cid) c' reqs objs),
               log_read (path_join (data_dir w) file_name) w)).
  { intros x Hx. unfold control_lookup, mbind at 1, M_bind. simpl.
    rewrite (find_control_loaded _ _ _ _ _ Hf Hd), Hx, Hfind.
    rewrite (str_field_truthy _ _ _ Hid). simpl.
    unfold lift. now rewrite (str_field_get _ _ _ _ Hid). }
  split; [now rewrite (Hlook v Hn), (Hlook id eq_refl) |].
  rewrite (Hlook id eq_refl).
  destruct c as [| | | |?|kvs]; try discriminate. simpl. eauto 6.
Qed.

Lemma lookup_variant_same_record_witness :
  control_lookup (mk_LookupArgs "NIST 800-53" "  ac-6 ") sample_world
  = control_lookup (mk_LookupArgs "NIST 800-53" "AC-6") sample_world
  /\ exists cid name reqs objs,
       fst (control_lookup (mk_LookupArgs "NIST 800-53" "AC-6") sample_world)
       = Ok (mk_LookupResult "NIST 800-53" (JStr cid) name reqs objs)
       /\ _normalize cid = _normalize "AC-6".
Proof.
  apply (lookup_variant_same_record sample_world "NIST 800-53"
           "nist-800-53-r5.json" "AC-6" "  ac-6 " sample_nist).
  - reflexivity.
  - reflexivity.
  - reflexivity.
  - vm_compute. apply list_elem_of_In. simpl. auto.
  - exists "  ", "ac-6", " ". repeat split.
    apply (cv_toggle "A"), (cv_toggle "C"), cv_same, cv_same, cv_nil.
Defined.

(** C7, as amended.  A lookup in an unknown framework, or of an id that no
    control of the framework's document matches when that document loads
    and is well-formed, returns the NotFound value (control_name None,
    requirements empty) and raises nothing. *)
Theorem lookup_unresolved_is_value (w : World) (framework control_id : string) :
  unresolved w framework control_id ->
  exists w',
    control_lookup (mk_LookupArgs framework control_id) w
    = (Ok (mk_LookupResult framework (JStr control_id) JNull (JList []) (JList [])),
       w').
Proof.
  intros [w' Hf]%unresolved_find_control. exists w'.
  now apply (control_lookup_not_found (mk_LookupArgs framework control_id) w w' None).
Qed.

Lemma lookup_unresolved_is_value_witness :
  (exists w',
     control_lookup (mk_LookupArgs "NIST 800-53" "ZZ-99") sample_world
     = (Ok (mk_LookupResult "NIST 800-53" (JStr "ZZ-99") JNull (JList []) (JList [])),
        w'))
  /\ (exists w',
     control_lookup (mk_LookupArgs "COBIT" "AC-2") sample_world
     = (Ok (mk_LookupResult "COBIT" (JStr "AC-2") JNull (JList []) (JList [])),
        w')).
Proof.
  split.
  - apply lookup_unresolved_is_value.
    apply (unmatched_id _ _ _ "nist-800-53-r5.json" sample_nist);
      try reflexivity.
    intros cid Hin. apply list_elem_of_In in Hin. vm_compute in Hin.
    destruct Hin as [<-|[<-|[]]]; vm_compute; discriminate.
  - apply lookup_unresolved_is_value. now apply unknown_framework.
Defined.

(** Counterexample to C7 as stated.  The id ZZ-99 matches no control of any
    document, and yet its lookup raises where the document of a supported
    framework is missing (EU AI Act), is not JSON (SOC 2), or holds bare
    ids where control objects are expected (ISO 27001): nothing around the
    load or the scan turns the exception into the NotFound value. *)
Lemma unmatched_lookup_raises :
  fst (control_lookup (mk_LookupArgs "EU AI Act" "ZZ-99") sample_world_damaged)
  = Raise OSError
  /\ fst (control_lookup (mk_LookupArgs "SOC 2" "ZZ-99") sample_world_damaged)
     = Raise JSONDecodeError
  /\ control_ids "ISO 27001" bare_ids = []
  /\ fst (control_lookup (mk_LookupArgs "ISO 27001" "ZZ-99") sample_world_damaged)
     = Raise AttributeError
  /\ ~ (forall w framework control_id,
          (forall file_name data,
             Json.assoc framework FRAMEWORK_FILES = Some file_name ->
             files w (path_join (data_dir w) file_name) = Ok data ->
             forall cid, cid ∈ control_ids framework data ->
                         _normalize cid <> _normalize control_id) ->
          exists w',
            control_lookup (mk_LookupArgs framework control_id) w
            = (Ok (NotFound (mk_LookupArgs framework control_id)), w')).
Proof.
  split; [reflexivity |]. split; [reflexivity |]. split; [reflexivity |].
  split; [reflexivity |].
  intros H.
  destruct (H sample_world_damaged "ISO 27001" "ZZ-99") as [w' Hrun].
  - intros file_name data [= <-] [= <-] cid Hin.
    apply list_elem_of_In in Hin. destruct Hin.
  - apply (f_equal fst) in Hrun. vm_compute in Hrun. discriminate Hrun.
Qed.

(** ** Gap analysis *)

Section GapFacts.

Lemma gaps_in_strings (description : string) (reqs : list string) :
  gaps_in description (map JStr reqs)
  = Ok (filter (fun req => ~ occurs_in (_normalize req) description) reqs).
Proof.
  induction reqs as [|req reqs IH]; simpl; [reflexivity |].
  rewrite IH. simpl.
  destruct (Py.contains (_normalize req) description) eqn:E.
  - rewrite filter_cons_False; [reflexivity |].
    intros H. apply H. now apply contains_spec.
  - rewrite filter_cons_True; [reflexivity |].
    intros H%contains_spec. congruence.
Qed.

End GapFacts.



(** C10. When the control does not resolve, gap_analyzer returns the same
    record shape as for a resolved control: requirements is empty and
    heuristic_gaps holds the one string "Control not found in data set.". *)
Theorem gap_analyzer_unresolved_control
    (w w' : World) (args : GapArgs) (control : option json) :
  _find_control (ga_framework args) (ga_control_id args) w = (Ok control, w') ->
  not_found control = true ->
  gap_analyzer args w
  = (Ok (mk_GapResult (ga_control_id args) (JList [])
           (ga_implementation_description args)
           ["Control not found in data set."]),
     w').
Proof.
  intros Hf Hn. unfold gap_analyzer, mbind, M_bind. rewrite Hf.
  destruct control as [c|]; [|reflexivity].
  simpl in Hn. now rewrite Hn.
Qed.

Lemma gap_analyzer_unresolved_control_witness :
  gap_analyzer (mk_GapArgs "NIST 800-53" "ZZ-99" "we enforce least privilege")
               sample_world
  = (Ok (mk_GapResult "ZZ-99" (JList []) "we enforce least privilege"
           ["Control not found in data set."]),
     log_read "/repo/data/nist-800-53-r5.json" sample_world).
Proof.
  apply (gap_analyzer_unresolved_control sample_world _
           (mk_GapArgs "NIST 800-53" "ZZ-99" "we enforce least privilege") None);
    reflexivity.
Defined.

(** ** Baseline selection *)

(** C4. For each of the 27 combinations of confidentiality, integrity and
    availability in low, moderate, high, whatever the other arguments,
    the overall categorization baseline_selector returns is the greatest
    of the three under low < moderate < high: it is one of them and none
    of them is above it. *)
Theorem baseline_overall_is_high_water_mark
    (C I A : Impact) (dts : option (list string)) (m : option string)
    (regs : option (list string)) :
  exists O : Impact,
    overall (fips_199_categorization
               (baseline_selector
                  (mk_BaselineArgs (impact_name C) (impact_name I) (impact_name A)
                                   dts m regs)))
    = impact_name O
    /\ (O = C \/ O = I \/ O = A)
    /\ impact_le C O = true /\ impact_le I O = true /\ impact_le A O = true.
Proof.
  destruct C, I, A;
    first [ exists High; repeat split; auto; fail
          | exists Moderate; repeat split; auto; fail
          | exists Low; repeat split; auto; fail ].
Qed.

(** ** CMMC level gating *)

Section CmmcFacts.

Lemma implemented_set_app (l1 l2 : list Implementation) :
  implemented_set (l1 ++ l2) = implemented_set l1 ∪ implemented_set l2.
Proof.
  induction l1 as [|item l1 IH]; simpl.
  - now rewrite (left_id_L ∅ (∪)).
  - destruct (counts_as_implemented item); rewrite IH; [|reflexivity].
    now rewrite (assoc_L (∪)).
Qed.

Lemma implemented_set_grows (impls : list Implementation) (item : Implementation) :
  implemented_set impls ⊆ implemented_set (impls ++ [item]).
Proof. rewrite implemented_set_app. set_solver. Qed.

Lemma missing_practices_length (implemented : gset string) (ps : list json) :
  forallb (has_str "id") ps = true ->
  exists missing,
    missing_practices implemented ps = Ok missing
    /\ length missing
       = length (filter (fun id => _normalize id ∉ implemented)
                        (member_ids "id" ps)).
Proof.
  induction ps as [|p ps IH]; simpl; [intros _; now exists [] |].
  intros [Hp Hps]%andb_prop. destruct (has_str_field _ _ Hp) as [s Hs].
  destruct (IH Hps) as (missing & Hm & Hlen).
  unfold member_ids in *. simpl. rewrite Hs. simpl.
  rewrite (str_field_get _ _ _ _ Hs). simpl. rewrite Hm. simpl.
  eexists. split; [reflexivity |].
  destruct (decide (_normalize s ∈ implemented)) as [Hin|Hout].
  - rewrite bool_decide_eq_true_2 by assumption.
    rewrite filter_cons_False by auto. exact Hlen.
  - rewrite bool_decide_eq_false_2 by assumption.
    rewrite filter_cons_True by assumption. simpl. now rewrite Hlen.
Qed.

(** The loop returns the label of the last achieved level, or the label it
    started with when the first level has a gap, and the number of
    practices missing in the level after the achieved ones. *)
Lemma walk_levels_spec (implemented : gset string) (levels : list json) :
  wf_groups "practices" (Some (JList levels)) = true ->
  forall achieved,
    walk_levels implemented achieved levels
    = Ok (mk_CmmcResult
            (match levels_achieved implemented levels with
             | O => achieved
             | S k => level_label levels (S k)
             end)
            (gaps_after implemented levels (levels_achieved implemented levels))).
Proof.
  simpl. induction levels as [|level levels IH]; [reflexivity |].
  cbn [forallb]. intros [Hlevel Hrest]%andb_prop achieved.
  destruct level as [| | | |?|kvs]; try discriminate.
  destruct (wf_members_array _ _ _ Hlevel) as (l & Hget & Harr & Hl).
  destruct (missing_practices_length implemented l Hl) as (missing & Hm & Hlen).
  assert (Hcount : missing_count implemented (JObj kvs) = length missing).
  { unfold missing_count. now rewrite Harr. }
  cbn [walk_levels levels_achieved]. rewrite Hget, Hcount.
  cbn [mbind result_bind Json.iter]. rewrite Hm. cbn [mbind result_bind].
  destruct missing as [|p missing]; cbn [length].
  - cbn [Json.get mbind result_bind]. rewrite (IH Hrest).
    destruct (levels_achieved implemented levels) as [|k]; reflexivity.
  - unfold gaps_after. cbn [nth_error]. now rewrite Hcount.
Qed.

Lemma filter_length_mono {A : Type} (P Q : A -> Prop)
    `{!forall x, Decision (P x)} `{!forall x, Decision (Q x)} (l : list A) :
  (forall x, P x -> Q x) ->
  (length (filter P l) <= length (filter Q l))%nat.
Proof.
  intros HPQ. induction l as [|x l IH]; [reflexivity |].
  destruct (decide (P x)) as [HP|HP].
  - rewrite (filter_cons_True P) by assumption.
    rewrite (filter_cons_True Q) by auto. simpl. lia.
  - rewrite (filter_cons_False P) by assumption.
    destruct (decide (Q x)).
    + rewrite (filter_cons_True Q) by assumption. simpl. lia.
    + now rewrite (filter_cons_False Q) by assumption.
Qed.

(** A larger implemented set leaves no more of a level missing. *)
Lemma missing_count_antitone (S1 S2 : gset string) (level : json) :
  S1 ⊆ S2 -> (missing_count S2 level <= missing_count S1 level)%nat.
Proof.
  intros Hsub. unfold missing_count. apply filter_length_mono.
  intros id Hout Hin. apply Hout. now apply Hsub.
Qed.

Lemma levels_achieved_monotone (S1 S2 : gset string) (levels : list json) :
  S1 ⊆ S2 -> (levels_achieved S1 levels <= levels_achieved S2 levels)%nat.
Proof.
  intros Hsub. induction levels as [|level levels IH]; simpl; [lia |].
  pose proof (missing_count_antitone S1 S2 level Hsub).
  destruct (missing_count S1 level); [|lia].
  destruct (missing_count S2 level); lia.
Qed.

Lemma gaps_after_antitone (S1 S2 : gset string) (levels : list json) (k : nat) :
  S1 ⊆ S2 -> (gaps_after S2 levels k <= gaps_after S1 levels k)%nat.
Proof.
  intros Hsub. unfold gaps_after.
  destruct (nth_error levels k); [now apply missing_count_antitone | lia].
Qed.

Lemma cmmc_level_checker_spec (w : World) (data : json)
    (impls : list Implementation) :
  files w (path_join (data_dir w) "cmmc-2.0-practices.json") = Ok data ->
  wf_document data = true ->
  cmmc_level_checker impls w
  = (Ok (mk_CmmcResult
           (level_label (array_field "levels" data)
              (levels_achieved (implemented_set impls) (array_field "levels" data)))
           (gaps_after (implemented_set impls) (array_field "levels" data)
              (levels_achieved (implemented_set impls) (array_field "levels" data)))),
     log_read (path_join (data_dir w) "cmmc-2.0-practices.json") w).
Proof.
  intros Hd Hwf. unfold cmmc_level_checker. simpl.
  unfold mbind, M_bind, load_framework_data, load_json, lift. rewrite Hd.
  destruct data as [| | | |?|kvs]; try discriminate.
  apply andb_prop in Hwf as [Hwf _]. apply andb_prop in Hwf as [Hwf _].
  apply andb_prop in Hwf as [_ Hl].
  cbn [Json.get array_field result_bind].
  destruct (Json.assoc "levels" kvs) as [[| | | |levels|]|]; try discriminate.
  - cbn [Json.iter result_bind]. rewrite (walk_levels_spec _ _ Hl).
    destruct (levels_achieved _ levels); reflexivity.
  - reflexivity.
Qed.

End CmmcFacts.

(** C3. cmmc_level_checker is monotonic.  With the CMMC document loaded and
    well-formed, the checker reports the label of the last of the [k]
    leading levels that are fully implemented and the number of practices
    missing in the level after them.  Adding an item to the implementations
    never lowers [k]; and for the level after the ones achieved with the
    item, the number of missing practices is no greater than it was for
    that level without the item, so when the achieved level stays the same
    gaps_to_next_level does not grow. *)
Theorem cmmc_level_checker_monotonic (w : World) (data : json)
    (impls : list Implementation) (item : Implementation) :
  files w (path_join (data_dir w) "cmmc-2.0-practices.json") = Ok data ->
  wf_document data = true ->
  let levels := array_field "levels" data in
  let before := implemented_set impls in
  let after := implemented_set (impls ++ [item]) in
  let k := levels_achieved before levels in
  let k' := levels_achieved after levels in
  fst (cmmc_level_checker impls w)
  = Ok (mk_CmmcResult (level_label levels k) (gaps_after before levels k))
  /\ fst (cmmc_level_checker (impls ++ [item]) w)
     = Ok (mk_CmmcResult (level_label levels k') (gaps_after after levels k'))
  /\ (k <= k')%nat
  /\ (gaps_after after levels k' <= gaps_after before levels k')%nat
  /\ (k' = k -> (gaps_after after levels k' <= gaps_after before levels k)%nat).
Proof.
  intros Hd Hwf levels before after k k'.
  pose proof (implemented_set_grows impls item) as Hsub.
  repeat split.
  - now rewrite (cmmc_level_checker_spec w data impls Hd Hwf).
  - now rewrite (cmmc_level_checker_spec w data (impls ++ [item]) Hd Hwf).
  - now apply levels_achieved_monotone.
  - now apply gaps_after_antitone.
  - intros <-. now apply gaps_after_antitone.
Qed.

(** One practice of level 1 implemented, the other one added: the level
    goes from None to Level 1, and the three gaps reported then are those
    of level 2. *)
Lemma cmmc_level_checker_monotonic_witness :
  fst (cmmc_level_checker [mk_Implementation "ac.l1-3.1.1" "Implemented"]
                          sample_world)
  = Ok (mk_CmmcResult (JStr "None") 1)
  /\ fst (cmmc_level_checker [mk_Implementation "ac.l1-3.1.1" "Implemented";
                              mk_Implementation " AC.L1-3.1.2" "satisfied"]
                             sample_world)
     = Ok (mk_CmmcResult (JStr "Level 1") 3)
  /\ (0 <= 1)%nat /\ (3 <= 3)%nat /\ (1%nat = 0%nat -> (3 <= 1)%nat).
Proof.
  exact (cmmc_level_checker_monotonic sample_world sample_cmmc
           [mk_Implementation "ac.l1-3.1.1" "Implemented"]
           (mk_Implementation " AC.L1-3.1.2" "satisfied")
           eq_refl eq_refl).
Defined.

(** ** Dates *)

Section DateFacts.

Import Date.

Lemma month_day_checked :
  forallb (month_day_ok true) (seq 0 365)
  && forallb (month_day_ok false) (seq 0 365) = true.
Proof. vm_compute. reflexivity. Qed.

Lemma month_day_spec (leapyear : bool) (n : Z) :
  0 <= n < 365 ->
  let '(m, d) := month_day leapyear n in
  1 <= m <= 12 /\ 1 <= d <= 31
  /\ nth (Z.to_nat m) DAYS_BEFORE_MONTH 0 + b2z ((2 <? m) && leapyear) + d = n + 1.
Proof.
  intros Hn.
  assert (Hok : month_day_ok leapyear (Z.to_nat n) = true).
  { pose proof month_day_checked as [Ht Hf]%andb_prop.
    destruct leapyear; [eapply forallb_forall in Ht | eapply forallb_forall in Hf];
      eauto; apply in_seq; lia. }
  unfold month_day_ok in Hok. rewrite Z2Nat.id in Hok by lia.
  destruct (month_day leapyear n) as [m d].
  repeat (apply andb_prop in Hok as [Hok ?]). lia.
Qed.

Lemma days_before_year_decomp (q a b c : Z) :
  0 <= a -> 0 <= b -> 0 <= c <= 3 -> 4 * b + c <= 99 -> 100 * a + 4 * b + c <= 399 ->
  days_before_year (400 * q + 100 * a + 4 * b + c + 1)
  = 146097 * q + 36524 * a + 1461 * b + 365 * c.
Proof.
  intros Ha Hb Hc Hbc Habc. unfold days_before_year.
  replace (400 * q + 100 * a + 4 * b + c + 1 - 1)
    with (400 * q + 100 * a + 4 * b + c) by lia.
  assert ((400 * q + 100 * a + 4 * b + c) / 4 = 100 * q + 25 * a + b) as ->
    by (symmetry; apply (Z.div_unique _ _ _ c); lia).
  assert ((400 * q + 100 * a + 4 * b + c) / 100 = 4 * q + a) as ->
    by (symmetry; apply (Z.div_unique _ _ _ (4 * b + c)); lia).
  assert ((400 * q + 100 * a + 4 * b + c) / 400 = q) as ->
    by (symmetry; apply (Z.div_unique _ _ _ (100 * a + 4 * b + c)); lia).
  lia.
Qed.

Lemma is_leap_decomp (q a b c : Z) :
  0 <= a <= 3 -> 0 <= b <= 24 -> 0 <= c <= 3 ->
  is_leap (400 * q + 100 * a + 4 * b + c + 1)
  = (c =? 3) && (negb (b =? 24) || (a =? 3)).
Proof.
  intros Ha Hb Hc. unfold is_leap.
  assert ((400 * q + 100 * a + 4 * b + c + 1) mod 4 = (c + 1) mod 4) as ->.
  { replace (400 * q + 100 * a + 4 * b + c + 1)
      with ((c + 1) + (100 * q + 25 * a + b) * 4) by lia.
    apply Z.mod_add. lia. }
  assert ((400 * q + 100 * a + 4 * b + c + 1) mod 100 = (4 * b + c + 1) mod 100) as ->.
  { replace (400 * q + 100 * a + 4 * b + c + 1)
      with ((4 * b + c + 1) + (4 * q + a) * 100) by lia.
    apply Z.mod_add. lia. }
  assert ((400 * q + 100 * a + 4 * b + c + 1) mod 400
          = (100 * a + 4 * b + c + 1) mod 400) as ->.
  { replace (400 * q + 100 * a + 4 * b + c + 1)
      with ((100 * a + 4 * b + c + 1) + q * 400) by lia.
    apply Z.mod_add. lia. }
  destruct (Z.eqb_spec c 3) as [->|Hc3].
  - change ((3 + 1) mod 4 =? 0) with true. simpl andb.
    destruct (Z.eqb_spec b 24) as [->|Hb24].
    + change ((4 * 24 + 3 + 1) mod 100 =? 0) with true. simpl.
      destruct (Z.eqb_spec a 3) as [->|Ha3]; [reflexivity |].
      apply Z.eqb_neq. intros H.
      rewrite Z.mod_small in H by lia. lia.
    + simpl. assert ((4 * b + 3 + 1) mod 100 <> 0) as ->%Z.eqb_neq; [|reflexivity].
      rewrite Z.mod_small by lia. lia.
  - simpl. assert ((c + 1) mod 4 <> 0) as ->%Z.eqb_neq; [|reflexivity].
    rewrite Z.mod_small by lia. lia.
Qed.

(** [ord2ymd] names a date of the calendar, and [ymd2ord] takes it back. *)
Lemma ord2ymd_spec (n : Z) :
  1 <= n ->
  let '(y, m, d) := ord2ymd n in
  ymd2ord y m d = n /\ 1 <= m <= 12 /\ 1 <= d <= 31
  /\ (n <= MAXORDINAL -> 1 <= y <= 9999).
Proof.
  intros Hn. unfold ord2ymd, DI400Y, DI100Y, DI4Y, MAXORDINAL. cbv zeta.
  pose proof (Z.div_mod (n - 1) 146097 ltac:(lia)) as E1.
  pose proof (Z.mod_pos_bound (n - 1) 146097 ltac:(lia)) as B1.
  assert (Hq : 0 <= (n - 1) / 146097) by (apply Z.div_pos; lia).
  set (q := (n - 1) / 146097) in *. set (r400 := (n - 1) mod 146097) in *.
  pose proof (Z.div_mod r400 36524 ltac:(lia)) as E2.
  pose proof (Z.mod_pos_bound r400 36524 ltac:(lia)) as B2.
  assert (Ha : 0 <= r400 / 36524) by (apply Z.div_pos; lia).
  set (a := r400 / 36524) in *. set (r100 := r400 mod 36524) in *.
  pose proof (Z.div_mod r100 1461 ltac:(lia)) as E3.
  pose proof (Z.mod_pos_bound r100 1461 ltac:(lia)) as B3.
  assert (Hb : 0 <= r100 / 1461) by (apply Z.div_pos; lia).
  set (b := r100 / 1461) in *. set (r4 := r100 mod 1461) in *.
  pose proof (Z.div_mod r4 365 ltac:(lia)) as E4.
  pose proof (Z.mod_pos_bound r4 365 ltac:(lia)) as B4.
  assert (Hc : 0 <= r4 / 365) by (apply Z.div_pos; lia).
  set (c := r4 / 365) in *. set (r1 := r4 mod 365) in *.
  clearbody q r400 a r100 b r4 c r1.
  destruct (Z.eqb_spec c 4) as [->|Hc4]; [|destruct (Z.eqb_spec a 4) as [->|Ha4]];
    cbn [orb].
  - (* last day of a leap year *)
    assert (Hb' : b <= 23 \/ (b = 24 /\ False)) by lia.
    replace (q * 400 + 1 + a * 100 + b * 4 + 4 - 1)
      with (400 * q + 100 * a + 4 * b + 3 + 1) by lia.
    unfold ymd2ord, days_before_month.
    rewrite days_before_year_decomp by lia.
    rewrite is_leap_decomp by lia.
    replace (b =? 24) with false by (symmetry; apply Z.eqb_neq; lia).
    simpl. repeat split; lia.
  - (* last day of a 400-year cycle *)
    replace (q * 400 + 1 + 4 * 100 + b * 4 + c - 1)
      with (400 * q + 100 * 3 + 4 * 24 + 3 + 1) by lia.
    unfold ymd2ord, days_before_month.
    rewrite days_before_year_decomp by lia.
    rewrite is_leap_decomp by lia.
    simpl. repeat split; lia.
  - assert (Hb24 : b = 24 -> c <= 2 \/ a = 3 \/ c = 3) by lia.
    pose proof (month_day_spec
                  ((c =? 3) && (negb (b =? 24) || (a =? 3))) r1 B4) as Hmd.
    destruct (month_day _ r1) as [m d]. destruct Hmd as (Hm & Hd & Hsum).
    replace (q * 400 + 1 + a * 100 + b * 4 + c)
      with (400 * q + 100 * a + 4 * b + c + 1) by lia.
    unfold ymd2ord, days_before_month.
    rewrite days_before_year_decomp by lia.
    rewrite is_leap_decomp by lia.
    repeat split; lia.
Qed.

Lemma digit_value_digit (k : Z) :
  digit_value (digit k) = Some (k mod 10).
Proof.
  unfold digit. pose proof (Z.mod_pos_bound k 10 ltac:(lia)) as Hk.
  set (j := k mod 10) in *. clearbody j.
  assert (H : j = 0 \/ j = 1 \/ j = 2 \/ j = 3 \/ j = 4 \/ j = 5 \/ j = 6
              \/ j = 7 \/ j = 8 \/ j = 9) by lia.
  repeat (destruct H as [->|H]; [reflexivity |]). now subst.
Qed.

(** An ISO date reads back as the ordinal it was printed from. *)
Lemma iso_round_trip (d : datetime) :
  1 <= ordinal d <= MAXORDINAL ->
  ordinal_of_iso (strftime_iso d) = Some (ordinal d).
Proof.
  intros [Hlo Hhi]. unfold strftime_iso.
  pose proof (ord2ymd_spec (ordinal d) Hlo) as H.
  destruct (ord2ymd (ordinal d)) as [[y m] dd].
  destruct H as (Hord & Hm & Hd & Hy). specialize (Hy Hhi).
  unfold ordinal_of_iso, pad4, pad2. simpl.
  rewrite !digit_value_digit. simpl.
  f_equal. rewrite <- Hord. f_equal; Z.div_mod_to_equations; lia.
Qed.

End DateFacts.

(** C5. For the risk levels critical, high, moderate and low, with the clock
    on a day [days] before the end of the calendar, finding_generator
    returns a scheduled_completion_date exactly 30, 90, 180 and 365 days
    after original_detection_date, which is the clock's day; the first
    milestone is due at half that offset, in whole days (15, 45, 90 and
    182), and the second on the completion date. *)
Theorem finding_dates_follow_risk_level
    (w : World) (summary risk : string) (days : Z) :
  In (risk, days) [("critical", 30); ("high", 90); ("moderate", 180); ("low", 365)] ->
  1 <= ordinal (clock w) ->
  ordinal (clock w) + days <= Date.MAXORDINAL ->
  exists f w',
    finding_generator (mk_FindingArgs summary (Some risk)) w = (Ok f, w')
    /\ Date.ordinal_of_iso (original_detection_date (poam_entry f))
       = Some (ordinal (clock w))
    /\ Date.ordinal_of_iso (scheduled_completion_date (poam_entry f))
       = Some (ordinal (clock w) + days)
    /\ exists m1 m2,
         milestones (poam_entry f) = [m1; m2]
         /\ Date.ordinal_of_iso (due_date m1) = Some (ordinal (clock w) + days / 2)
         /\ due_date m2 = scheduled_completion_date (poam_entry f).
Proof.
  intros Hrisk Hlo Hhi.
  assert (Hdays : get_or remediation_table risk 180 = days /\ 0 <= days / 2 <= days
                  /\ 0 <= days).
  { simpl in Hrisk.
    destruct Hrisk as [[= <- <-]|[[= <- <-]|[[= <- <-]|[[= <- <-]|[]]]]];
      (split; [reflexivity |]); split; try lia;
      (split; [now vm_compute | now vm_compute]). }
  destruct Hdays as (Htab & Hhalf & Hpos).
  unfold finding_generator, mbind, M_bind, now, lift, randint. simpl.
  rewrite Htab. unfold Date.add_days.
  replace ((1 <=? ordinal (clock w) + days)
           && (ordinal (clock w) + days <=? Date.MAXORDINAL)) with true
    by (symmetry; apply andb_true_intro; split; apply Z.leb_le; lia).
  replace ((1 <=? ordinal (clock w) + days / 2)
           && (ordinal (clock w) + days / 2 <=? Date.MAXORDINAL)) with true
    by (symmetry; apply andb_true_intro; split; apply Z.leb_le; lia).
  eexists _, _. split; [reflexivity |]. cbn [poam_entry original_detection_date
    scheduled_completion_date milestones].
  split; [|split].
  - apply iso_round_trip. lia.
  - apply (iso_round_trip (mk_datetime _ _)). simpl. lia.
  - eexists _, _. split; [reflexivity |]. cbn [due_date]. split; [|reflexivity].
    apply (iso_round_trip (mk_datetime _ _)). simpl. lia.
Qed.

Lemma finding_dates_follow_risk_level_witness :
  exists f w',
    finding_generator (mk_FindingArgs "MFA is not enforced" (Some "low")) sample_world
    = (Ok f, w')
    /\ Date.ordinal_of_iso (original_detection_date (poam_entry f)) = Some 739000
    /\ Date.ordinal_of_iso (scheduled_completion_date (poam_entry f))
       = Some (739000 + 365)
    /\ exists m1 m2,
         milestones (poam_entry f) = [m1; m2]
         /\ Date.ordinal_of_iso (due_date m1) = Some (739000 + 365 / 2)
         /\ due_date m2 = scheduled_completion_date (poam_entry f).
Proof.
  apply (finding_dates_follow_risk_level sample_world "MFA is not enforced" "low" 365).
  - simpl. auto.
  - simpl. lia.
  - vm_compute. discriminate.
Defined.

(** ** Determinism and loading *)

Section WorldFacts.

Lemma same_inputs_refl (w : World) : same_inputs w w.
Proof. now repeat split. Qed.

Lemma same_inputs_log_read (p1 p2 : string) (w1 w2 : World) :
  same_inputs w1 w2 -> same_inputs (log_read p1 w1) (log_read p2 w2).
Proof. intros (? & ? & ?). now repeat split. Qed.

Lemma deterministic_ret {A : Type} (a : A) : deterministic (mret a).
Proof. intros w1 w2 H. now split. Qed.

Lemma deterministic_lift {A : Type} (r : result A) : deterministic (lift r).
Proof. intros w1 w2 H. now split. Qed.

Lemma deterministic_bind {A B : Type} (c : M A) (f : A -> M B) :
  deterministic c -> (forall a, deterministic (f a)) ->
  deterministic (c ≫= f).
Proof.
  intros Hc Hf w1 w2 H. unfold mbind, M_bind.
  destruct (Hc w1 w2 H) as [Hr Hw].
  destruct (c w1) as [[a1|e1] w1'], (c w2) as [[a2|e2] w2']; simpl in *;
    try discriminate.
  - injection Hr as ->. now apply Hf.
  - injection Hr as ->. now split.
Qed.

Lemma deterministic_load_json_in_data_dir (file_name : string) :
  deterministic (fun w => load_json (path_join (data_dir w) file_name) w).
Proof.
  intros w1 w2 H. pose proof H as (Hdir & Hfiles & _).
  unfold load_json. rewrite Hdir, Hfiles.
  destruct (files w2 _); simpl; (split; [reflexivity |]);
    now apply same_inputs_log_read.
Qed.

Lemma deterministic_read_text (path : string) : deterministic (read_text path).
Proof.
  intros w1 w2 H. pose proof H as (_ & _ & Htexts).
  unfold read_text. rewrite Htexts.
  destruct (texts w2 _); simpl; (split; [reflexivity |]);
    now apply same_inputs_log_read.
Qed.

Lemma deterministic_try_except {A : Type} (body handler : M A) :
  deterministic body -> deterministic handler ->
  deterministic (try_except body handler).
Proof.
  intros Hb Hh w1 w2 H. unfold try_except.
  destruct (Hb w1 w2 H) as [Hr Hw].
  destruct (body w1) as [[a1|e1] w1'], (body w2) as [[a2|e2] w2']; simpl in *;
    try discriminate.
  - split; [exact Hr | exact Hw].
  - now apply Hh.
Qed.

Lemma deterministic_find_control (framework control_id : string) :
  deterministic (_find_control framework control_id).
Proof.
  unfold _find_control. destruct (Json.assoc framework FRAMEWORK_FILES);
    [|apply deterministic_ret].
  destruct (String.eqb _ ""); [apply deterministic_ret |].
  apply deterministic_bind;
    [apply deterministic_load_json_in_data_dir | intros; apply deterministic_lift].
Qed.

Lemma deterministic_control_lookup (args : LookupArgs) :
  deterministic (control_lookup args).
Proof.
  apply deterministic_bind; [apply deterministic_find_control |].
  intros [c|]; [|apply deterministic_ret].
  destruct (negb _); [apply deterministic_ret | apply deterministic_lift].
Qed.

Lemma deterministic_gap_analyzer (args : GapArgs) :
  deterministic (gap_analyzer args).
Proof.
  apply deterministic_bind; [apply deterministic_find_control |].
  intros [c|]; [|apply deterministic_ret].
  destruct (negb _); [apply deterministic_ret | apply deterministic_lift].
Qed.

Lemma deterministic_framework_mapper (args : MapperArgs) :
  deterministic (framework_mapper args).
Proof.
  apply deterministic_bind;
    [apply deterministic_load_json_in_data_dir | intros; apply deterministic_lift].
Qed.

Lemma deterministic_cmmc_level_checker (impls : list Implementation) :
  deterministic (cmmc_level_checker impls).
Proof.
  unfold cmmc_level_checker. destruct (Json.assoc "CMMC" FRAMEWORK_FILES);
    [|apply deterministic_lift].
  apply deterministic_bind;
    [apply deterministic_load_json_in_data_dir | intros; apply deterministic_lift].
Qed.

Lemma deterministic_validate_paths (token : string) (paths : list string) :
  deterministic (validate_paths token paths).
Proof.
  induction paths as [|path paths IH]; [apply deterministic_ret |].
  cbn [validate_paths]. apply deterministic_bind.
  - apply deterministic_try_except; [|apply deterministic_ret].
    apply deterministic_bind; [apply deterministic_read_text |].
    intros; apply deterministic_ret.
  - intros r. apply deterministic_bind; [exact IH |].
    intros; apply deterministic_ret.
Qed.

Lemma deterministic_evidence_validator (args : EvidenceArgs) :
  deterministic (evidence_validator args).
Proof.
  apply deterministic_bind; [apply deterministic_validate_paths |].
  intros; apply deterministic_ret.
Qed.

Lemma find_control_reads (framework control_id : string) (w : World) :
  snd (_find_control framework control_id w)
  = match Json.assoc framework FRAMEWORK_FILES with
    | Some file_name => log_read (path_join (data_dir w) file_name) w
    | None => w
    end.
Proof.
  unfold _find_control.
  destruct (Json.assoc framework FRAMEWORK_FILES) as [file_name|] eqn:Hf;
    [|reflexivity].
  rewrite (framework_file_nonempty _ _ Hf).
  unfold mbind, M_bind, load_framework_data, load_json, lift.
  destruct (files w _); reflexivity.
Qed.

Lemma control_lookup_world (args : LookupArgs) (w : World) :
  snd (control_lookup args w)
  = snd (_find_control (la_framework args) (la_control_id args) w).
Proof.
  unfold control_lookup, mbind, M_bind.
  destruct (_find_control _ _ w) as [[[c|]|e] w']; try reflexivity.
  destruct (negb _); reflexivity.
Qed.

Lemma gap_analyzer_world (args : GapArgs) (w : World) :
  snd (gap_analyzer args w)
  = snd (_find_control (ga_framework args) (ga_control_id args) w).
Proof.
  unfold gap_analyzer, mbind, M_bind.
  destruct (_find_control _ _ w) as [[[c|]|e] w']; try reflexivity.
  destruct (negb _); reflexivity.
Qed.

End WorldFacts.

(** C8, as amended.  Control lookup, framework mapping, gap detection,
    evidence validation, level gating, risk classification and baseline
    selection are deterministic: on two worlds that hold the same files
    they return the same result for the same arguments, whatever the
    clock, the random generator and the reads made before.  Finding
    generation returns the same result when, besides, the clock reads the
    same and the next random draw is the same. *)
Theorem heuristics_deterministic_given_inputs :
  (forall args, deterministic (control_lookup args))
  /\ (forall args, deterministic (framework_mapper args))
  /\ (forall args, deterministic (gap_analyzer args))
  /\ (forall args, deterministic (evidence_validator args))
  /\ (forall impls, deterministic (cmmc_level_checker impls))
  /\ (forall text, deterministic (mret (ai_risk_classifier text)))
  /\ (forall args, deterministic (mret (baseline_selector args)))
  /\ (forall args w1 w2,
        clock w1 = clock w2 -> rng w1 (rng_pos w1) = rng w2 (rng_pos w2) ->
        fst (finding_generator args w1) = fst (finding_generator args w2)).
Proof.
  split; [exact deterministic_control_lookup |].
  split; [exact deterministic_framework_mapper |].
  split; [exact deterministic_gap_analyzer |].
  split; [exact deterministic_evidence_validator |].
  split; [exact deterministic_cmmc_level_checker |].
  split; [intros text; apply deterministic_ret |].
  split; [intros args; apply deterministic_ret |].
  intros args w1 w2 Hclock Hrng.
  unfold finding_generator, mbind, M_bind, now, lift, randint.
  rewrite Hclock.
  destruct (Date.add_days (clock w2) _); [|reflexivity].
  destruct (Date.add_days (clock w2) _); [|reflexivity].
  simpl. now rewrite Hrng.
Qed.

Lemma heuristics_deterministic_given_inputs_witness :
  fst (gap_analyzer (mk_GapArgs "NIST 800-53" "AC-6" "we enforce least privilege")
                    sample_world)
  = fst (gap_analyzer (mk_GapArgs "NIST 800-53" "AC-6" "we enforce least privilege")
                      sample_world_later)
  /\ fst (finding_generator (mk_FindingArgs "gap" (Some "high")) sample_world)
     = fst (finding_generator (mk_FindingArgs "gap" (Some "high"))
              (log_read "/repo/data/soc2.json" sample_world)).
Proof.
  destruct heuristics_deterministic_given_inputs
    as (_ & _ & Hgap & _ & _ & _ & _ & Hfinding).
  split.
  - apply Hgap. now repeat split.
  - apply Hfinding; reflexivity.
Defined.

(** Counterexample to C8 as stated.  Two runs of finding_generator on the
    same arguments, files and clock differ in the finding id when the random draws differ. *)
Lemma finding_generator_not_deterministic :
  same_inputs sample_world sample_world_redrawn
  /\ clock sample_world = clock sample_world_redrawn
  /\ fst (finding_generator (mk_FindingArgs "gap" (Some "high")) sample_world)
     <> fst (finding_generator (mk_FindingArgs "gap" (Some "high"))
               sample_world_redrawn)
  /\ ~ (forall args, deterministic (finding_generator args)).
Proof.
  assert (Hs : same_inputs sample_world sample_world_redrawn) by now repeat split.
  assert (Hne : fst (finding_generator (mk_FindingArgs "gap" (Some "high"))
                       sample_world)
                <> fst (finding_generator (mk_FindingArgs "gap" (Some "high"))
                          sample_world_redrawn))
    by (vm_compute; discriminate).
  repeat split; try assumption.
  intros H. now destruct (H (mk_FindingArgs "gap" (Some "high")) _ _ Hs).
Qed.

(** C9, as amended.  Nothing is cached: every control lookup, gap analysis
    and level check hands the file of its framework to the underlying read
    once more, and a lookup in an unknown framework reads nothing; the
    files themselves are left as they are.  Two lookups in a row therefore
    read the same file twice. *)
Theorem every_lookup_loads_the_document :
  (forall args w,
     reads (snd (control_lookup args w))
     = reads w ++ match Json.assoc (la_framework args) FRAMEWORK_FILES with
                  | Some file_name => [path_join (data_dir w) file_name]
                  | None => []
                  end
     /\ files (snd (control_lookup args w)) = files w)
  /\ (forall args w,
     reads (snd (gap_analyzer args w))
     = reads w ++ match Json.assoc (ga_framework args) FRAMEWORK_FILES with
                  | Some file_name => [path_join (data_dir w) file_name]
                  | None => []
                  end
     /\ files (snd (gap_analyzer args w)) = files w)
  /\ (forall impls w,
     reads (snd (cmmc_level_checker impls w))
     = reads w ++ [path_join (data_dir w) "cmmc-2.0-practices.json"]
     /\ files (snd (cmmc_level_checker impls w)) = files w)
  /\ (forall framework id1 id2 w,
     reads (snd ((control_lookup (mk_LookupArgs framework id1)
                  ≫= fun _ => control_lookup (mk_LookupArgs framework id2)) w))
     = (reads w
        ++ match Json.assoc framework FRAMEWORK_FILES with
           | Some file_name => [path_join (data_dir w) file_name]
           | None => []
           end)
        ++ match Json.assoc framework FRAMEWORK_FILES with
           | Some file_name =>
               match fst (control_lookup (mk_LookupArgs framework id1) w) with
               | Ok _ => [path_join (data_dir w) file_name]
               | Raise _ => []
               end
           | None => []
           end).
Proof.
  assert (Hfind : forall framework control_id w,
    reads (snd (_find_control framework control_id w))
    = reads w ++ match Json.assoc framework FRAMEWORK_FILES with
                 | Some file_name => [path_join (data_dir w) file_name]
                 | None => []
                 end
    /\ files (snd (_find_control framework control_id w)) = files w
    /\ data_dir (snd (_find_control framework control_id w)) = data_dir w).
  { intros framework control_id w. rewrite find_control_reads.
    destruct (Json.assoc framework FRAMEWORK_FILES); simpl;
      [|rewrite app_nil_r]; auto. }
  assert (Hlookup : forall args w,
    reads (snd (control_lookup args w))
    = reads w ++ match Json.assoc (la_framework args) FRAMEWORK_FILES with
                 | Some file_name => [path_join (data_dir w) file_name]
                 | None => []
                 end
    /\ files (snd (control_lookup args w)) = files w
    /\ data_dir (snd (control_lookup args w)) = data_dir w).
  { intros args w. rewrite control_lookup_world. apply Hfind. }
  split; [|split; [|split]].
  - intros args w. destruct (Hlookup args w) as (? & ? & ?). auto.
  - intros args w. rewrite gap_analyzer_world.
    destruct (Hfind (ga_framework args) (ga_control_id args) w) as (? & ? & ?).
    auto.
  - intros impls w. unfold cmmc_level_checker. simpl.
    unfold mbind, M_bind, load_framework_data, load_json, lift.
    destruct (files w _) as [data|]; simpl; auto.
  - intros framework id1 id2 w.
    destruct (Hlookup (mk_LookupArgs framework id1) w) as (Hr1 & _ & Hd1).
    unfold mbind at 1, M_bind at 1.
    destruct (control_lookup (mk_LookupArgs framework id1) w) as [[r|e] w1] eqn:E1;
      cbn [fst snd la_framework] in *.
    + destruct (Hlookup (mk_LookupArgs framework id2) w1) as (Hr2 & _ & _).
      cbn [la_framework] in Hr2. rewrite Hr2, Hr1, Hd1. reflexivity.
    + rewrite Hr1.
      destruct (Json.assoc framework FRAMEWORK_FILES);
        symmetry; apply app_nil_r.
Qed.

Lemma every_lookup_loads_the_document_witness :
  reads (snd (control_lookup (mk_LookupArgs "NIST 800-53" "AC-2")
                (log_read "/repo/data/nist-800-53-r5.json" sample_world)))
  = [ "/repo/data/nist-800-53-r5.json"; "/repo/data/nist-800-53-r5.json" ].
Proof.
  destruct every_lookup_loads_the_document as (Hlookup & _).
  destruct (Hlookup (mk_LookupArgs "NIST 800-53" "AC-2")
              (log_read "/repo/data/nist-800-53-r5.json" sample_world))
    as [Hreads _].
  exact Hreads.
Defined.

(** Counterexample to C9 as stated.  Two lookups of one control of
    NIST 800-53 in a row, from a world with no read yet: the document is
    read twice, not once. *)
Lemma second_lookup_loads_again :
  reads sample_world = []
  /\ loads_of "/repo/data/nist-800-53-r5.json"
       (snd ((control_lookup (mk_LookupArgs "NIST 800-53" "AC-2")
              ≫= fun _ => control_lookup (mk_LookupArgs "NIST 800-53" "AC-2"))
             sample_world))
     = 2%nat
  /\ ~ (loads_of "/repo/data/nist-800-53-r5.json"
          (snd ((control_lookup (mk_LookupArgs "NIST 800-53" "AC-2")
                 ≫= fun _ => control_lookup (mk_LookupArgs "NIST 800-53" "AC-2"))
                sample_world))
        <= 1)%nat.
Proof.
  split; [reflexivity |].
  assert (H : loads_of "/repo/data/nist-800-53-r5.json"
       (snd ((control_lookup (mk_LookupArgs "NIST 800-53" "AC-2")
              ≫= fun _ => control_lookup (mk_LookupArgs "NIST 800-53" "AC-2"))
             sample_world)) = 2%nat) by (vm_compute; reflexivity).
  split; [exact H | rewrite H; lia].
Qed.

(** ** The table scan *)

Section ScanFacts.

Lemma headers_disjoint (s : string) (cid : string) :
  Re.STATEMENT_HEADER s = Some cid -> Re.CIS_HEADER s = None.
Proof.
  unfold Re.STATEMENT_HEADER, Re.CIS_HEADER, Re.match_header.
  destruct (Re.control_id_prefix s) as [[c rest]|]; [|discriminate].
  destruct (Re.spaces1 rest) as [r|]; [|discriminate].
  destruct r as [|a r]; [discriminate |].
  cbn [Py.startswith].
  destruct (Ascii.eqb_spec "W" a) as [<-|_]; [reflexivity | discriminate].
Qed.

(** A statement table that does not follow a matched summary table
    contributes nothing: the scan passes over it. *)
Lemma statement_table_out_of_position_is_skipped
    (t : list string) (rest : list (list string)) :
  is_statement_table t = true ->
  extract_controls (t :: rest) = extract_controls rest.
Proof.
  intros Ht. destruct t as [|header cells]; [discriminate |].
  cbn [extract_controls _parse_cis_table]. simpl in Ht.
  destruct (Re.STATEMENT_HEADER header) as [cid|] eqn:E; [|discriminate].
  now rewrite (headers_disjoint _ _ E).
Qed.

(** The example of the specification: a summary table for AC-2, its
    statement table, a summary table for AC-3. *)
Example paired_then_lone_summary :
  extract_controls
    [ ["AC-2 Control Summary Information"; "Responsible Role: ISSO"];
      ["AC-2 What is the solution and how is it implemented?";
       "Part a: Accounts are reviewed monthly."];
      ["AC-3 Control Summary Information"; "Responsible Role: Admin"] ]
  = [ mk_ExtractedControl "ac-2" "" "" "ISSO" ∅
        {[ "a" := "Accounts are reviewed monthly." ]}
        "Part a: Accounts are reviewed monthly.";
      mk_ExtractedControl "ac-3" "" "" "Admin" ∅ ∅ "" ].
Proof. vm_compute. reflexivity. Qed.

End ScanFacts.

(** C2, where the code departs from it.  A summary table for AC-2 followed
    by a statement table for AC-3: the scan returns one record, for ac-2,
    and has consumed the AC-3 statement table into its parts and its
    raw_narrative. *)
Theorem statement_table_of_another_control_is_consumed :
  Re.CIS_HEADER "AC-2 Control Summary Information" = Some "AC-2"
  /\ Re.STATEMENT_HEADER "AC-3 What is the solution and how is it implemented?"
     = Some "AC-3"
  /\ extract_controls mismatched_tables
     = [ mk_ExtractedControl
           "ac-2"
           "Implementation Status (check all that apply): Implemented"
           ""
           "ISSO"
           ∅
           {[ "a" := "Access enforcement is handled by the gateway." ]}
           "Part a: Access enforcement is handled by the gateway." ].
Proof. repeat split; vm_compute; reflexivity. Qed.

(** * Further properties of the code *)

(** ** Normalization *)

Section NormalizeFacts.

Lemma isspace_lower_char (c : ascii) :
  Py.isspace (Py.lower_char c) = Py.isspace c.
Proof. destruct c as [[] [] [] [] [] [] [] []]; reflexivity. Qed.

Lemma lower_char_idem (c : ascii) :
  Py.lower_char (Py.lower_char c) = Py.lower_char c.
Proof. destruct c as [[] [] [] [] [] [] [] []]; reflexivity. Qed.

Lemma lower_idem (s : string) : Py.lower (Py.lower s) = Py.lower s.
Proof.
  induction s as [|c s IH]; simpl; [reflexivity |].
  now rewrite lower_char_idem, IH.
Qed.

Lemma lower_app (s t : string) :
  Py.lower (s +:+ t) = Py.lower s +:+ Py.lower t.
Proof. induction s as [|c s IH]; simpl; [reflexivity | now rewrite IH]. Qed.

Lemma lower_lstrip (s : string) : Py.lower (Py.lstrip s) = Py.lstrip (Py.lower s).
Proof.
  induction s as [|c s IH]; simpl; [reflexivity |].
  rewrite isspace_lower_char. now destruct (Py.isspace c).
Qed.

Lemma lower_rstrip (s : string) : Py.lower (Py.rstrip s) = Py.rstrip (Py.lower s).
Proof.
  induction s as [|c s IH]; simpl; [reflexivity |].
  rewrite <- IH, isspace_lower_char.
  destruct (Py.rstrip s); simpl; [now destruct (Py.isspace c) | reflexivity].
Qed.

Lemma lower_strip (s : string) : Py.lower (Py.strip s) = Py.strip (Py.lower s).
Proof. unfold Py.strip. now rewrite lower_rstrip, lower_lstrip. Qed.

Lemma rstrip_idem (s : string) : Py.rstrip (Py.rstrip s) = Py.rstrip s.
Proof.
  induction s as [|c s IH]; simpl; [reflexivity |].
  destruct (Py.rstrip s) as [|a r] eqn:E.
  - destruct (Py.isspace c) eqn:Ec; simpl; [reflexivity | now rewrite Ec].
  - change (Py.rstrip (String c (String a r)))
      with (match Py.rstrip (String a r) with
            | EmptyString => if Py.isspace c then EmptyString else String c EmptyString
            | r0 => String c r0
            end).
    now rewrite IH.
Qed.

(** A stripped string does not start with a blank. *)
Lemma lstrip_head (s : string) :
  match Py.lstrip s with
  | EmptyString => True
  | String c _ => Py.isspace c = false
  end.
Proof.
  induction s as [|c s IH]; simpl; [exact I |].
  destruct (Py.isspace c) eqn:E; [exact IH | exact E].
Qed.

Lemma rstrip_keeps_head (c : ascii) (s : string) :
  Py.isspace c = false ->
  exists r, Py.rstrip (String c s) = String c r.
Proof.
  intros Hc. simpl. destruct (Py.rstrip s); [rewrite Hc |]; eauto.
Qed.

Lemma strip_idem (s : string) : Py.strip (Py.strip s) = Py.strip s.
Proof.
  unfold Py.strip. pose proof (lstrip_head s) as H.
  destruct (Py.lstrip s) as [|c t]; [reflexivity |].
  destruct (rstrip_keeps_head c t H) as [r Hr]. rewrite Hr.
  simpl Py.lstrip. rewrite H, <- Hr. apply rstrip_idem.
Qed.

End NormalizeFacts.

(** X1. _normalize is idempotent: a normalized id or text normalizes to
    itself, so values stored in normalized form compare as they are. *)
Theorem normalize_idempotent (text : string) :
  _normalize (_normalize text) = _normalize text.
Proof.
  unfold _normalize.
  now rewrite <- lower_strip, strip_idem, lower_idem.
Qed.

Section OccurrenceFacts.

Lemma append_assoc_s (a b c : string) : (a +:+ b) +:+ c = a +:+ b +:+ c.
Proof. induction a as [|x a IH]; simpl; [reflexivity | now rewrite IH]. Qed.

Lemma occurs_in_lower (k d : string) :
  occurs_in k d -> occurs_in (Py.lower k) (Py.lower d).
Proof.
  intros (pre & post & ->). exists (Py.lower pre), (Py.lower post).
  now rewrite !lower_app.
Qed.

Lemma occurs_in_lstrip (k d : string) :
  Py.lstrip k = k -> k <> "" -> occurs_in k d -> occurs_in k (Py.lstrip d).
Proof.
  intros Hk Hne (pre & post & ->).
  induction pre as [|c pre IH]; simpl.
  - destruct k as [|a k']; [contradiction |].
    pose proof (lstrip_head (String a k')) as H. rewrite Hk in H.
    simpl. rewrite H. now exists "", post.
  - destruct (Py.isspace c); [exact IH |].
    now exists (String c pre), post.
Qed.

Lemma rstrip_app (s t : string) :
  Py.rstrip (s +:+ t)
  = match Py.rstrip t with
    | EmptyString => Py.rstrip s
    | r => s +:+ r
    end.
Proof.
  induction s as [|c s IH]; simpl.
  - now destruct (Py.rstrip t).
  - rewrite IH. destruct (Py.rstrip t); [reflexivity |].
    now destruct s.
Qed.

Lemma occurs_in_rstrip (k d : string) :
  Py.rstrip k = k -> k <> "" -> occurs_in k d -> occurs_in k (Py.rstrip d).
Proof.
  intros Hk Hne (pre & post & ->).
  assert (Hkp : exists tail, Py.rstrip (k +:+ post) = k +:+ tail).
  { rewrite rstrip_app, Hk. destruct (Py.rstrip post) as [|a r]; [|eauto].
    exists "". clear. induction k as [|c k IH]; simpl; congruence. }
  destruct Hkp as [tail Htail]. rewrite rstrip_app, Htail.
  destruct k as [|b k']; [contradiction |]. simpl.
  now exists pre, tail.
Qed.

Lemma strip_fixed_sides (k : string) :
  Py.strip k = k -> Py.lstrip k = k /\ Py.rstrip k = k.
Proof.
  unfold Py.strip. intros Hk.
  assert (Hl : Py.lstrip k = k).
  { pose proof (lstrip_head k) as H.
    destruct k as [|c k']; [reflexivity |].
    simpl in *. destruct (Py.isspace c) eqn:Ec; [|reflexivity].
    (* a blank head would be stripped on the left and never come back *)
    exfalso. pose proof (lstrip_head k') as H'.
    destruct (Py.lstrip k') as [|b t] eqn:El; [discriminate |].
    destruct (rstrip_keeps_head b t H') as [r Hr]. rewrite Hr in Hk.
    injection Hk as -> _. congruence. }
  split; [exact Hl | now rewrite Hl in Hk].
Qed.

(** A text that holds [k] in some letter case holds the lowercase, stripped
    form of [k] once normalized. *)
Lemma occurs_normalized (kw k d : string) :
  occurs_in k d -> Py.lower k = kw -> Py.strip kw = kw -> kw <> "" ->
  occurs_in kw (_normalize d).
Proof.
  intros Hocc Hlow Hstrip Hne. unfold _normalize. rewrite lower_strip.
  destruct (strip_fixed_sides kw Hstrip) as [Hl Hr]. unfold Py.strip.
  apply occurs_in_rstrip; [assumption.. |].
  apply occurs_in_lstrip; [assumption.. |].
  rewrite <- Hlow. now apply occurs_in_lower.
Qed.

Lemma strip_normalize (s : string) : Py.strip (_normalize s) = _normalize s.
Proof. unfold _normalize. now rewrite <- lower_strip, strip_idem. Qed.

End OccurrenceFacts.

(** ** AI risk classification *)

(** X2. A description that mentions "social scoring" or "subliminal", in
    any letter case, is classified unacceptable / govern, whatever other
    keywords it holds. *)
Theorem unacceptable_keyword_dominates (description k : string) :
  occurs_in k description ->
  Py.lower k = "social scoring" \/ Py.lower k = "subliminal" ->
  ai_risk_classifier description = mk_RiskClass "unacceptable" "govern".
Proof.
  intros Hocc Hk. unfold ai_risk_classifier.
  assert (H : Py.contains "social scoring" (_normalize description)
              || Py.contains "subliminal" (_normalize description) = true).
  { apply orb_true_iff.
    destruct Hk as [Hk|Hk]; [left | right]; apply contains_spec;
      now apply (occurs_normalized _ k). }
  now rewrite H.
Qed.

Lemma unacceptable_keyword_dominates_witness :
  ai_risk_classifier "Biometric access chatbot with SUBLIMINAL nudging"
  = mk_RiskClass "unacceptable" "govern".
Proof.
  apply (unacceptable_keyword_dominates _ "SUBLIMINAL").
  - now exists "Biometric access chatbot with ", " nudging".
  - now right.
Defined.

(** X3. The classifier returns one of four fixed pairs of tier and
    function, and the tier is minimal exactly when none of the eight
    keywords occurs in the normalized description. *)
Theorem minimal_tier_iff_no_keyword (description : string) :
  In (ai_risk_classifier description)
     [ mk_RiskClass "unacceptable" "govern"; mk_RiskClass "high" "map";
       mk_RiskClass "limited" "measure"; mk_RiskClass "minimal" "manage" ]
  /\ (eu_ai_act_risk_tier (ai_risk_classifier description) = "minimal"
      <-> forall kw,
            In kw [ "social scoring"; "subliminal"; "biometric";
                    "critical infrastructure"; "employment"; "law enforcement";
                    "chatbot"; "recommendation" ] ->
            ~ occurs_in kw (_normalize description)).
Proof.
  unfold ai_risk_classifier. set (text := _normalize description).
  cbn [existsb]. rewrite !orb_false_r.
  set (A := Py.contains "social scoring" text || Py.contains "subliminal" text).
  set (B := Py.contains "biometric" text || _).
  set (C := Py.contains "chatbot" text || Py.contains "recommendation" text).
  split; [destruct A, B, C; simpl; tauto |].
  assert (Htier : forall a b c : bool,
            eu_ai_act_risk_tier
              (if a then mk_RiskClass "unacceptable" "govern"
               else if b then mk_RiskClass "high" "map"
               else if c then mk_RiskClass "limited" "measure"
               else mk_RiskClass "minimal" "manage") = "minimal"
            <-> a = false /\ b = false /\ c = false)
    by (intros [] [] []; cbn;
        (split;
         [ try discriminate; auto | intros (? & ? & ?); try discriminate; auto ])).
  rewrite Htier. unfold A, B, C. rewrite !orb_false_iff. split.
  - intros ((H1 & H2) & (H3 & H4 & H5 & H6) & (H7 & H8)) kw Hkw Hocc.
    apply contains_spec in Hocc. simpl in Hkw.
    repeat (destruct Hkw as [<-|Hkw]; [congruence |]). destruct Hkw.
  - intros H.
    repeat split; apply not_true_is_false; intros Hc%contains_spec;
      (eapply H; [|exact Hc]); simpl; tauto.
Qed.

(** The word "hiring" is none of the keywords: a hiring tool that does not
    say "employment" is classified minimal. *)
Example hiring_tool_is_minimal :
  ai_risk_classifier "AI-powered hiring screening tool"
  = mk_RiskClass "minimal" "manage".
Proof. vm_compute. reflexivity. Qed.

(** ** Baseline selection *)

Section BaselineFacts.

Lemma impact_rank_cases (s : string) :
  (s = "low" /\ get_or impact_rank s 1 = 1)
  \/ (s = "moderate" /\ get_or impact_rank s 1 = 2)
  \/ (s = "high" /\ get_or impact_rank s 1 = 3)
  \/ (s <> "low" /\ s <> "moderate" /\ s <> "high" /\ get_or impact_rank s 1 = 1).
Proof.
  unfold get_or, impact_rank. simpl.
  destruct (String.eqb_spec s "low") as [->|H1]; [now left |].
  destruct (String.eqb_spec s "moderate") as [->|H2]; [now right; left |].
  destruct (String.eqb_spec s "high") as [->|H3]; [now right; right; left |].
  now right; right; right.
Qed.

Lemma existsb_contains (kw : string) (l : list string) :
  existsb (Py.contains kw) l = true <-> exists t, In t l /\ occurs_in kw t.
Proof.
  rewrite existsb_exists. split; intros (t & Hin & H); exists t;
    (split; [assumption | now apply contains_spec]).
Qed.

End BaselineFacts.

(** X4. The three impacts are compared as they are given: a value other
    than exactly "low", "moderate" or "high" (for instance "High") ranks as
    low, so the baseline, the DoD impact level and the overall
    categorization are those of the call with "low" in its place. *)
Theorem unrecognized_impact_counts_as_low
    (c i a : string) (dts : option (list string)) (m : option string)
    (regs : option (list string)) :
  let canon s :=
    if decide (s = "low" \/ s = "moderate" \/ s = "high") then s else "low" in
  let r := baseline_selector (mk_BaselineArgs c i a dts m regs) in
  let r0 := baseline_selector
              (mk_BaselineArgs (canon c) (canon i) (canon a) dts m regs) in
  fedramp_baseline r = fedramp_baseline r0
  /\ dod_impact_level r = dod_impact_level r0
  /\ overall (fips_199_categorization r) = overall (fips_199_categorization r0).
Proof.
  intros canon r r0.
  assert (Hrank : forall s, get_or impact_rank (canon s) 1 = get_or impact_rank s 1).
  { intros s. unfold canon. destruct (decide _) as [_|Hn]; [reflexivity |].
    destruct (impact_rank_cases s) as [[-> _]|[[-> _]|[[-> _]|(? & ? & ? & ->)]]];
      try reflexivity; exfalso; apply Hn; auto. }
  unfold r, r0, baseline_selector.
  cbn [confidentiality_impact integrity_impact availability_impact
       fedramp_baseline dod_impact_level fips_199_categorization overall
       data_types mission].
  now rewrite !Hrank.
Qed.

(** X5. Whatever strings are passed, the overall categorization is one of
    low, moderate and high and the baseline is the FedRAMP baseline of
    that name; the fallback values of the lookups are never what decides. *)
Theorem baseline_follows_overall (args : BaselineArgs) :
  In (overall (fips_199_categorization (baseline_selector args)),
      fedramp_baseline (baseline_selector args))
     [ ("low", "FedRAMP Low"); ("moderate", "FedRAMP Moderate");
       ("high", "FedRAMP High") ].
Proof.
  unfold baseline_selector.
  cbn [fedramp_baseline fips_199_categorization overall].
  destruct (impact_rank_cases (confidentiality_impact args))
    as [[_ ->]|[[_ ->]|[[_ ->]|(_ & _ & _ & ->)]]];
  destruct (impact_rank_cases (integrity_impact args))
    as [[_ ->]|[[_ ->]|[[_ ->]|(_ & _ & _ & ->)]]];
  destruct (impact_rank_cases (availability_impact args))
    as [[_ ->]|[[_ ->]|[[_ ->]|(_ & _ & _ & ->)]]];
  simpl; tauto.
Qed.

(** X6. A data type that mentions "classified" or "secret", in any letter
    case, decides the DoD impact level: it is IL6 whatever the other data
    types, the mission and the impacts are, and the rationale carries the
    note on the DISA overlays. *)
Theorem classified_data_forces_il6
    (args : BaselineArgs) (dts : list string) (t k : string) :
  data_types args = Some dts ->
  In t dts -> occurs_in k t ->
  Py.lower k = "classified" \/ Py.lower k = "secret" ->
  dod_impact_level (baseline_selector args) = Some "IL6"
  /\ In "DoD Impact Level: IL6" (rationale (baseline_selector args))
  /\ In "Note: IL5/IL6 require DISA Cloud Computing SRG overlays beyond FedRAMP controls"
        (rationale (baseline_selector args)).
Proof.
  intros Hdts Hin Hocc Hk. unfold baseline_selector.
  cbn [dod_impact_level rationale]. rewrite Hdts. cbn [default from_option id].
  assert (H : existsb (fun t0 => Py.contains "classified" t0
                                 || Py.contains "secret" t0)
                      (map _normalize dts) = true).
  { apply existsb_exists. exists (_normalize t). split; [now apply in_map |].
    apply orb_true_iff.
    destruct Hk as [Hk|Hk]; [left | right]; apply contains_spec;
      now apply (occurs_normalized _ k). }
  rewrite H. split; [reflexivity |]. simpl. auto 10.
Qed.

Lemma classified_data_forces_il6_witness :
  let args := mk_BaselineArgs "low" "low" "low"
                (Some ["Public web content"; "TOP SECRET//SCI imagery"])
                (Some "outreach") None in
  dod_impact_level (baseline_selector args) = Some "IL6"
  /\ In "DoD Impact Level: IL6" (rationale (baseline_selector args))
  /\ In "Note: IL5/IL6 require DISA Cloud Computing SRG overlays beyond FedRAMP controls"
        (rationale (baseline_selector args)).
Proof.
  intros args.
  apply (classified_data_forces_il6 args
           ["Public web content"; "TOP SECRET//SCI imagery"]
           "TOP SECRET//SCI imagery" "SECRET").
  - reflexivity.
  - simpl. auto.
  - now exists "TOP ", "//SCI imagery".
  - now right.
Defined.

(** X7. The DoD impact level is left unset exactly when the overall
    categorization is above low and no data type mentions classified,
    secret, cui or public. *)
Theorem dod_level_unset_iff (args : BaselineArgs) :
  dod_impact_level (baseline_selector args) = None
  <-> overall (fips_199_categorization (baseline_selector args)) <> "low"
      /\ forall t kw,
           In t (default [] (data_types args)) ->
           In kw ["classified"; "secret"; "cui"; "public"] ->
           ~ occurs_in kw (_normalize t).
Proof.
  unfold baseline_selector.
  cbn [dod_impact_level fips_199_categorization overall].
  set (dts := default [] (data_types args)).
  set (ov := rank_to_level _).
  set (mt := _ || _).
  destruct (existsb (fun t => Py.contains "classified" t || Py.contains "secret" t)
                    (map _normalize dts)) eqn:E6.
  { split; [discriminate |]. intros [_ H]. exfalso.
    apply existsb_exists in E6 as (x & (t & <- & Hin)%in_map_iff & Hc).
    apply orb_true_iff in Hc as [Hc|Hc]; apply contains_spec in Hc;
      eapply H; eauto; simpl; auto. }
  destruct (existsb (Py.contains "cui") (map _normalize dts)) eqn:E4.
  { split; [destruct mt; discriminate |]. intros [_ H]. exfalso.
    apply existsb_contains in E4 as (x & (t & <- & Hin)%in_map_iff & Hc).
    eapply H; eauto; simpl; auto. }
  cbn [andb].
  destruct (existsb (Py.contains "public") (map _normalize dts)) eqn:E2.
  { split; [discriminate |]. intros [_ H]. exfalso.
    apply existsb_contains in E2 as (x & (t & <- & Hin)%in_map_iff & Hc).
    eapply H; eauto; simpl; auto. }
  cbn [orb]. destruct (String.eqb_spec ov "low") as [Hov|Hov].
  { split; [discriminate | intros [H _]; contradiction]. }
  split; [|reflexivity]. intros _. split; [assumption |].
  intros t kw Hin Hkw Hocc. simpl in Hkw.
  assert (Hn : In (_normalize t) (map _normalize dts)) by now apply in_map.
  destruct Hkw as [<-|[<-|[<-|[<-|[]]]]].
  - enough (existsb (fun t => Py.contains "classified" t || Py.contains "secret" t)
                    (map _normalize dts) = true) by congruence.
    apply existsb_exists. exists (_normalize t). split; [assumption |].
    apply orb_true_iff. left. now apply contains_spec.
  - enough (existsb (fun t => Py.contains "classified" t || Py.contains "secret" t)
                    (map _normalize dts) = true) by congruence.
    apply existsb_exists. exists (_normalize t). split; [assumption |].
    apply orb_true_iff. right. now apply contains_spec.
  - enough (existsb (Py.contains "cui") (map _normalize dts) = true) by congruence.
    apply existsb_contains. eauto.
  - enough (existsb (Py.contains "public") (map _normalize dts) = true) by congruence.
    apply existsb_contains. eauto.
Qed.

(** ** Lookup: errors and first match *)

(** X8. When loading the file of a supported framework raises, because
    the file is missing or cannot be read, is not UTF-8 text, or is not
    JSON, the lookup does not degrade to NotFound: control_lookup and
    gap_analyzer raise that same exception, after the one read attempt;
    so does cmmc_level_checker for the CMMC file. *)
Theorem load_error_reaches_the_caller
    (w : World) (framework file_name : string) (e : exn) :
  Json.assoc framework FRAMEWORK_FILES = Some file_name ->
  files w (path_join (data_dir w) file_name) = Raise e ->
  (forall control_id,
     control_lookup (mk_LookupArgs framework control_id) w
     = (Raise e, log_read (path_join (data_dir w) file_name) w))
  /\ (forall control_id text,
     gap_analyzer (mk_GapArgs framework control_id text) w
     = (Raise e, log_read (path_join (data_dir w) file_name) w))
  /\ (framework = "CMMC" ->
      forall impls,
        cmmc_level_checker impls w
        = (Raise e, log_read (path_join (data_dir w) file_name) w)).
Proof.
  intros Hf Hd.
  assert (Hfind : forall control_id,
            _find_control framework control_id w
            = (Raise e, log_read (path_join (data_dir w) file_name) w)).
  { intros control_id. unfold _find_control. rewrite Hf.
    rewrite (framework_file_nonempty _ _ Hf).
    unfold mbind, M_bind, load_framework_data, load_json. now rewrite Hd. }
  split; [|split].
  - intros control_id. unfold control_lookup, mbind, M_bind. simpl.
    now rewrite Hfind.
  - intros control_id text. unfold gap_analyzer, mbind, M_bind. simpl.
    now rewrite Hfind.
  - intros -> impls. unfold cmmc_level_checker.
    rewrite Hf. unfold mbind, M_bind, load_framework_data, load_json.
    now rewrite Hd.
Qed.

Lemma load_error_reaches_the_caller_witness :
  control_lookup (mk_LookupArgs "EU AI Act" "Art. 9") sample_world_damaged
  = (Raise OSError, log_read "/repo/data/eu-ai-act.json" sample_world_damaged)
  /\ gap_analyzer (mk_GapArgs "SOC 2" "CC6.1" "Access is reviewed.")
       sample_world_damaged
     = (Raise JSONDecodeError,
        log_read "/repo/data/soc2.json" sample_world_damaged).
Proof.
  split.
  - destruct (load_error_reaches_the_caller sample_world_damaged
                "EU AI Act" "eu-ai-act.json" OSError eq_refl eq_refl) as [H _].
    exact (H "Art. 9").
  - destruct (load_error_reaches_the_caller sample_world_damaged
                "SOC 2" "soc2.json" JSONDecodeError eq_refl eq_refl)
      as (_ & H & _).
    exact (H "CC6.1" "Access is reviewed.").
Defined.

Section FirstMatchFacts.

Lemma scan_controls_first_match (target : string) (pre post : list json)
    (c : json) (cid : string) :
  forallb (has_str "id") pre = true ->
  (forall x, In x (member_ids "id" pre) -> _normalize x <> target) ->
  str_field "id" c = Some cid -> _normalize cid = target ->
  scan_controls target (pre ++ c :: post) = Ok (Some c).
Proof.
  intros Hpre Hno Hc Hn. induction pre as [|p pre IH]; simpl.
  - rewrite (str_field_get _ _ _ _ Hc). simpl.
    now rewrite Hn, String.eqb_refl.
  - simpl in Hpre. apply andb_prop in Hpre as [Hp Hpre].
    destruct (has_str_field _ _ Hp) as [s Hs].
    rewrite (str_field_get _ _ _ _ Hs). simpl.
    unfold member_ids in Hno. simpl in Hno. rewrite Hs in Hno. simpl in Hno.
    destruct (String.eqb_spec (_normalize s) target) as [Heq|_].
    + now destruct (Hno s (or_introl eq_refl)).
    + apply IH; [assumption |]. intros x Hx. apply Hno. now right.
Qed.

End FirstMatchFacts.

(** X9. In a flat controls array the first control whose id normalizes
    like the one asked for is the one returned, as it is stored: whatever
    follows it in the array, and the other sections of the document, are
    not looked at.  control_lookup reports its stored id, its name,
    requirements and assessment objectives, a missing one as None or the
    empty list. *)
Theorem flat_lookup_returns_first_match
    (w : World) (framework file_name control_id cid : string)
    (kvs ckvs : list (string * json)) (pre post : list json) :
  Json.assoc framework FRAMEWORK_FILES = Some file_name ->
  files w (path_join (data_dir w) file_name) = Ok (JObj kvs) ->
  Json.assoc "controls" kvs = Some (JList (pre ++ JObj ckvs :: post)) ->
  forallb (has_str "id") pre = true ->
  (forall x, In x (member_ids "id" pre) -> _normalize x <> _normalize control_id) ->
  Json.assoc "id" ckvs = Some (JStr cid) ->
  _normalize cid = _normalize control_id ->
  _find_control framework control_id w
  = (Ok (Some (JObj ckvs)), log_read (path_join (data_dir w) file_name) w)
  /\ fst (control_lookup (mk_LookupArgs framework control_id) w)
     = Ok (mk_LookupResult framework (JStr cid)
             (default JNull (Json.assoc "name" ckvs))
             (default (JList []) (Json.assoc "requirements" ckvs))
             (default (JList []) (Json.assoc "assessment_objectives" ckvs))).
Proof.
  intros Hf Hd Hcs Hpre Hno Hid Hn.
  assert (Hfind : _find_control framework control_id w
            = (Ok (Some (JObj ckvs)),
               log_read (path_join (data_dir w) file_name) w)).
  { rewrite (find_control_loaded _ _ _ _ _ Hf Hd). f_equal.
    unfold find_in_data. cbn [Json.get mbind result_bind]. rewrite Hcs.
    rewrite (scan_controls_first_match _ pre post (JObj ckvs) cid);
      try assumption; [reflexivity |].
    simpl. now rewrite Hid. }
  split; [exact Hfind |].
  unfold control_lookup, mbind at 1, M_bind. simpl la_framework. simpl la_control_id.
  rewrite Hfind.
  assert (Ht : Json.truthy (JObj ckvs) = true) by (now destruct ckvs).
  rewrite Ht. cbn [negb lift fst Json.get mbind result_bind]. rewrite Hid.
  destruct (Json.assoc "name" ckvs), (Json.assoc "requirements" ckvs),
    (Json.assoc "assessment_objectives" ckvs); reflexivity.
Qed.

Lemma flat_lookup_returns_first_match_witness :
  fst (control_lookup (mk_LookupArgs "NIST 800-53" " ac-6") sample_world)
  = Ok (mk_LookupResult "NIST 800-53" (JStr "AC-6") (JStr "Least Privilege")
          (JList [JStr "least privilege"; JStr "audit logging"]) (JList [])).
Proof.
  apply (flat_lookup_returns_first_match sample_world "NIST 800-53"
           "nist-800-53-r5.json" " ac-6" "AC-6"
           [ ("framework", JStr "NIST 800-53");
             ("controls", JList [
                JObj [ ("id", JStr "AC-2"); ("name", JStr "Account Management");
                       ("requirements", JList [JStr "account review"]) ];
                JObj [ ("id", JStr "AC-6"); ("name", JStr "Least Privilege");
                       ("requirements",
                        JList [JStr "least privilege"; JStr "audit logging"]) ] ]) ]
           [ ("id", JStr "AC-6"); ("name", JStr "Least Privilege");
             ("requirements",
              JList [JStr "least privilege"; JStr "audit logging"]) ]
           [ JObj [ ("id", JStr "AC-2"); ("name", JStr "Account Management");
                    ("requirements", JList [JStr "account review"]) ] ]
           []);
    try reflexivity.
  intros x [<-|[]]. vm_compute. discriminate.
Defined.

Section BaselineLookupFacts.

Lemma scan_baselines_first_match (target : string) (pre post : list json)
    (bkvs : list (string * json)) (s : string) :
  forallb (has_str "baseline") pre = true ->
  (forall x, In x (member_ids "baseline" pre) -> _normalize x <> target) ->
  Json.assoc "baseline" bkvs = Some (JStr s) -> _normalize s = target ->
  scan_baselines target (pre ++ JObj bkvs :: post)
  = Ok (Some (JObj [ ("id", JStr s);
                     ("name", JStr ("FedRAMP " +:+ s +:+ " baseline"));
                     ("requirements",
                      JList [default (JStr "") (Json.assoc "description" bkvs)]) ])).
Proof.
  intros Hpre Hno Hb Hn. induction pre as [|p pre IH]; simpl.
  - rewrite Hb. simpl. rewrite Hn, String.eqb_refl.
    now destruct (Json.assoc "description" bkvs).
  - simpl in Hpre. apply andb_prop in Hpre as [Hp Hpre].
    destruct (has_str_field _ _ Hp) as [x Hx].
    rewrite (str_field_get _ _ _ _ Hx). simpl.
    unfold member_ids in Hno. simpl in Hno. rewrite Hx in Hno. simpl in Hno.
    destruct (String.eqb_spec (_normalize x) target) as [Heq|_].
    + now destruct (Hno x (or_introl eq_refl)).
    + apply IH; [assumption |]. intros y Hy. apply Hno. now right.
Qed.

End BaselineLookupFacts.

(** X10. In the FedRAMP document (a baselines array and no controls
    array) the control id is the baseline name: the lookup of a name, in
    any case, returns a control made up from the first baseline of that
    name, with the stored name as id, "FedRAMP <name> baseline" as control
    name, the description (or the empty string) as its only requirement
    and no assessment objectives. *)
Theorem fedramp_baseline_is_a_control
    (w : World) (control_id s : string)
    (kvs bkvs : list (string * json)) (pre post : list json) :
  files w (path_join (data_dir w) "fedramp-baselines.json") = Ok (JObj kvs) ->
  Json.assoc "controls" kvs = None ->
  Json.assoc "baselines" kvs = Some (JList (pre ++ JObj bkvs :: post)) ->
  forallb (has_str "baseline") pre = true ->
  (forall x, In x (member_ids "baseline" pre) -> _normalize x <> _normalize control_id) ->
  Json.assoc "baseline" bkvs = Some (JStr s) ->
  _normalize s = _normalize control_id ->
  fst (control_lookup (mk_LookupArgs "FedRAMP" control_id) w)
  = Ok (mk_LookupResult "FedRAMP" (JStr s)
          (JStr ("FedRAMP " +:+ s +:+ " baseline"))
          (JList [default (JStr "") (Json.assoc "description" bkvs)])
          (JList [])).
Proof.
  intros Hd Hcs Hbs Hpre Hno Hb Hn.
  assert (Hfind : find_in_data "FedRAMP" (JObj kvs) (_normalize control_id)
            = Ok (Some (JObj [ ("id", JStr s);
                     ("name", JStr ("FedRAMP " +:+ s +:+ " baseline"));
                     ("requirements",
                      JList [default (JStr "") (Json.assoc "description" bkvs)]) ]))).
  { unfold find_in_data. cbn [Json.get mbind result_bind]. rewrite Hcs, Hbs.
    change (String.eqb "FedRAMP" "CMMC") with false.
    change (String.eqb "FedRAMP" "NIST AI RMF") with false.
    change (String.eqb "FedRAMP" "FedRAMP") with true.
    cbn [or_else mbind result_bind Json.iter].
    now rewrite (scan_baselines_first_match _ pre post bkvs s) by assumption. }
  unfold control_lookup, mbind at 1, M_bind. simpl la_framework. simpl la_control_id.
  rewrite (find_control_loaded "FedRAMP" control_id "fedramp-baselines.json"
             (JObj kvs) w eq_refl Hd).
  rewrite Hfind. reflexivity.
Qed.

Lemma fedramp_baseline_is_a_control_witness :
  fst (control_lookup (mk_LookupArgs "FedRAMP" "moderate ") sample_world_full)
  = Ok (mk_LookupResult "FedRAMP" (JStr "Moderate")
          (JStr "FedRAMP Moderate baseline")
          (JList [JStr "Moderate impact baseline"])
          (JList [])).
Proof.
  apply (fedramp_baseline_is_a_control sample_world_full "moderate " "Moderate"
           [ ("baselines", JList [
                JObj [ ("baseline", JStr "Low");
                       ("description", JStr "Low impact SaaS baseline") ];
                JObj [ ("baseline", JStr "Moderate");
                       ("description", JStr "Moderate impact baseline") ] ]) ]
           [ ("baseline", JStr "Moderate");
             ("description", JStr "Moderate impact baseline") ]
           [ JObj [ ("baseline", JStr "Low");
                    ("description", JStr "Low impact SaaS baseline") ] ]
           []);
    try reflexivity.
  intros x [<-|[]]. vm_compute. discriminate.
Defined.

(** ** Framework mapping *)

Section MapperFacts.

Lemma has_key_item (key : string) (j : json) :
  has_key key j = true -> exists v, Json.item j key = Ok v.
Proof.
  destruct j as [| | | |?|kvs]; simpl; try discriminate.
  destruct (Json.assoc key kvs); [eauto | discriminate].
Qed.

Lemma related_entries_spec (source : string) (entries : list json) :
  forallb wf_entry entries = true ->
  exists related,
    related_entries source entries = Ok related
    /\ forallb wf_entry related = true
    /\ forall e, In e related
                 <-> In e entries /\ str_field "source" e = Some source.
Proof.
  induction entries as [|entry entries IH]; simpl.
  - intros _. exists []. simpl. repeat split; tauto.
  - intros [He Hes]%andb_prop.
    destruct (IH Hes) as (related & -> & Hwf & Hin).
    pose proof He as He'. unfold wf_entry in He'.
    apply andb_prop in He' as [_ He'].
    destruct entry as [| | | |?|kvs]; try discriminate.
    cbn [Json.get mbind result_bind].
    assert (Hsrc : is_str (match Json.assoc "source" kvs with
                           | Some v => v | None => JNull end) source = true
                   <-> str_field "source" (JObj kvs) = Some source).
    { simpl. destruct (Json.assoc "source" kvs) as [[| | |s| |]|]; simpl;
        try (split; discriminate).
      destruct (String.eqb_spec s source); split; congruence. }
    destruct (is_str _ source) eqn:E.
    + eexists. split; [reflexivity |]. split; [simpl; now rewrite He |].
      intros e. simpl. rewrite Hin. split.
      * intros [<-|[? ?]]; [split; [now left | now apply Hsrc] | auto].
      * intros [[<-|?] ?]; auto.
    + eexists. split; [reflexivity |]. split; [assumption |].
      intros e. rewrite Hin. split.
      * intros [? ?]; auto.
      * intros [[<-|?] Hs]; [|auto].
        apply Hsrc in Hs. congruence.
Qed.

Lemma pairs_of_entry_spec (normalized : string) (ekvs : list (string * json))
    (target : json) (ms : list json) :
  Json.assoc "target" ekvs = Some target ->
  forallb (fun m => has_str "source_control_id" m
                    && has_key "target_control_id" m) ms = true ->
  exists l,
    pairs_of_entry normalized (JObj ekvs) ms = Ok l
    /\ forall r, In r l
         <-> exists m sid,
               In m ms /\ str_field "source_control_id" m = Some sid
               /\ _normalize sid = normalized
               /\ rel_framework r = target
               /\ Json.item m "target_control_id" = Ok (rel_control_id r).
Proof.
  intros Ht. induction ms as [|m ms IH]; simpl.
  - intros _. exists []. split; [reflexivity |].
    intros r. split; [intros [] | intros (? & ? & [] & _)].
  - intros [Hm Hms]%andb_prop. apply andb_prop in Hm as [Hsid Htid].
    destruct (IH Hms) as (l & Hl & Hin).
    destruct (has_str_field _ _ Hsid) as [sid Es].
    destruct (has_key_item _ _ Htid) as [tid Et].
    rewrite (str_field_get _ _ _ _ Es). cbn [mbind result_bind normalize_value].
    rewrite Ht, Et, Hl.
    destruct (String.eqb_spec (_normalize sid) normalized) as [Heq|Hne];
      cbn [mbind result_bind app]; eexists; (split; [reflexivity |]);
      intros r; simpl; rewrite Hin.
    + split.
      * intros [<-|(m' & sid' & ? & ?)].
        -- exists m, sid. simpl. auto.
        -- exists m', sid'. auto.
      * intros (m' & sid' & [<-|Hin'] & Hs & Hn & Hf & Hi).
        -- left. destruct r as [f c]. simpl in *. congruence.
        -- right. exists m', sid'. auto.
    + split.
      * intros (m' & sid' & ? & ?). exists m', sid'. auto.
      * intros (m' & sid' & [<-|Hin'] & Hs & Hn & Hf & Hi).
        -- congruence.
        -- exists m', sid'. auto.
Qed.

Lemma pairs_of_entries_spec (normalized : string) (related : list json) :
  forallb wf_entry related = true ->
  exists l,
    pairs_of_entries normalized related = Ok l
    /\ forall r, In r l
         <-> exists entry m sid,
               In entry related /\ In m (array_field "mappings" entry)
               /\ str_field "source_control_id" m = Some sid
               /\ _normalize sid = normalized
               /\ Json.item entry "target" = Ok (rel_framework r)
               /\ Json.item m "target_control_id" = Ok (rel_control_id r).
Proof.
  induction related as [|entry related IH]; simpl.
  - intros _. exists []. split; [reflexivity |].
    intros r. split; [intros [] | intros (? & ? & ? & [] & _)].
  - intros [He Hes]%andb_prop. destruct (IH Hes) as (tl & Htl & Hin).
    unfold wf_entry in He. apply andb_prop in He as [Htarget Hms].
    destruct entry as [| | | |?|ekvs]; try discriminate.
    simpl in Htarget.
    destruct (Json.assoc "target" ekvs) as [target|] eqn:Et; [|discriminate].
    assert (Hpairs : exists ms,
              Json.get (JObj ekvs) "mappings" (JList []) = Ok (JList ms)
              /\ array_field "mappings" (JObj ekvs) = ms
              /\ forallb (fun m => has_str "source_control_id" m
                                   && has_key "target_control_id" m) ms = true).
    { simpl. destruct (Json.assoc "mappings" ekvs) as [[| | | |ms|]|];
        try discriminate; eauto. }
    destruct Hpairs as (ms & Hget & Harr & Hwf).
    destruct (pairs_of_entry_spec normalized ekvs target ms Et Hwf)
      as (hd & Hhd & Hinhd).
    rewrite Hget. cbn [mbind result_bind Json.iter]. rewrite Hhd, Htl.
    cbn [mbind result_bind]. eexists. split; [reflexivity |].
    intros r. rewrite in_app_iff, Hinhd, Hin. split.
    + intros [(m & sid & Hm & Hs & Hn & Hf & Hi)|(e & m & sid & He & H)].
      * exists (JObj ekvs), m, sid. rewrite Harr. simpl. rewrite Et. 
        repeat split; auto. now rewrite Hf.
      * exists e, m, sid. tauto.
    + intros (e & m & sid & [<-|He] & Hm & Hs & Hn & Hf & Hi).
      * left. exists m, sid. rewrite Harr in Hm. simpl in Hf. rewrite Et in Hf.
        repeat split; auto. congruence.
      * right. exists e, m, sid. auto 10.
Qed.

Lemma map_control_ids_spec (related : list json) (cids : list string) :
  forallb wf_entry related = true ->
  exists groups,
    map_control_ids related cids = Ok groups
    /\ map mg_source_control_id groups = cids
    /\ forall g, In g groups ->
         forall r, In r (mg_related g)
           <-> exists entry m sid,
                 In entry related /\ In m (array_field "mappings" entry)
                 /\ str_field "source_control_id" m = Some sid
                 /\ _normalize sid = _normalize (mg_source_control_id g)
                 /\ Json.item entry "target" = Ok (rel_framework r)
                 /\ Json.item m "target_control_id" = Ok (rel_control_id r).
Proof.
  intros Hwf. induction cids as [|cid cids IH]; simpl.
  - exists []. split; [reflexivity |]. split; [reflexivity |]. intros g [].
  - destruct IH as (tl & -> & Hids & Hin).
    destruct (pairs_of_entries_spec (_normalize cid) related Hwf) as (l & -> & Hl).
    cbn [mbind result_bind]. eexists. split; [reflexivity |].
    split; [simpl; now rewrite Hids |].
    intros g [<-|Hg]; [exact Hl | now apply Hin].
Qed.

Lemma framework_mapper_spec (w : World) (doc : json) (args : MapperArgs) :
  files w (path_join (data_dir w) "framework-mappings.json") = Ok doc ->
  wf_mappings doc = true ->
  exists groups,
    framework_mapper args w
    = (Ok (mk_MapperResult (ma_source_framework args) groups),
       log_read (path_join (data_dir w) "framework-mappings.json") w)
    /\ map mg_source_control_id groups = ma_control_ids args
    /\ forall g, In g groups ->
         forall r, In r (mg_related g)
           <-> mapped doc (ma_source_framework args) (mg_source_control_id g) r.
Proof.
  intros Hd Hwf. unfold framework_mapper, mbind at 1, M_bind,
    load_framework_mappings, load_json, lift. rewrite Hd.
  destruct doc as [| | | |?|kvs]; try discriminate.
  assert (Hentries : exists entries,
            Json.get (JObj kvs) "mappings" (JList []) = Ok (JList entries)
            /\ array_field "mappings" (JObj kvs) = entries
            /\ forallb wf_entry entries = true).
  { simpl in *. destruct (Json.assoc "mappings" kvs) as [[| | | |es|]|];
      try discriminate; eauto. }
  destruct Hentries as (entries & Hget & Harr & Hes).
  destruct (related_entries_spec (ma_source_framework args) entries Hes)
    as (related & Hrel & Hrwf & Hrin).
  destruct (map_control_ids_spec related (ma_control_ids args) Hrwf)
    as (groups & Hgroups & Hids & Hgin).
  exists groups. rewrite Hget. cbn [mbind result_bind Json.iter].
  rewrite Hrel. cbn [mbind result_bind]. rewrite Hgroups.
  split; [reflexivity |]. split; [exact Hids |].
  intros g Hg r. rewrite (Hgin g Hg r). unfold mapped. rewrite Harr.
  split.
  - intros (e & m & sid & He & Hm & Hs & Hn & Hf & Hi).
    apply Hrin in He as [He Hsrc]. exists e, m, sid. auto 10.
  - intros (e & m & sid & He & Hsrc & Hm & Hs & Hn & Hf & Hi).
    exists e, m, sid. rewrite Hrin. auto 10.
Qed.

End MapperFacts.

(** X11. With the mappings document loaded and well-formed,
    framework_mapper raises nothing and returns one group per control id
    asked for, in the order asked and under the id as it was given, also
    for an id or a source framework the document does not know. *)
Theorem framework_mapper_one_group_per_id
    (w : World) (doc : json) (args : MapperArgs) :
  files w (path_join (data_dir w) "framework-mappings.json") = Ok doc ->
  wf_mappings doc = true ->
  exists groups w',
    framework_mapper args w
    = (Ok (mk_MapperResult (ma_source_framework args) groups), w')
    /\ map mg_source_control_id groups = ma_control_ids args.
Proof.
  intros Hd Hwf.
  destruct (framework_mapper_spec w doc args Hd Hwf) as (groups & H & Hids & _).
  eauto.
Qed.

Lemma framework_mapper_one_group_per_id_witness :
  exists groups w',
    framework_mapper (mk_MapperArgs "COBIT" ["AC-2"; "zz-9"; "AC-2"])
                     sample_world_full
    = (Ok (mk_MapperResult "COBIT" groups), w')
    /\ map mg_source_control_id groups = ["AC-2"; "zz-9"; "AC-2"].
Proof.
  apply (framework_mapper_one_group_per_id sample_world_full sample_mappings
           (mk_MapperArgs "COBIT" ["AC-2"; "zz-9"; "AC-2"]));
    reflexivity.
Defined.

(** X12. The group of a control id holds exactly the pairs the document
    maps it to: a target is in the group if and only if an entry whose
    source is the source framework asked for (compared as given) holds a
    pair whose source id normalizes like the control id, and the target is
    that entry's target framework with that pair's target id. *)
Theorem framework_mapper_groups_are_the_mapped_pairs
    (w w' : World) (doc : json) (args : MapperArgs) (res : MapperResult) :
  files w (path_join (data_dir w) "framework-mappings.json") = Ok doc ->
  wf_mappings doc = true ->
  framework_mapper args w = (Ok res, w') ->
  forall g, In g (mr_mappings res) ->
    forall r, In r (mg_related g)
      <-> mapped doc (ma_source_framework args) (mg_source_control_id g) r.
Proof.
  intros Hd Hwf Hrun.
  destruct (framework_mapper_spec w doc args Hd Hwf) as (groups & H & _ & Hin).
  rewrite H in Hrun. injection Hrun as <- _. exact Hin.
Qed.

Lemma framework_mapper_groups_are_the_mapped_pairs_witness :
  In (mk_Related (JStr "SOC 2") (JStr "CC6.1"))
     [ mk_Related (JStr "ISO 27001") (JStr "A.9.2.1");
       mk_Related (JStr "SOC 2") (JStr "CC6.1") ]
  <-> mapped sample_mappings "NIST 800-53" " Ac-2 "
             (mk_Related (JStr "SOC 2") (JStr "CC6.1")).
Proof.
  apply (framework_mapper_groups_are_the_mapped_pairs
           sample_world_full
           (log_read "/repo/data/framework-mappings.json" sample_world_full)
           sample_mappings
           (mk_MapperArgs "NIST 800-53" [" Ac-2 "])
           (mk_MapperResult "NIST 800-53"
              [ mk_MappingGroup " Ac-2 "
                  [ mk_Related (JStr "ISO 27001") (JStr "A.9.2.1");
                    mk_Related (JStr "SOC 2") (JStr "CC6.1") ] ])
           eq_refl eq_refl eq_refl
           (mk_MappingGroup " Ac-2 "
              [ mk_Related (JStr "ISO 27001") (JStr "A.9.2.1");
                mk_Related (JStr "SOC 2") (JStr "CC6.1") ])).
  simpl. auto.
Defined.

(** ** Evidence validation *)

Section EvidenceFacts.

Lemma validate_paths_spec (token : string) (paths : list string) (w : World) :
  exists rs w',
    validate_paths token paths w = (Ok rs, w')
    /\ texts w' = texts w /\ files w' = files w
    /\ reads w' = reads w ++ paths
    /\ map fr_path rs = paths
    /\ Forall (reported (texts w) token) rs.
Proof.
  revert w. induction paths as [|path paths IH]; intros w.
  - exists [], w. simpl. rewrite app_nil_r. repeat split; constructor.
  - cbn [validate_paths]. unfold mbind at 1, M_bind at 1, try_except.
    unfold mbind at 1, M_bind at 1, read_text.
    destruct (texts w path) as [content|] eqn:Et.
    + destruct (IH (log_read path w)) as (rs & w' & Hrun & Ht & Hf & Hr & Hp & Hall).
      cbn [mret M_ret]. unfold mbind, M_bind. rewrite Hrun. cbn [mret M_ret].
      eexists _, w'. split; [reflexivity |]. simpl in *.
      rewrite <- app_assoc in Hr. repeat split; try assumption.
      * now rewrite Hp.
      * constructor; [|assumption]. unfold reported. simpl. now rewrite Et.
    + destruct (IH (log_read path w)) as (rs & w' & Hrun & Ht & Hf & Hr & Hp & Hall).
      cbn [mret M_ret]. unfold mbind, M_bind. rewrite Hrun. cbn [mret M_ret].
      eexists _, w'. split; [reflexivity |]. simpl in *.
      rewrite <- app_assoc in Hr. repeat split; try assumption.
      * now rewrite Hp.
      * constructor; [|assumption]. unfold reported. simpl. now rewrite Et.
Qed.

Lemma evidence_validator_spec_aux (args : EvidenceArgs) (w : World) :
  exists rs w',
    evidence_validator args w = (Ok (mk_EvidenceResult (ea_control_id args) rs), w')
    /\ Forall (reported (texts w) (_normalize (ea_control_id args))) rs.
Proof.
  destruct (validate_paths_spec (_normalize (ea_control_id args))
              (ea_evidence_paths args) w)
    as (rs & w' & Hrun & _ & _ & _ & _ & Hall).
  exists rs, w'. unfold evidence_validator, mbind, M_bind. now rewrite Hrun.
Qed.

Lemma take_length (n : nat) (s : string) : (String.length (Py.take n s) <= n)%nat.
Proof.
  revert s. induction n as [|n IH]; intros [|c s]; simpl; try lia.
  specialize (IH s). lia.
Qed.

End EvidenceFacts.

(** X13. evidence_validator raises nothing, whatever the paths hold: it
    returns one result per path, in the order given, each file read once.
    A file that cannot be read is reported unreadable with an empty excerpt
    and no match; a readable one with the first 2000 characters of its
    text, so no excerpt is longer than that. *)
Theorem evidence_validator_reports_every_path (args : EvidenceArgs) (w : World) :
  exists rs w',
    evidence_validator args w = (Ok (mk_EvidenceResult (ea_control_id args) rs), w')
    /\ map fr_path rs = ea_evidence_paths args
    /\ reads w' = reads w ++ ea_evidence_paths args
    /\ Forall (reported (texts w) (_normalize (ea_control_id args))) rs
    /\ Forall (fun r => (String.length (fr_excerpt r) <= 2000)%nat) rs.
Proof.
  destruct (validate_paths_spec (_normalize (ea_control_id args))
              (ea_evidence_paths args) w)
    as (rs & w' & Hrun & _ & _ & Hr & Hp & Hall).
  exists rs, w'. unfold evidence_validator, mbind, M_bind. rewrite Hrun.
  repeat split; try assumption.
  eapply Forall_impl; [exact Hall |]. intros r Hrep. unfold reported in Hrep.
  destruct (texts w (fr_path r)).
  - destruct Hrep as (_ & -> & _). apply take_length.
  - destruct Hrep as (_ & -> & _). simpl. lia.
Qed.

(** X14. The match hint of a readable file is true when its text mentions
    the control id in any letter case, and also whenever the control id is
    blank: the empty token occurs in every text. *)
Theorem evidence_match_ignores_case
    (args : EvidenceArgs) (w w' : World) (res : EvidenceResult)
    (r : FileResult) (content : string) :
  evidence_validator args w = (Ok res, w') ->
  In r (er_file_results res) ->
  texts w (fr_path r) = Ok content ->
  _normalize (ea_control_id args) = ""
  \/ (exists k, occurs_in k content
                /\ Py.lower k = _normalize (ea_control_id args)) ->
  fr_readable r = true /\ fr_heuristic_match r = true.
Proof.
  intros Hrun Hin Ht Hid.
  destruct (evidence_validator_spec_aux args w) as (rs & w0 & Hrun0 & Hall).
  rewrite Hrun0 in Hrun. injection Hrun as <- _. simpl in Hin.
  rewrite Forall_forall in Hall.
  specialize (Hall r (proj2 (list_elem_of_In _ _) Hin)).
  unfold reported in Hall. rewrite Ht in Hall. destruct Hall as (-> & _ & ->).
  split; [reflexivity |].
  destruct Hid as [->|(k & Hocc & Hk)].
  - now destruct (_normalize content).
  - apply contains_spec.
    destruct (String.eqb_spec (_normalize (ea_control_id args)) "") as [->|Hne].
    + now exists "", (_normalize content).
    + apply (occurs_normalized _ k); auto using strip_normalize.
Qed.

Lemma evidence_match_ignores_case_witness :
  let r := mk_FileResult "evidence/access-policy.md" true
             "Accounts are reviewed under ac-2 every quarter." true in
  fr_readable r = true /\ fr_heuristic_match r = true.
Proof.
  intros r.
  apply (evidence_match_ignores_case
           (mk_EvidenceArgs " AC-2" ["evidence/missing.md"; "evidence/access-policy.md"])
           sample_world_full
           (log_read "evidence/access-policy.md"
              (log_read "evidence/missing.md" sample_world_full))
           (mk_EvidenceResult " AC-2"
              [ mk_FileResult "evidence/missing.md" false "" false; r ])
           r "Accounts are reviewed under ac-2 every quarter.").
  - reflexivity.
  - simpl. auto.
  - reflexivity.
  - right. exists "ac-2". split; [|reflexivity].
    now exists "Accounts are reviewed under ", " every quarter.".
Defined.

(** ** CMMC level gating: what counts *)

Section CountedFacts.

Lemma elem_of_implemented_set (impls : list Implementation) (n : string) :
  n ∈ implemented_set impls
  <-> exists item, In item impls /\ counts_as_implemented item = true
                   /\ _normalize (im_control_id item) = n.
Proof.
  induction impls as [|item impls IH]; simpl.
  - split; [set_solver | intros (? & [] & _)].
  - destruct (counts_as_implemented item) eqn:E.
    + rewrite elem_of_union, elem_of_singleton, IH. split.
      * intros [->|(x & ? & ? & ?)]; [exists item | exists x]; auto.
      * intros (x & [<-|?] & ? & ?); [left; congruence | right; eauto].
    + rewrite IH. split.
      * intros (x & ? & ? & ?). exists x. auto.
      * intros (x & [<-|?] & ? & ?); [congruence | eauto].
Qed.

Lemma member_ids_length (key : string) (l : list json) :
  forallb (has_str key) l = true -> length (member_ids key l) = length l.
Proof.
  induction l as [|x l IH]; simpl; [reflexivity |].
  intros [Hx Hl]%andb_prop. destruct (has_str_field _ _ Hx) as [s Hs].
  unfold member_ids in *. simpl. rewrite Hs. simpl. now rewrite IH.
Qed.

Lemma filter_all_length {A : Type} (P : A -> Prop) `{!forall x, Decision (P x)}
    (l : list A) :
  (forall x, In x l -> P x) -> length (filter P l) = length l.
Proof.
  induction l as [|x l IH]; intros HP; [reflexivity |].
  rewrite filter_cons_True by (apply HP; now left).
  simpl. rewrite IH; [reflexivity |]. intros y Hy. apply HP. now right.
Qed.

Lemma filter_none_length {A : Type} (P : A -> Prop) `{!forall x, Decision (P x)}
    (l : list A) :
  (forall x, In x l -> ~ P x) -> length (filter P l) = O.
Proof.
  induction l as [|x l IH]; intros HP; [reflexivity |].
  rewrite filter_cons_False by (apply HP; now left).
  apply IH. intros y Hy. apply HP. now right.
Qed.

Lemma levels_achieved_all (implemented : gset string) (levels : list json) :
  (forall level, In level levels -> missing_count implemented level = O) ->
  levels_achieved implemented levels = length levels.
Proof.
  induction levels as [|level levels IH]; intros H; simpl; [reflexivity |].
  rewrite (H level (or_introl eq_refl)). f_equal. apply IH.
  intros l Hl. apply H. now right.
Qed.

End CountedFacts.

(** X15. The level check depends on the implementations only through the
    normalized ids of the items whose status is implemented or satisfied:
    items in another status, the order of the items and repetitions
    change nothing. *)
Theorem cmmc_result_depends_on_counted_ids
    (w : World) (impls1 impls2 : list Implementation) :
  (forall n,
     (exists item, In item impls1 /\ counts_as_implemented item = true
                   /\ _normalize (im_control_id item) = n)
     <-> (exists item, In item impls2 /\ counts_as_implemented item = true
                       /\ _normalize (im_control_id item) = n)) ->
  cmmc_level_checker impls1 w = cmmc_level_checker impls2 w.
Proof.
  intros H.
  assert (Hset : implemented_set impls1 = implemented_set impls2).
  { apply set_eq. intros n. now rewrite !elem_of_implemented_set. }
  unfold cmmc_level_checker. now rewrite Hset.
Qed.

Lemma cmmc_result_depends_on_counted_ids_witness :
  cmmc_level_checker
    [ mk_Implementation "AC.L1-3.1.1" "implemented";
      mk_Implementation "AC.L1-3.1.2" "planned" ] sample_world
  = cmmc_level_checker
      [ mk_Implementation "AC.L2-3.1.3" "not implemented";
        mk_Implementation " ac.l1-3.1.1" "Satisfied ";
        mk_Implementation "AC.L1-3.1.1" "implemented" ] sample_world.
Proof.
  apply cmmc_result_depends_on_counted_ids. intros n. split.
  - intros (item & [<-|[<-|[]]] & Hc & <-); [|discriminate].
    exists (mk_Implementation "AC.L1-3.1.1" "implemented"). simpl. auto.
  - intros (item & [<-|[<-|[<-|[]]]] & Hc & <-); [discriminate | |];
      exists (mk_Implementation "AC.L1-3.1.1" "implemented"); simpl; auto.
Defined.

(** X16. With no implementation that counts, and a first level that has
    practices, the level is "None" and gaps_to_next_level is the number of
    practices of the first level. *)
Theorem cmmc_nothing_implemented
    (w : World) (kvs lkvs : list (string * json))
    (levels practices : list json) (p : json) (impls : list Implementation) :
  files w (path_join (data_dir w) "cmmc-2.0-practices.json") = Ok (JObj kvs) ->
  wf_document (JObj kvs) = true ->
  Json.assoc "levels" kvs = Some (JList (JObj lkvs :: levels)) ->
  Json.assoc "practices" lkvs = Some (JList (p :: practices)) ->
  (forall item, In item impls -> counts_as_implemented item = false) ->
  fst (cmmc_level_checker impls w)
  = Ok (mk_CmmcResult (JStr "None") (S (length practices))).
Proof.
  intros Hd Hwf Hl Hp Hnone.
  rewrite (cmmc_level_checker_spec w (JObj kvs) impls Hd Hwf).
  assert (Hset : implemented_set impls = ∅).
  { apply set_eq. intros n. rewrite elem_of_implemented_set. split.
    - intros (item & Hin & Hc & _). rewrite (Hnone item Hin) in Hc. discriminate.
    - set_solver. }
  rewrite Hset. cbn [array_field fst]. rewrite Hl.
  assert (Hps : forallb (has_str "id") (p :: practices) = true).
  { simpl in Hwf. rewrite Hl in Hwf.
    apply andb_prop in Hwf as [Hwf _]. apply andb_prop in Hwf as [Hwf _].
    apply andb_prop in Hwf as [_ Hwf]. simpl in Hwf.
    apply andb_prop in Hwf as [Hwf _]. now rewrite Hp in Hwf. }
  assert (Hcount : missing_count ∅ (JObj lkvs) = S (length practices)).
  { unfold missing_count. cbn [array_field]. rewrite Hp.
    rewrite filter_all_length by set_solver.
    now rewrite (member_ids_length _ _ Hps). }
  cbn [levels_achieved]. rewrite Hcount. cbn [level_label].
  unfold gaps_after. cbn [nth_error]. now rewrite Hcount.
Qed.

Lemma cmmc_nothing_implemented_witness :
  fst (cmmc_level_checker [mk_Implementation "AC.L1-3.1.1" "planned"] sample_world)
  = Ok (mk_CmmcResult (JStr "None") 2).
Proof.
  apply (cmmc_nothing_implemented sample_world
           [ ("levels", JList [
                JObj [ ("level", JStr "Level 1");
                       ("practices", JList [
                          JObj [("id", JStr "AC.L1-3.1.1")];
                          JObj [("id", JStr "AC.L1-3.1.2")] ]) ];
                JObj [ ("level", JStr "Level 2");
                       ("practices", JList [
                          JObj [("id", JStr "AC.L2-3.1.3")];
                          JObj [("id", JStr "AC.L2-3.1.4")];
                          JObj [("id", JStr "AC.L2-3.1.5")] ]) ] ]) ]
           [ ("level", JStr "Level 1");
             ("practices", JList [
                JObj [("id", JStr "AC.L1-3.1.1")];
                JObj [("id", JStr "AC.L1-3.1.2")] ]) ]
           [ JObj [ ("level", JStr "Level 2");
                    ("practices", JList [
                       JObj [("id", JStr "AC.L2-3.1.3")];
                       JObj [("id", JStr "AC.L2-3.1.4")];
                       JObj [("id", JStr "AC.L2-3.1.5")] ]) ] ]
           [ JObj [("id", JStr "AC.L1-3.1.2")] ]
           (JObj [("id", JStr "AC.L1-3.1.1")]));
    try reflexivity.
  intros item [<-|[]]. reflexivity.
Defined.

(** X17. When every practice of every level is implemented or satisfied,
    all the levels are achieved: the level reported is the label of the
    last declared level and gaps_to_next_level is 0. *)
Theorem cmmc_everything_implemented
    (w : World) (data : json) (impls : list Implementation) :
  files w (path_join (data_dir w) "cmmc-2.0-practices.json") = Ok data ->
  wf_document data = true ->
  (forall id, In id (group_ids "levels" "practices" data) ->
     exists item, In item impls /\ counts_as_implemented item = true
                  /\ _normalize (im_control_id item) = _normalize id) ->
  fst (cmmc_level_checker impls w)
  = Ok (mk_CmmcResult
          (level_label (array_field "levels" data)
                       (length (array_field "levels" data)))
          0).
Proof.
  intros Hd Hwf Hall.
  rewrite (cmmc_level_checker_spec w data impls Hd Hwf). cbn [fst].
  assert (Hk : levels_achieved (implemented_set impls) (array_field "levels" data)
               = length (array_field "levels" data)).
  { apply levels_achieved_all. intros level Hlevel. unfold missing_count.
    apply filter_none_length. intros id Hid Hout. apply Hout.
    apply elem_of_implemented_set. apply Hall. unfold group_ids.
    apply in_concat. eexists. split; [|exact Hid].
    apply in_map_iff. eauto. }
  rewrite Hk. unfold gaps_after.
  now rewrite (proj2 (nth_error_None _ _) (Nat.le_refl _)).
Qed.

Lemma cmmc_everything_implemented_witness :
  fst (cmmc_level_checker
         [ mk_Implementation "ac.l2-3.1.5" "implemented";
           mk_Implementation "ac.l2-3.1.4" "implemented";
           mk_Implementation "ac.l2-3.1.3" "satisfied";
           mk_Implementation "ac.l1-3.1.2" "implemented";
           mk_Implementation "ac.l1-3.1.1" "implemented" ] sample_world)
  = Ok (mk_CmmcResult (JStr "Level 2") 0).
Proof.
  apply (cmmc_everything_implemented sample_world sample_cmmc); try reflexivity.
  intros id Hid. vm_compute in Hid.
  destruct Hid as [<-|[<-|[<-|[<-|[<-|[]]]]]].
  - exists (mk_Implementation "ac.l1-3.1.1" "implemented"). simpl. auto 10.
  - exists (mk_Implementation "ac.l1-3.1.2" "implemented"). simpl. auto 10.
  - exists (mk_Implementation "ac.l2-3.1.3" "satisfied"). simpl. auto 10.
  - exists (mk_Implementation "ac.l2-3.1.4" "implemented"). simpl. auto 10.
  - exists (mk_Implementation "ac.l2-3.1.5" "implemented"). simpl. auto 10.
Defined.

(** ** Finding generation: defaults, identifier and bounds *)

Section FindingFacts.

Lemma finding_generator_runs (w : World) (args : FindingArgs) (days : Z) :
  get_or remediation_table (default "moderate" (risk_level args)) 180 = days ->
  0 <= days ->
  1 <= ordinal (clock w) ->
  ordinal (clock w) + days <= Date.MAXORDINAL ->
  exists f,
    finding_generator args w
    = (Ok f, mk_World (data_dir w) (files w) (texts w) (clock w) (rng w)
                      (S (rng_pos w)) (reads w))
    /\ finding_id f
       = "F-" +:+ Date.strftime_compact (clock w) +:+ "-"
         +:+ Py.str_of_Z (100 + rng w (rng_pos w) mod 900)
    /\ Date.ordinal_of_iso (original_detection_date (poam_entry f))
       = Some (ordinal (clock w))
    /\ Date.ordinal_of_iso (scheduled_completion_date (poam_entry f))
       = Some (ordinal (clock w) + days)
    /\ map (fun m => Date.ordinal_of_iso (due_date m)) (milestones (poam_entry f))
       = [Some (ordinal (clock w) + days / 2); Some (ordinal (clock w) + days)].
Proof.
  intros Htab Hpos Hlo Hhi.
  assert (Hhalf : 0 <= days / 2 <= days)
    by (split; [apply Z.div_pos; lia | apply Z.div_le_upper_bound; lia]).
  unfold finding_generator, mbind, M_bind, now, lift, randint.
  cbn [fst snd]. rewrite Htab. unfold Date.add_days.
  replace ((1 <=? ordinal (clock w) + days)
           && (ordinal (clock w) + days <=? Date.MAXORDINAL)) with true
    by (symmetry; apply andb_true_intro; split; apply Z.leb_le; lia).
  replace ((1 <=? ordinal (clock w) + days / 2)
           && (ordinal (clock w) + days / 2 <=? Date.MAXORDINAL)) with true
    by (symmetry; apply andb_true_intro; split; apply Z.leb_le; lia).
  eexists. split; [reflexivity |].
  cbn [finding_id poam_entry original_detection_date scheduled_completion_date
       milestones map due_date].
  split; [reflexivity |]. split; [|split].
  - apply iso_round_trip. lia.
  - apply (iso_round_trip (mk_datetime _ _)). simpl. lia.
  - f_equal; [|f_equal]; apply (iso_round_trip (mk_datetime _ _)); simpl; lia.
Qed.

End FindingFacts.

(** X18. A risk level that is absent, or is not exactly one of critical,
    high, moderate and low (for instance "High"), gets the timeline of
    moderate: completion 180 days after detection, first milestone after
    90. *)
Theorem unknown_risk_level_gets_180_days (w : World) (args : FindingArgs) :
  (forall risk, risk_level args = Some risk ->
     ~ In risk ["critical"; "high"; "moderate"; "low"]) ->
  1 <= ordinal (clock w) ->
  ordinal (clock w) + 180 <= Date.MAXORDINAL ->
  exists f w',
    finding_generator args w = (Ok f, w')
    /\ Date.ordinal_of_iso (original_detection_date (poam_entry f))
       = Some (ordinal (clock w))
    /\ Date.ordinal_of_iso (scheduled_completion_date (poam_entry f))
       = Some (ordinal (clock w) + 180)
    /\ map (fun m => Date.ordinal_of_iso (due_date m)) (milestones (poam_entry f))
       = [Some (ordinal (clock w) + 90); Some (ordinal (clock w) + 180)].
Proof.
  intros Hrisk Hlo Hhi.
  assert (Htab : get_or remediation_table (default "moderate" (risk_level args)) 180
                 = 180).
  { destruct (risk_level args) as [risk|]; [|reflexivity].
    specialize (Hrisk risk eq_refl). simpl in *.
    unfold get_or, remediation_table. simpl.
    destruct (String.eqb_spec risk "critical"); [exfalso; auto |].
    destruct (String.eqb_spec risk "high"); [exfalso; auto |].
    destruct (String.eqb_spec risk "moderate"); [exfalso; auto |].
    destruct (String.eqb_spec risk "low"); [exfalso; auto 10 | reflexivity]. }
  destruct (finding_generator_runs w args 180 Htab ltac:(lia) Hlo Hhi)
    as (f & Hrun & _ & Hd & Hc & Hm).
  exists f. eexists. split; [exact Hrun |]. auto.
Qed.

Lemma unknown_risk_level_gets_180_days_witness :
  exists f w',
    finding_generator (mk_FindingArgs "MFA is not enforced" (Some "High"))
                      sample_world = (Ok f, w')
    /\ Date.ordinal_of_iso (original_detection_date (poam_entry f)) = Some 739000
    /\ Date.ordinal_of_iso (scheduled_completion_date (poam_entry f))
       = Some (739000 + 180)
    /\ map (fun m => Date.ordinal_of_iso (due_date m)) (milestones (poam_entry f))
       = [Some (739000 + 90); Some (739000 + 180)].
Proof.
  apply (unknown_risk_level_gets_180_days sample_world
           (mk_FindingArgs "MFA is not enforced" (Some "High"))).
  - intros risk [= <-] [H|[H|[H|[H|[]]]]]; discriminate.
  - simpl. lia.
  - vm_compute. discriminate.
Defined.

(** X19. A finding that is generated has the identifier "F-", the date of
    the clock as YYYYMMDD, "-" and a number between 100 and 999; one
    random draw is made for it, no file is read, and files, clock and
    generator are otherwise left as they were. *)
Theorem finding_id_is_dated_with_three_digits
    (w w' : World) (args : FindingArgs) (f : Finding) :
  finding_generator args w = (Ok f, w') ->
  (exists n, 100 <= n <= 999
             /\ finding_id f
                = "F-" +:+ Date.strftime_compact (clock w) +:+ "-" +:+ Py.str_of_Z n)
  /\ rng_pos w' = S (rng_pos w)
  /\ reads w' = reads w /\ files w' = files w /\ clock w' = clock w.
Proof.
  unfold finding_generator, mbind, M_bind, now, lift, randint. cbn [fst snd].
  destruct (Date.add_days (clock w) _); [|discriminate].
  destruct (Date.add_days (clock w) _); [|discriminate].
  intros [= <- <-]. cbn [finding_id rng_pos reads files clock].
  split; [|auto]. eexists. split; [|reflexivity].
  pose proof (Z.mod_pos_bound (rng w (rng_pos w)) (999 - 100 + 1) ltac:(lia)).
  lia.
Qed.

Lemma finding_id_is_dated_with_three_digits_witness :
  (exists n, 100 <= n <= 999
             /\ "F-20240424-100"
                = "F-" +:+ Date.strftime_compact (clock sample_world) +:+ "-"
                  +:+ Py.str_of_Z n)
  /\ 1%nat = S (rng_pos sample_world)
  /\ [] = reads sample_world /\ sample_files = files sample_world
  /\ mk_datetime 739000 0 = clock sample_world.
Proof.
  pose proof (finding_id_is_dated_with_three_digits sample_world
           (snd (finding_generator (mk_FindingArgs "gap" None) sample_world))
           (mk_FindingArgs "gap" None)
           (match fst (finding_generator (mk_FindingArgs "gap" None) sample_world) with
            | Ok f => f
            | Raise _ => mk_Finding "" false
                           (mk_PoamEntry "" "" "" "" [] "" "" false "" false false) []
            end)
           eq_refl) as H.
  exact H.
Defined.

(** X20. When the completion date would fall after 9999-12-31,
    finding_generator raises OverflowError; no random draw is made and no
    finding is returned. *)
Theorem finding_generator_overflows_at_calendar_end
    (w : World) (args : FindingArgs) :
  Date.MAXORDINAL
  < ordinal (clock w)
    + get_or remediation_table (default "moderate" (risk_level args)) 180 ->
  finding_generator args w = (Raise OverflowError, w).
Proof.
  intros H. unfold finding_generator, mbind, M_bind, now, lift.
  cbn [fst snd]. unfold Date.add_days.
  replace (ordinal (clock w)
           + get_or remediation_table (default "moderate" (risk_level args)) 180
           <=? Date.MAXORDINAL) with false
    by (symmetry; apply Z.leb_gt; lia).
  now rewrite andb_false_r.
Qed.

Lemma finding_generator_overflows_at_calendar_end_witness :
  finding_generator (mk_FindingArgs "gap" (Some "critical"))
    (mk_World "/repo/data" sample_files (fun _ => Raise OSError)
              (mk_datetime 3652040 0) (fun n => Z.of_nat n) 0 [])
  = (Raise OverflowError,
     mk_World "/repo/data" sample_files (fun _ => Raise OSError)
              (mk_datetime 3652040 0) (fun n => Z.of_nat n) 0 []).
Proof.
  apply finding_generator_overflows_at_calendar_end. vm_compute. reflexivity.
Defined.

(** ** The table scan: records, narrative and parts *)

Section TableFacts.

Lemma cis_cells_control_id (acc : Cis) (cell_texts : list string) :
  cis_control_id (cis_cells acc cell_texts) = cis_control_id acc.
Proof.
  revert acc. induction cell_texts as [|text rest IH]; intros acc;
    [reflexivity |].
  cbn [cis_cells]. rewrite IH.
  destruct (Py.startswith "Responsible Role:" _); [reflexivity |].
  destruct (Py.startswith "Implementation Status" _); [reflexivity |].
  destruct (Py.startswith "Control Origination" _); [reflexivity |].
  destruct (Py.startswith "Parameter " _); [|reflexivity].
  now destruct (Re.PARAMETER _) as [[? ?]|].
Qed.

Lemma parse_cis_table_id (cell_texts : list string) :
  option_map cis_control_id (_parse_cis_table cell_texts) = summary_id cell_texts.
Proof.
  destruct cell_texts as [|header cells]; [reflexivity |].
  unfold _parse_cis_table, summary_id.
  destruct (Re.CIS_HEADER header); [|reflexivity].
  cbn [option_map]. now rewrite cis_cells_control_id.
Qed.

Lemma statement_table_is_no_summary (t : list string) :
  is_statement_table t = true -> _parse_cis_table t = None.
Proof.
  destruct t as [|header cells]; [discriminate |]. simpl.
  destruct (Re.STATEMENT_HEADER header) as [cid|] eqn:E; [|discriminate].
  now rewrite (headers_disjoint _ _ E).
Qed.

Lemma extract_controls_ids_bounded (n : nat) (tables : list (list string)) :
  (length tables <= n)%nat ->
  map control_id (extract_controls tables) = omap summary_id tables.
Proof.
  revert tables. induction n as [|n IH]; intros tables Hlen.
  - destruct tables; [reflexivity | simpl in Hlen; lia].
  - destruct tables as [|t rest]; [reflexivity |].
    simpl in Hlen. cbn [extract_controls omap list_omap].
    pose proof (parse_cis_table_id t) as Hid.
    destruct (_parse_cis_table t) as [cis|]; simpl in Hid; rewrite <- Hid.
    + destruct rest as [|nxt rest'].
      * reflexivity.
      * destruct (is_statement_table nxt) eqn:Es.
        -- destruct (_parse_statement_table nxt) as [parts raw].
           cbn [map omap list_omap make_control control_id].
           pose proof (parse_cis_table_id nxt) as Hn.
           rewrite (statement_table_is_no_summary _ Es) in Hn.
           simpl in Hn. rewrite <- Hn. f_equal. apply IH. simpl in Hlen. lia.
        -- cbn [map make_control control_id]. f_equal. apply IH. lia.
    + apply IH. lia.
Qed.

Lemma statement_cells_lines (parts : gmap string string) (lines : list string)
    (cell_texts : list string) :
  snd (statement_cells parts lines cell_texts)
  = lines ++ List.filter (fun s => negb (String.eqb s ""))
                         (map Py.strip cell_texts).
Proof.
  revert parts lines. induction cell_texts as [|text rest IH];
    intros parts lines; cbn [statement_cells map List.filter].
  - now rewrite app_nil_r.
  - destruct (String.eqb (Py.strip text) ""); cbn [negb].
    + apply IH.
    + rewrite IH, <- app_assoc. reflexivity.
Qed.

Lemma part_label_letter (s : string) (letter : ascii) (after : string) :
  Re.PART_LABEL s = Some (letter, after) -> Re.is_letter letter = true.
Proof.
  unfold Re.PART_LABEL.
  destruct (String.eqb _ "part"); [|discriminate].
  destruct (Re.spaces1 _) as [s1|]; [|discriminate].
  set (s2 := match s1 with
             | String c r => if Ascii.eqb c "(" then r else s1
             | EmptyString => s1
             end).
  destruct s2 as [|l s3]; [discriminate |].
  destruct (Re.is_letter l) eqn:El; [|discriminate].
  match goal with
  | |- context [match ?x with String _ _ => _ | EmptyString => None end] =>
      destruct x as [|colon s5]; [discriminate |]
  end.
  destruct (Ascii.eqb colon ":"); [|discriminate].
  now intros [= <- _].
Qed.

Lemma lower_letter_is_letter (c : ascii) :
  Re.is_letter c = true ->
  Re.is_letter (Py.lower_char c) = true
  /\ Py.lower_char (Py.lower_char c) = Py.lower_char c.
Proof.
  intros H. split; [|apply lower_char_idem]. revert H.
  destruct c as [[] [] [] [] [] [] [] []]; vm_compute; intros H;
    first [reflexivity | discriminate H].
Qed.

Lemma statement_cells_parts (parts : gmap string string) (lines : list string)
    (cell_texts : list string) :
  (forall k v, parts !! k = Some v -> part_entry k v) ->
  forall k v, fst (statement_cells parts lines cell_texts) !! k = Some v ->
              part_entry k v.
Proof.
  revert parts lines. induction cell_texts as [|text rest IH];
    intros parts lines Hinv; cbn [statement_cells]; [exact Hinv |].
  destruct (String.eqb (Py.strip text) ""); [now apply IH |].
  apply IH. destruct (Re.PART_LABEL (Py.strip text)) as [[letter after]|] eqn:E;
    [|exact Hinv].
  intros k v [[<- <-]|[_ H]]%lookup_insert_Some; [|now apply Hinv].
  split; [|apply strip_idem].
  destruct (lower_letter_is_letter letter (part_label_letter _ _ _ E)) as [? ?].
  eauto.
Qed.

Lemma no_blank_lstrip (s : string) : no_blank s = true -> Py.lstrip s = s.
Proof. destruct s as [|c s]; simpl; [reflexivity |].
  now intros [->%negb_true_iff _]%andb_prop. Qed.

Lemma no_blank_rstrip (s : string) : no_blank s = true -> Py.rstrip s = s.
Proof.
  induction s as [|c s IH]; simpl; [reflexivity |].
  intros [Hc Hs]%andb_prop. rewrite (IH Hs).
  apply negb_true_iff in Hc. rewrite Hc. now destruct s.
Qed.

Lemma no_blank_app (s t : string) :
  no_blank (s +:+ t) = no_blank s && no_blank t.
Proof.
  induction s as [|c s IH]; simpl; [reflexivity |].
  now rewrite IH, andb_assoc.
Qed.

Lemma span_no_blank (p : ascii -> bool) (s a b : string) :
  (forall c, p c = true -> Py.isspace c = false) ->
  Re.span p s = (a, b) -> no_blank a = true.
Proof.
  intros Hp. revert a b. induction s as [|c s IH]; intros a b; simpl.
  - now intros [= <- _].
  - destruct (p c) eqn:Ec.
    + destruct (Re.span p s) as [a' b'] eqn:Es. intros [= <- _]. simpl.
      rewrite (Hp c Ec). simpl. now apply (IH a' b').
    + now intros [= <- _].
Qed.

Lemma digit_is_no_blank (c : ascii) : Re.is_digit c = true -> Py.isspace c = false.
Proof.
  destruct c as [[] [] [] [] [] [] [] []]; vm_compute; intros H;
    first [reflexivity | discriminate H].
Qed.

Lemma upper_is_no_blank (c : ascii) : Re.is_upper c = true -> Py.isspace c = false.
Proof.
  destruct c as [[] [] [] [] [] [] [] []]; vm_compute; intros H;
    first [reflexivity | discriminate H].
Qed.

Lemma digits1_no_blank (s ds rest : string) :
  Re.digits1 s = Some (ds, rest) -> no_blank ds = true.
Proof.
  unfold Re.digits1. destruct (Re.span Re.is_digit s) as [a b] eqn:E.
  pose proof (span_no_blank _ _ _ _ digit_is_no_blank E) as H.
  destruct a; [discriminate |]. now intros [= <- _].
Qed.

Lemma control_id_prefix_no_blank (s cid rest : string) :
  Re.control_id_prefix s = Some (cid, rest) -> no_blank cid = true.
Proof.
  unfold Re.control_id_prefix.
  destruct s as [|a [|b [|dash s1]]]; try discriminate.
  destruct (Re.is_upper a) eqn:Ea; [|discriminate].
  destruct (Re.is_upper b) eqn:Eb; [|discriminate].
  destruct (Ascii.eqb_spec dash "-") as [->|]; [|discriminate]. cbn [andb].
  destruct (Re.digits1 s1) as [[ds s2]|] eqn:Ed; [|discriminate].
  pose proof (digits1_no_blank _ _ _ Ed) as Hds.
  assert (Hbase : no_blank (String a (String b (String "-" ds))) = true).
  { simpl. now rewrite (upper_is_no_blank a Ea), (upper_is_no_blank b Eb). }
  destruct s2 as [|open s3]; [now intros [= <- _] |].
  destruct (Ascii.eqb_spec open "("); [|now intros [= <- _]].
  destruct (Re.digits1 s3) as [[es [|close s4]]|] eqn:Ee;
    try (now intros [= <- _]).
  destruct (Ascii.eqb close ")"); [|now intros [= <- _]].
  intros [= <- _].
  change (String a (String b (String "-" ds)) +:+ "(" +:+ es +:+ ")")
    with (String a (String b (String "-" (ds +:+ "(" +:+ es +:+ ")")))).
  simpl in Hbase |- *. 
  rewrite (upper_is_no_blank a Ea), (upper_is_no_blank b Eb) in *. simpl in *.
  rewrite no_blank_app, Hds. simpl. rewrite no_blank_app.
  now rewrite (digits1_no_blank _ _ _ Ee).
Qed.

Lemma cis_header_no_blank (header cid : string) :
  Re.CIS_HEADER header = Some cid -> no_blank cid = true.
Proof.
  unfold Re.CIS_HEADER, Re.match_header.
  destruct (Re.control_id_prefix header) as [[c rest]|] eqn:E; [|discriminate].
  destruct (Re.spaces1 rest); [|discriminate].
  destruct (Py.startswith _ _); [|discriminate].
  intros [= <-]. now apply (control_id_prefix_no_blank _ _ _ E).
Qed.

End TableFacts.

(** X21. The scan returns one record for every summary table, in the
    order of the document and under the id of its header in lower case:
    no summary table is taken for a statement table, and no other table
    gives a record. *)
Theorem one_record_per_summary_table (tables : list (list string)) :
  map control_id (extract_controls tables) = omap summary_id tables.
Proof. now apply (extract_controls_ids_bounded (length tables)). Qed.

(** X22. The raw narrative of a statement table is made of all its cells
    after the header, stripped, the blank ones left out, joined by line
    feeds in their order; the lines that carry a part label are in it as
    well, with their label. *)
Theorem narrative_keeps_every_line (cell_texts : list string) :
  snd (_parse_statement_table cell_texts)
  = Py.join (String "010" EmptyString)
      (List.filter (fun s => negb (String.eqb s ""))
                   (map Py.strip (tl cell_texts))).
Proof.
  unfold _parse_statement_table.
  pose proof (statement_cells_lines ∅ [] (tl cell_texts)) as H.
  destruct (statement_cells ∅ [] (tl cell_texts)) as [parts lines].
  simpl in *. now rewrite H.
Qed.

(** X23. Every key of the parts of a statement table is one letter in lower
    case, and every part text is stripped of the blanks around it. *)
Theorem parts_are_keyed_by_lowercase_letters
    (cell_texts : list string) (k v : string) :
  fst (_parse_statement_table cell_texts) !! k = Some v ->
  (exists c, k = String c EmptyString /\ Re.is_letter c = true
             /\ Py.lower_char c = c)
  /\ Py.strip v = v.
Proof.
  unfold _parse_statement_table.
  pose proof (statement_cells_parts ∅ [] (tl cell_texts)) as H.
  destruct (statement_cells ∅ [] (tl cell_texts)) as [parts lines].
  simpl in *. apply H. intros k' v' Hk. now rewrite lookup_empty in Hk.
Qed.

Lemma parts_are_keyed_by_lowercase_letters_witness :
  (exists c, "b" = String c EmptyString /\ Re.is_letter c = true
             /\ Py.lower_char c = c)
  /\ Py.strip "second part" = "second part".
Proof.
  apply (parts_are_keyed_by_lowercase_letters
           [ "AC-2 What is the solution and how is it implemented?";
             "Part a: first part"; "  PART (B):   second part  " ]
           "b" "second part").
  vm_compute. reflexivity.
Defined.

(** X24. Pairing needs the statement table right after the summary table:
    with a table in between that is neither a summary nor a statement
    table, the record of the summary table has no parts and no narrative,
    and the statement table is passed over. *)
Theorem table_in_between_breaks_the_pairing
    (summary other statement : list string) (rest : list (list string))
    (cis : Cis) :
  _parse_cis_table summary = Some cis ->
  _parse_cis_table other = None ->
  is_statement_table other = false ->
  is_statement_table statement = true ->
  extract_controls (summary :: other :: statement :: rest)
  = make_control cis ∅ "" :: extract_controls rest.
Proof.
  intros Hs Ho Hno Hst. cbn [extract_controls]. rewrite Hs, Hno, Ho.
  now rewrite (statement_table_is_no_summary _ Hst).
Qed.

Lemma table_in_between_breaks_the_pairing_witness :
  extract_controls
    [ ["AC-2 Control Summary Information"; "Responsible Role: ISSO"];
      ["Revision history"];
      ["AC-2 What is the solution and how is it implemented?";
       "Part a: Accounts are reviewed monthly."] ]
  = [ mk_ExtractedControl "ac-2" "" "" "ISSO" ∅ ∅ "" ].
Proof.
  apply (table_in_between_breaks_the_pairing
           ["AC-2 Control Summary Information"; "Responsible Role: ISSO"]
           ["Revision history"]
           ["AC-2 What is the solution and how is it implemented?";
            "Part a: Accounts are reviewed monthly."]
           [] (mk_Cis "ac-2" "" "" "ISSO" ∅));
    vm_compute; reflexivity.
Defined.

(** X25. The control id of every record is in the normalized form the
    lookups compare with: it has no blanks around it and no capital
    letter, so _normalize leaves it as it is. *)
Theorem extracted_ids_are_normalized
    (tables : list (list string)) (r : ExtractedControl) :
  In r (extract_controls tables) ->
  _normalize (control_id r) = control_id r.
Proof.
  intros Hin.
  assert (Hid : In (control_id r) (omap summary_id tables)).
  { rewrite <- (extract_controls_ids_bounded (length tables)) by reflexivity.
    now apply in_map. }
  apply list_elem_of_In, list_elem_of_omap in Hid as (t & _ & Ht).
  destruct t as [|header cells]; [discriminate |]. simpl in Ht.
  destruct (Re.CIS_HEADER header) as [cid|] eqn:E; [|discriminate].
  injection Ht as <-.
  pose proof (cis_header_no_blank _ _ E) as Hnb.
  unfold _normalize. rewrite <- lower_strip, lower_idem. f_equal.
  unfold Py.strip. now rewrite (no_blank_lstrip _ Hnb), (no_blank_rstrip _ Hnb).
Qed.

Lemma extracted_ids_are_normalized_witness :
  _normalize "ac-2(1)" = "ac-2(1)".
Proof.
  apply (extracted_ids_are_normalized
           [ ["Cover page"];
             ["AC-2(1) Control Summary Information"; "Responsible Role: ISSO"] ]
           (mk_ExtractedControl "ac-2(1)" "" "" "ISSO" ∅ ∅ "")).
  vm_compute. auto.
Defined.

(** ** Gap analysis: case and malformed requirements *)

Section GapEdgeFacts.

Lemma gaps_in_non_string (description : string) (reqs : list json) (x : json) :
  In x reqs -> (forall s, x <> JStr s) ->
  gaps_in description reqs = Raise AttributeError.
Proof.
  intros Hin Hx. induction reqs as [|req reqs IH]; [destruct Hin |].
  cbn [gaps_in]. destruct Hin as [->|Hin].
  - destruct x; try reflexivity. now destruct (Hx s).
  - destruct req; try reflexivity. now rewrite (IH Hin).
Qed.

Lemma gap_analyzer_resolved (w w' : World) (args : GapArgs) (c requirements : json)
    (reqs : list json) :
  _find_control (ga_framework args) (ga_control_id args) w = (Ok (Some c), w') ->
  Json.truthy c = true ->
  Json.get c "requirements" (JList []) = Ok requirements ->
  Json.iter requirements = Ok reqs ->
  gap_analyzer args w
  = (gaps ← gaps_in (_normalize (ga_implementation_description args)) reqs;
     Ok (mk_GapResult (ga_control_id args) requirements
           (ga_implementation_description args) gaps),
     w').
Proof.
  intros Hf Ht Hr Hi. unfold gap_analyzer, mbind at 1, M_bind.
  rewrite Hf, Ht. cbn [negb]. unfold lift. rewrite Hr.
  cbn [mbind result_bind]. now rewrite Hi.
Qed.

End GapEdgeFacts.

(** X26. A requirement whose text, stripped, occurs in the implementation
    description in any letter case is not reported as a gap, and neither
    is a blank requirement. *)
Theorem requirement_found_in_any_case_is_no_gap
    (w w' : World) (args : GapArgs) (c : json) (reqs : list string)
    (res : GapResult) (req : string) :
  _find_control (ga_framework args) (ga_control_id args) w = (Ok (Some c), w') ->
  Json.truthy c = true ->
  Json.get c "requirements" (JList []) = Ok (JList (map JStr reqs)) ->
  gap_analyzer args w = (Ok res, w') ->
  _normalize req = ""
  \/ (exists k, occurs_in k (ga_implementation_description args)
                /\ Py.lower k = _normalize req) ->
  ~ In req (gr_heuristic_gaps res).
Proof.
  intros Hf Ht Hr Hrun Hreq.
  rewrite (gap_analyzer_resolved w w' args c _ (map JStr reqs) Hf Ht Hr eq_refl)
    in Hrun.
  rewrite gaps_in_strings in Hrun. injection Hrun as <-. simpl.
  intros Hin%list_elem_of_In%list_elem_of_filter. destruct Hin as [Hno _].
  apply Hno. destruct Hreq as [->|(k & Hocc & Hk)].
  - now exists "", (_normalize (ga_implementation_description args)).
  - destruct (String.eqb_spec (_normalize req) "") as [->|Hne].
    + now exists "", (_normalize (ga_implementation_description args)).
    + apply (occurs_normalized _ k); auto using strip_normalize.
Qed.

Lemma requirement_found_in_any_case_is_no_gap_witness :
  fst (gap_analyzer
         (mk_GapArgs "NIST 800-53" "AC-6" "We enforce Least Privilege.  ")
         sample_world)
  = Ok (mk_GapResult "AC-6"
          (JList [JStr "least privilege"; JStr "audit logging"])
          "We enforce Least Privilege.  " ["audit logging"])
  /\ ~ In "least privilege" ["audit logging"].
Proof.
  split; [reflexivity |].
  apply (requirement_found_in_any_case_is_no_gap
           sample_world
           (log_read "/repo/data/nist-800-53-r5.json" sample_world)
           (mk_GapArgs "NIST 800-53" "AC-6" "We enforce Least Privilege.  ")
           (JObj [ ("id", JStr "AC-6"); ("name", JStr "Least Privilege");
                   ("requirements",
                    JList [JStr "least privilege"; JStr "audit logging"]) ])
           ["least privilege"; "audit logging"]
           (mk_GapResult "AC-6"
              (JList [JStr "least privilege"; JStr "audit logging"])
              "We enforce Least Privilege.  " ["audit logging"])
           "least privilege");
    try reflexivity.
  right. exists "Least Privilege". split; [|reflexivity].
  now exists "We enforce ", ".  ".
Defined.

(** X27. A requirement that is not a string makes gap_analyzer raise
    AttributeError, wherever it stands in the list: no gaps are returned
    for the other requirements. *)
Theorem non_string_requirement_raises
    (w w' : World) (args : GapArgs) (c x : json) (reqs : list json) :
  _find_control (ga_framework args) (ga_control_id args) w = (Ok (Some c), w') ->
  Json.truthy c = true ->
  Json.get c "requirements" (JList []) = Ok (JList reqs) ->
  In x reqs -> (forall s, x <> JStr s) ->
  gap_analyzer args w = (Raise AttributeError, w').
Proof.
  intros Hf Ht Hr Hin Hx.
  rewrite (gap_analyzer_resolved w w' args c _ reqs Hf Ht Hr eq_refl).
  now rewrite (gaps_in_non_string _ reqs x Hin Hx).
Qed.

Lemma non_string_requirement_raises_witness :
  let w := mk_World "/d"
             (fun _ => Ok (JObj [("controls", JList [
                 JObj [("id", JStr "AC-1");
                       ("requirements", JList [JStr "policy"; JNum 3])]])]))
             (fun _ => Raise OSError) (mk_datetime 739000 0) (fun _ => 0) 0 [] in
  gap_analyzer (mk_GapArgs "GDPR" "ac-1" "we have a policy") w
  = (Raise AttributeError, log_read "/d/gdpr.json" w).
Proof.
  intros w.
  apply (non_string_requirement_raises w (log_read "/d/gdpr.json" w)
           (mk_GapArgs "GDPR" "ac-1" "we have a policy")
           (JObj [("id", JStr "AC-1");
                  ("requirements", JList [JStr "policy"; JNum 3])])
           (JNum 3) [JStr "policy"; JNum 3]);
    try reflexivity.
  - simpl. auto.
  - discriminate.
Defined.
